(** * The BoFire tutorial notebooks: reaction simulator, ask/tell loop, BNH metric

    Shallow embedding of the Python code in the code cells of
    [tutorials/basic_examples/Reaction_Optimization_Example.ipynb] and
    [tutorials/benchmarks/012-BNH.ipynb], and the properties of it that the
    specification states (Part III), followed by further properties that the
    code itself shows (Part IV).

    Conventions of the embedding.
    - Python floats are modelled by the real numbers [R]: the arithmetic is
      exact, and rounding, NaN and infinities are outside the model.  The
      temperature factor is modelled in floating-point arithmetic as well.
    - Python objects that are passed by reference (the domain, DataFrames) live
      in a heap [gmap loc obj]; functions receive and return references.
    - The module-level names of cell 14 ([T0], [T1], [e0], [e60], [de],
      [solvent_descriptors]) and numpy's global random generator are fields of
      the notebook state, which every function threads explicitly.
    - A Python exception is the [Raise] outcome of a computation.
    - The library (numpy, pandas, the domain and strategy classes) is not part
      of the notebooks: its operations are modelled by what the notebooks use
      of them, or taken as parameters. *)

From Stdlib Require Import Reals Lra Lia ZArith String List.

From Stdlib Require Import PrimFloat.

From Stdlib Require Uint63.

From stdpp Require Import base option list gmap strings.

Open Scope string_scope.

Open Scope R_scope.

(** * Part I: the code *)

(** ** Exceptions and outcomes *)

Inductive exn : Type :=
  | KeyError
  | AttributeError
  | TypeError
  | ValueError
  | IndexError.

Inductive result (A : Type) : Type :=
  | Ok (a : A)
  | Raise (e : exn).

Arguments Ok {A} a.

Arguments Raise {A} e.

Definition result_bind {A B} (r : result A) (k : A -> result B) : result B :=
  match r with
  | Ok a => k a
  | Raise e => Raise e
  end.

(** [mapM] for [result]: the first failing element decides the exception. *)
Fixpoint result_mapM {A B} (f : A -> result B) (l : list A) : result (list B) :=
  match l with
  | [] => Ok []
  | a :: l' =>
      result_bind (f a) (fun b =>
      result_bind (result_mapM f l') (fun bs => Ok (b :: bs)))
  end.

(** ** numpy arrays and pandas tables *)

(** One element of an array: a float, or a Python [str].  An array all of
    whose elements are floats stands for an array of dtype float64, an array
    with a [str] for an array of dtype object. *)
Inductive cell : Type :=
  | Flt (x : R)
  | Str (s : string).

Definition ndarray : Type := list cell.

(** Row labels of an index: integers ([RangeIndex]), floats or strings. *)
Inductive label : Type :=
  | IntLabel (z : Z)
  | FloatLabel (x : R)
  | StrLabel (s : string).

(** A DataFrame: its columns in insertion order, and its index. *)
Record DataFrame : Type := mkDataFrame {
  columns : list (string * ndarray);
  index : list label
}.

(** A Series: an index and the values. *)
Record Series : Type := mkSeries {
  s_index : list label;
  s_values : ndarray
}.

Definition RangeIndex (n : nat) : list label :=
  map (fun k => IntLabel (Z.of_nat k)) (seq 0 n).

(** Lookup in an insertion-ordered dictionary with string keys. *)
Fixpoint dict_get {V} (d : list (string * V)) (k : string) : option V :=
  match d with
  | [] => None
  | (k', v) :: d' => if String.eqb k' k then Some v else dict_get d' k
  end.

(** [d[k] = v]: overwrite in place when the key exists, append otherwise. *)
Fixpoint dict_set {V} (d : list (string * V)) (k : string) (v : V) : list (string * V) :=
  match d with
  | [] => [(k, v)]
  | (k', v') :: d' =>
      if String.eqb k' k then (k', v) :: d' else (k', v') :: dict_set d' k v
  end.

(** A dict display [{k1: v1, ..., kn: vn}], evaluated left to right. *)
Definition dict_display {V} (items : list (string * V)) : list (string * V) :=
  fold_left (fun d kv => dict_set d (fst kv) (snd kv)) items [].

(** [len(df)]: the number of rows. *)
Definition df_len (df : DataFrame) : nat := length (index df).

(** [df[name]]: column selection, [KeyError] when the column is absent. *)
Definition df_getitem (df : DataFrame) (name : string) : result Series :=
  match dict_get (columns df) name with
  | Some vs => Ok (mkSeries (index df) vs)
  | None => Raise KeyError
  end.

(** [name in df.columns]. *)
Definition df_has_column (df : DataFrame) (name : string) : bool :=
  match dict_get (columns df) name with
  | Some _ => true
  | None => false
  end.

(** [df.name]: attribute access to a column, [AttributeError] when absent. *)
Definition df_getattr (df : DataFrame) (name : string) : result Series :=
  match dict_get (columns df) name with
  | Some vs => Ok (mkSeries (index df) vs)
  | None => Raise AttributeError
  end.

(** Position of a label in an index of string labels. *)
Fixpoint index_get_loc (idx : list label) (k : string) : option nat :=
  match idx with
  | [] => None
  | StrLabel s :: idx' =>
      if String.eqb s k then Some 0%nat else option_map S (index_get_loc idx' k)
  | _ :: idx' => option_map S (index_get_loc idx' k)
  end.

(** [series[key]] for one key of a list-like of labels.  A float key is never
    found among string labels. *)
Definition series_loc1 (s : Series) (key : cell) : result cell :=
  match key with
  | Str k =>
      match index_get_loc (s_index s) k with
      | Some i =>
          match nth_error (s_values s) i with
          | Some v => Ok v
          | None => Raise KeyError
          end
      | None => Raise KeyError
      end
  | Flt _ => Raise KeyError
  end.

(** [series[keys]] for a list-like of labels: one row per requested label, in
    the order requested, [KeyError] if any label is missing. *)
Definition series_getitem (s : Series) (keys : ndarray) : result Series :=
  result_bind (result_mapM (series_loc1 s) keys) (fun vs =>
  Ok (mkSeries (map (fun k => match k with Str l => StrLabel l | Flt x => FloatLabel x end) keys)
               vs)).

(** Element-wise arithmetic.  A [str] element makes the operation raise
    [TypeError]; two operands of different lengths raise [ValueError]. *)
Definition as_float (c : cell) : result R :=
  match c with
  | Flt x => Ok x
  | Str _ => Raise TypeError
  end.

Definition ufunc1 (f : R -> R) (a : ndarray) : result ndarray :=
  result_mapM (fun c => result_bind (as_float c) (fun x => Ok (Flt (f x)))) a.

Fixpoint zip_cells (a b : ndarray) : list (cell * cell) :=
  match a, b with
  | x :: a', y :: b' => (x, y) :: zip_cells a' b'
  | _, _ => []
  end.

Definition ufunc2 (f : R -> R -> R) (a b : ndarray) : result ndarray :=
  if Nat.eqb (length a) (length b)
  then result_mapM (fun xy =>
         result_bind (as_float (fst xy)) (fun x =>
         result_bind (as_float (snd xy)) (fun y => Ok (Flt (f x y))))) (zip_cells a b)
  else Raise ValueError.

(** [np.ones(n)]. *)
Definition np_ones (n : nat) : ndarray := repeat (Flt 1) n.

(** [np.ones(n)] for a Python integer: a negative size raises. *)
Definition np_ones_Z (n : Z) : result ndarray :=
  if Z.ltb n 0 then Raise ValueError else Ok (np_ones (Z.to_nat n)).

(** [pd.DataFrame(d)] for a dict of arrays: the columns must all have the same
    length, and the index is the default [RangeIndex]. *)
Definition DataFrame_of_dict (d : list (string * ndarray)) : result DataFrame :=
  match d with
  | [] => Ok (mkDataFrame [] [])
  | (_, a) :: _ =>
      if forallb (fun kv => Nat.eqb (length (snd kv)) (length a)) d
      then Ok (mkDataFrame d (RangeIndex (length a)))
      else Raise ValueError
  end.

(** [pd.DataFrame(d)] for a dict of dicts that all have the same keys: one
    column per outer key, one row per inner key. *)
Definition DataFrame_of_dicts (d : list (string * list (string * R))) : DataFrame :=
  mkDataFrame
    (map (fun kv => (fst kv, map (fun lv => Flt (snd lv)) (snd kv))) d)
    (match d with
     | [] => []
     | (_, inner) :: _ => map (fun lv => StrLabel (fst lv)) inner
     end).

(** [df.index = idx]: the new index must have one label per row. *)
Definition df_set_index (df : DataFrame) (idx : list label) : result DataFrame :=
  if Nat.eqb (length idx) (length (index df))
  then Ok (mkDataFrame (columns df) idx)
  else Raise ValueError.

(** [df.drop(names, axis=1)]: a new table without the named columns,
    [KeyError] when one of them is absent. *)
Definition df_drop_columns (df : DataFrame) (names : list string) : result DataFrame :=
  if forallb (df_has_column df) names
  then Ok (mkDataFrame
             (List.filter (fun kv => negb (existsb (String.eqb (fst kv)) names)) (columns df))
             (index df))
  else Raise KeyError.

(** Selection of the rows of a list by a boolean mask. *)
Fixpoint mask_select {A} (mask : list bool) (l : list A) : list A :=
  match mask, l with
  | b :: mask', x :: l' => if b then x :: mask_select mask' l' else mask_select mask' l'
  | _, _ => []
  end.

(** [df.loc[mask]]: the rows where the mask is true, with their labels. *)
Definition df_loc_mask (df : DataFrame) (mask : list bool) : DataFrame :=
  mkDataFrame (map (fun kv => (fst kv, mask_select mask (snd kv))) (columns df))
              (mask_select mask (index df)).

(** [series <= x] and [series >= x]: element-wise comparison with a number;
    a [str] element raises. *)
Definition series_le (s : Series) (x : R) : result (list bool) :=
  result_mapM (fun c => result_bind (as_float c) (fun v =>
                Ok (if Rle_dec v x then true else false))) (s_values s).

Definition series_ge (s : Series) (x : R) : result (list bool) :=
  result_mapM (fun c => result_bind (as_float c) (fun v =>
                Ok (if Rge_dec v x then true else false))) (s_values s).

(** [mask1 & mask2] for two masks over the same index. *)
Definition mask_and (m1 m2 : list bool) : result (list bool) :=
  if Nat.eqb (length m1) (length m2)
  then Ok (map (fun p => andb (fst p) (snd p)) (combine m1 m2))
  else Raise ValueError.

(** [l[i]] on a Python list with a non-negative index. *)
Definition list_getitem {A} (l : list A) (i : Z) : result A :=
  if Z.ltb i 0 then Raise IndexError
  else match nth_error l (Z.to_nat i) with
       | Some a => Ok a
       | None => Raise IndexError
       end.

(** ** The optimization domain *)

(** Modelled from the spec: the library's domain abstraction ("a description
    of an optimization problem's input parameters, output responses, and
    constraints"), whose classes are not part of the notebooks.  The features
    are those the notebooks construct and read: a continuous input with its
    bounds, a categorical input with its categories, a continuous output. *)
Inductive Feature : Type :=
  | ContinuousInput (key : string) (lower upper : R)
  | CategoricalInput (key : string) (cats : list string)
  | ContinuousOutput (key : string).

Record Domain : Type := mkDomain {
  inputs : list Feature;
  outputs : list Feature
}.

Definition key (f : Feature) : string :=
  match f with
  | ContinuousInput k _ _ => k
  | CategoricalInput k _ => k
  | ContinuousOutput k => k
  end.

(** Modelled from the spec: [features.get_by_key(k)] of the library, the
    feature whose key is [k], [KeyError] when there is none. *)
Fixpoint get_by_key (features : list Feature) (k : string) : result Feature :=
  match features with
  | [] => Raise KeyError
  | f :: features' => if String.eqb (key f) k then Ok f else get_by_key features' k
  end.

(** Attribute reads; a feature of another class has no such attribute. *)
Definition lower_bound (f : Feature) : result R :=
  match f with
  | ContinuousInput _ lo _ => Ok lo
  | _ => Raise AttributeError
  end.

Definition upper_bound (f : Feature) : result R :=
  match f with
  | ContinuousInput _ _ hi => Ok hi
  | _ => Raise AttributeError
  end.

Definition categories (f : Feature) : result (list string) :=
  match f with
  | CategoricalInput _ cs => Ok cs
  | _ => Raise AttributeError
  end.

(** ** Notebook state *)

Definition loc : Type := positive.

Inductive obj : Type :=
  | DomainObj (d : Domain)
  | FrameObj (df : DataFrame).

(** numpy's global generator, seen as an oracle: the [k]-th sample of the unit
    interval, the [k]-th integer drawn between two bounds, and the number of
    draws made so far. *)
Record RandomState : Type := mkRandomState {
  random_sample : nat -> R;
  random_integer : Z -> Z -> nat -> Z;
  drawn : nat
}.

(** What numpy documents of the oracle: [random_sample] lies in [[0, 1)] and
    [randint(low, high)] in [[low, high)]. *)
Definition generator_contract (g : RandomState) : Prop :=
  (forall k, 0 <= random_sample g k < 1) /\
  (forall low high k, (low < high)%Z -> (low <= random_integer g low high k < high)%Z).

(** The module-level names bound by cell 14. *)
Record Globals : Type := mkGlobals {
  T0 : R;
  T1 : R;
  e0 : R;
  e60 : R;
  de : R;
  solvent_descriptors : DataFrame
}.

Record Notebook : Type := mkNotebook {
  globals : Globals;
  heap : gmap loc obj;
  np_random : RandomState
}.

(** Computations: a state transformer with an outcome.  When an exception is
    raised the state is the one reached at the raise. *)
Definition M (A : Type) : Type := Notebook -> result A * Notebook.

Definition ret {A} (a : A) : M A := fun st => (Ok a, st).

Definition bind {A B} (m : M A) (k : A -> M B) : M B :=
  fun st =>
    match m st with
    | (Ok a, st') => k a st'
    | (Raise e, st') => (Raise e, st')
    end.

Notation "x <- m ;; k" := (bind m (fun x => k))
  (at level 100, m at next level, right associativity).

Notation "m ;;; k" := (bind m (fun _ => k))
  (at level 100, right associativity).

(** A pure step that may raise. *)
Definition lift {A} (r : result A) : M A := fun st => (r, st).

Definition get_global {A} (proj : Globals -> A) : M A :=
  fun st => (Ok (proj (globals st)), st).

(** Dereferencing.  A Python reference always designates a live object;
    using an object of the wrong class raises (reading an attribute of the
    domain: [AttributeError]; subscripting or [len]: [TypeError]), and a
    reference that is not in the heap is treated in the same way. *)
Definition read_domain (d : loc) : M Domain :=
  fun st =>
    match heap st !! d with
    | Some (DomainObj dom) => (Ok dom, st)
    | _ => (Raise AttributeError, st)
    end.

Definition read_frame (l : loc) : M DataFrame :=
  fun st =>
    match heap st !! l with
    | Some (FrameObj df) => (Ok df, st)
    | _ => (Raise TypeError, st)
    end.

(** Allocation of a new object at a reference not in use. *)
Definition new_loc (h : gmap loc obj) : loc := fresh (dom h).

Definition alloc (o : obj) : M loc :=
  fun st =>
    let l := new_loc (heap st) in
    (Ok l, mkNotebook (globals st) (<[l := o]> (heap st)) (np_random st)).

(** In-place update of the object behind a reference. *)
Definition store (l : loc) (o : obj) : M unit :=
  fun st => (Ok tt, mkNotebook (globals st) (<[l := o]> (heap st)) (np_random st)).

(** The generator after [k] more draws. *)
Definition advance (g : RandomState) (k : nat) : RandomState :=
  mkRandomState (random_sample g) (random_integer g) (drawn g + k).

Definition draw (k : nat) (st : Notebook) : Notebook :=
  mkNotebook (globals st) (heap st) (advance (np_random st) k).

(** [np.random.uniform(low, high, size=(n,))]: [n] successive samples of the
    unit interval, scaled to [[low, high)]; a negative size raises. *)
Definition np_random_uniform (low high : R) (n : Z) : M ndarray :=
  fun st =>
    if Z.ltb n 0 then (Raise ValueError, st)
    else
      let g := np_random st in
      (Ok (map (fun i => Flt (low + (high - low) * random_sample g (drawn g + i)))
               (seq 0 (Z.to_nat n))),
       draw (Z.to_nat n) st).

(** [np.random.randint(low, high)]: one draw. *)
Definition np_random_randint (low high : Z) : M Z :=
  fun st =>
    if Z.leb high low then (Raise ValueError, st)
    else
      let g := np_random st in
      (Ok (random_integer g low high (drawn g)), draw 1 st).

(** [[body for i in range(n)]]: the body is run [n] times, in order. *)
Fixpoint list_comprehension {A} (n : nat) (body : M A) : M (list A) :=
  match n with
  | O => ret []
  | S n' => x <- body ;; xs <- list_comprehension n' body ;; ret (x :: xs)
  end.

(** [domain.inputs] and [domain.outputs]. *)
Definition domain_inputs (domain : loc) : M (list Feature) :=
  d <- read_domain domain ;; ret (inputs d).

Definition domain_outputs (domain : loc) : M (list Feature) :=
  d <- read_domain domain ;; ret (outputs d).

(** ** Cell 1 of both notebooks: the smoke-test flag *)

(** [os.environ.get(name)]: the value of the variable, [None] when unset. *)
Definition os_environ_get (environ : gmap string string) (name : string) : option string :=
  environ !! name.

(** Truth value of an optional string: [None] and the empty string are false. *)
Definition truthy (v : option string) : bool :=
  match v with
  | None => false
  | Some s => negb (String.eqb s EmptyString)
  end.

(** ** Cells 4 to 8 of the reaction notebook: the reaction domain *)

Definition temperature_feature : Feature := ContinuousInput "Temperature" 0 60.

Definition solvent_amount_feature : Feature := ContinuousInput "Solvent Volume" 20 90.

Definition solvent_type_feature : Feature :=
  CategoricalInput "Solvent Type" ["MeOH"; "THF"; "Dioxane"].

Definition input_features : list Feature :=
  [temperature_feature; solvent_type_feature; solvent_amount_feature].

Definition yield_feature : Feature := ContinuousOutput "Yield".

Definition output_features : list Feature := [yield_feature].

Definition reaction_domain : Domain := mkDomain input_features output_features.

(** ** Cell 14 of the reaction notebook: the toy reaction *)

Definition boiling_points : list (string * R) :=
  [("MeOH", 64.7); ("THF", 66.0); ("Dioxane", 101.0)].

Definition density : list (string * R) :=
  [("MeOH", 0.792); ("THF", 0.886); ("Dioxane", 1.03)].

Definition descs : list (string * list (string * R)) :=
  [("boiling_points", boiling_points); ("density", density)].

(** The module-level assignments. *)
Definition cell14 : Globals :=
  let T0 := 25 in
  let T1 := 100 in
  let e0 := exp ((T1 + 0) / T0) in
  let e60 := exp ((T1 + 60) / T0) in
  let de := e60 - e0 in
  mkGlobals T0 T1 e0 e60 de (DataFrame_of_dicts descs).

Definition calc_volume_fact (V : ndarray) : M ndarray :=
  x <- lift (ufunc1 (fun V => (V - 20) / 70) V) ;;
  x <- lift (ufunc1 (fun x => 0.5 + (x - 0.75) * 0.1 + (x - 0.4) ^ 2) x) ;;
  ret x.

Definition calc_rhofact (solvent_type : ndarray) (Tfact : ndarray) : M ndarray :=
  sd <- get_global solvent_descriptors ;;
  col <- lift (df_getitem sd "density") ;;
  x <- lift (series_getitem col solvent_type) ;;
  a <- lift (ufunc1 (fun x => 1.5 - x) (s_values x)) ;;
  b <- lift (ufunc1 (fun Tfact => Tfact + 0.5) Tfact) ;;
  x <- lift (ufunc2 (fun a b => a * b / 2) a b) ;;
  ret x.

Definition calc_Tfact (T : ndarray) : M ndarray :=
  T1 <- get_global T1 ;;
  T0 <- get_global T0 ;;
  x <- lift (ufunc1 (fun T => exp ((T1 + T) / T0)) T) ;;
  e0 <- get_global e0 ;;
  de <- get_global de ;;
  lift (ufunc1 (fun x => (x - e0) / de) x).

Definition create_experiments
    (domain : loc) (nsamples : Z) (A B : R) (candidates : option loc) : M loc :=
  ins <- domain_inputs domain ;; Tf <- lift (get_by_key ins "Temperature") ;;
  ins <- domain_inputs domain ;; Vf <- lift (get_by_key ins "Solvent Volume") ;;
  ins <- domain_inputs domain ;; typef <- lift (get_by_key ins "Solvent Type") ;;
  outs <- domain_outputs domain ;; yf <- lift (get_by_key outs "Yield") ;;
  sampled <-
    match candidates with
    | None =>
        low <- lift (lower_bound Tf) ;; high <- lift (upper_bound Tf) ;;
        T <- np_random_uniform low high nsamples ;;
        low <- lift (lower_bound Vf) ;; high <- lift (upper_bound Vf) ;;
        V <- np_random_uniform low high nsamples ;;
        solvent_types <-
          list_comprehension (Z.to_nat nsamples)
            (ins <- domain_inputs domain ;;
             f <- lift (get_by_key ins "Solvent Type") ;;
             cs <- lift (categories f) ;;
             k <- np_random_randint 0 3 ;;
             c <- lift (list_getitem cs k) ;;
             ret (Str c)) ;;
        ret (nsamples, T, V, solvent_types)
    | Some candidates =>
        df <- read_frame candidates ;;
        let nsamples := Z.of_nat (df_len df) in
        T <- lift (df_getitem df "Temperature") ;;
        V <- lift (df_getitem df "Solvent Volume") ;;
        solvent_types <- lift (df_getitem df "Solvent Type") ;;
        ret (nsamples, s_values T, s_values V, s_values solvent_types)
    end ;;
  let '(nsamples, T, V, solvent_types) := sampled in
  Tfact <- calc_Tfact T ;;
  rhofact <- calc_rhofact solvent_types Tfact ;;
  Vfact <- calc_volume_fact V ;;
  a <- lift (ufunc1 (fun Tfact => A * Tfact) Tfact) ;;
  b <- lift (ufunc1 (fun rhofact => B * rhofact) rhofact) ;;
  y <- lift (ufunc2 Rplus a b) ;;
  a <- lift (ufunc1 (fun y => 0.5 * y) y) ;;
  b <- lift (ufunc1 (fun y => 0.5 * y) y) ;;
  b <- lift (ufunc2 Rmult b Vfact) ;;
  y <- lift (ufunc2 Rplus a b) ;;
  ones <- lift (np_ones_Z nsamples) ;;
  df <- lift (DataFrame_of_dict (dict_display
          [(key Tf, T); (key Vf, V); (key yf, y); (key typef, solvent_types);
           ("valid_" ++ key yf, ones)])) ;;
  samples <- alloc (FrameObj df) ;;
  df <- read_frame samples ;;
  df <- lift (df_set_index df (RangeIndex (Z.to_nat nsamples))) ;;
  store samples (FrameObj df) ;;;
  ret samples.

Definition create_candidates (domain : loc) (nsamples : Z) : M loc :=
  experiments <- create_experiments domain nsamples 25 90 None ;;
  df <- read_frame experiments ;;
  df <- lift (df_drop_columns df ["Yield"; "valid_Yield"]) ;;
  candidates <- alloc (FrameObj df) ;;
  ret candidates.

Definition evaluate_experiments (domain : loc) (candidates : option loc) : M loc :=
  create_experiments domain 100 25 90 candidates.

(** ** Cell 14 in floating-point arithmetic: the temperature factor *)

(** The arithmetic of one element of an array: the conversion of the integer
    constants, the three operations of the formula, and numpy's [exp]. *)
Record Arithmetic (F : Type) : Type := mkArithmetic {
  of_int : Z -> F;
  f_add : F -> F -> F;
  f_sub : F -> F -> F;
  f_div : F -> F -> F;
  f_exp : F -> F
}.

Arguments of_int {F} _ _.
Arguments f_add {F} _ _ _.
Arguments f_sub {F} _ _ _.
Arguments f_div {F} _ _ _.
Arguments f_exp {F} _ _.

(** The module-level constants [e0], [e60] and [de] of cell 14, and
    [calc_Tfact] on one element, in the arithmetic [ar]. *)
Definition e0_in {F} (ar : Arithmetic F) : F :=
  f_exp ar (f_div ar (f_add ar (of_int ar 100) (of_int ar 0)) (of_int ar 25)).

Definition e60_in {F} (ar : Arithmetic F) : F :=
  f_exp ar (f_div ar (f_add ar (of_int ar 100) (of_int ar 60)) (of_int ar 25)).

Definition de_in {F} (ar : Arithmetic F) : F := f_sub ar (e60_in ar) (e0_in ar).

Definition calc_Tfact_in {F} (ar : Arithmetic F) (T : F) : F :=
  let x := f_exp ar (f_div ar (f_add ar (of_int ar 100) T) (of_int ar 25)) in
  f_div ar (f_sub ar x (e0_in ar)) (de_in ar).

(** The arithmetic of the machine: binary64 numbers with the operations of
    IEEE 754, and numpy's [exp], a function of the library. *)
Definition binary64 (np_exp : float -> float) : Arithmetic float :=
  mkArithmetic float (fun z => PrimFloat.of_uint63 (Uint63.of_Z z))
               PrimFloat.add PrimFloat.sub PrimFloat.div np_exp.

(** ** Cell 42 of the reaction notebook: the optimization loop *)

(** What the loop does to the strategy and the simulator, in order. *)
Inductive Event : Type :=
  | Asked (n : Z) (candidate : loc)
  | Evaluated (candidate experiment : loc)
  | Told (experiment : loc).

Section Optimization_loop.

(** The strategy object belongs to the library: its state and its two
    methods are parameters.  [ask] and [tell] may change the strategy and the
    notebook state (they allocate tables), and may raise. *)
Variable Strategy : Type.

Variable ask : Z -> Strategy -> Notebook -> result loc * Strategy * Notebook.

Variable tell : loc -> Strategy -> Notebook -> result unit * Strategy * Notebook.

(** The names the cell reads and assigns.  [events] is not a name of the
    notebook: it logs, in order, the calls of [ask], of the simulator and of
    [tell] that have returned. *)
Record Kernel : Type := mkKernel {
  notebook : Notebook;
  domain : loc;
  sobo_strategy : Strategy;
  experimental_budget : Z;
  i : Z;
  done : bool;
  events : list Event
}.

(** The body of the [while] loop.  The clock readings and the [print] of the
    duration have no part in what the loop does and are left out. *)
Definition iteration (k : Kernel) : result unit * Kernel :=
  let i1 := (i k + 1)%Z in
  match ask 1 (sobo_strategy k) (notebook k) with
  | (Raise e, s, nb) =>
      (Raise e, mkKernel nb (domain k) s (experimental_budget k) i1 (done k) (events k))
  | (Ok new_candidate, s, nb) =>
      let ev1 := (events k ++ [Asked 1 new_candidate])%list in
      match evaluate_experiments (domain k) (Some new_candidate) nb with
      | (Raise e, nb) =>
          (Raise e, mkKernel nb (domain k) s (experimental_budget k) i1 (done k) ev1)
      | (Ok new_experiment, nb) =>
          let ev2 := (ev1 ++ [Evaluated new_candidate new_experiment])%list in
          match tell new_experiment s nb with
          | (Raise e, s, nb) =>
              (Raise e, mkKernel nb (domain k) s (experimental_budget k) i1 (done k) ev2)
          | (Ok _, s, nb) =>
              let ev3 := (ev2 ++ [Told new_experiment])%list in
              (Ok tt, mkKernel nb (domain k) s (experimental_budget k) i1
                        (if Z.gtb i1 (experimental_budget k) then true else done k) ev3)
          end
      end
  end.

(** [while not done: body].  [None] when the fuel is used up. *)
Fixpoint while_not_done (fuel : nat) (k : Kernel) : option (result unit * Kernel) :=
  if done k then Some (Ok tt, k)
  else
    match fuel with
    | O => None
    | S fuel' =>
        match iteration k with
        | (Ok _, k') => while_not_done fuel' k'
        | (Raise e, k') => Some (Raise e, k')
        end
    end.

(** The cell: the three assignments, then the loop. *)
Definition cell42 (SMOKE_TEST : option string) (fuel : nat) (k : Kernel)
    : option (result unit * Kernel) :=
  let experimental_budget := 10%Z in
  let i := 0%Z in
  let done := if negb (truthy SMOKE_TEST) then false else true in
  while_not_done fuel
    (mkKernel (notebook k) (domain k) (sobo_strategy k) experimental_budget i done (events k)).

End Optimization_loop.

Arguments notebook {Strategy} _.
Arguments domain {Strategy} _.
Arguments sobo_strategy {Strategy} _.
Arguments experimental_budget {Strategy} _.
Arguments i {Strategy} _.
Arguments done {Strategy} _.
Arguments events {Strategy} _.
Arguments mkKernel {Strategy} _ _ _ _ _ _ _.
Arguments iteration {Strategy} _ _ _.
Arguments while_not_done {Strategy} _ _ _ _.
Arguments cell42 {Strategy} _ _ _ _ _.

(** ** The reaction notebook, from the first cell to the last *)

(** The data models of the strategies of the notebook. *)
Inductive AcquisitionFunction : Type :=
  | qLogEI.

Inductive StrategyDataModel : Type :=
  | SoboStrategy (domain : loc) (acquisition_function : AcquisitionFunction)
  | RandomStrategyModel (domain : loc).

(** The functions and methods of the library that the cells call.  A strategy
    is an object of the library with a state of its own; [tell] is called in
    two ways, with the experiments only and with [replace=True, retrain=True].
    The methods of the features that build a display, and the plot of a
    column, read their argument only. *)
Record ReactionLibrary (Strategy : Type) : Type := mkReactionLibrary {
  get_reps_df : list Feature -> result unit;
  get_keys : list Feature -> result (list string);
  strategies_map : StrategyDataModel -> M Strategy;
  strategy_ask : Z -> Strategy -> Notebook -> result loc * Strategy * Notebook;
  strategy_tell : loc -> Strategy -> Notebook -> result unit * Strategy * Notebook;
  strategy_tell_replace_retrain :
    loc -> Strategy -> Notebook -> result unit * Strategy * Notebook;
  strategy_experiments : Strategy -> M loc;
  series_plot : Series -> result unit
}.

Arguments get_reps_df {Strategy} _.
Arguments get_keys {Strategy} _.
Arguments strategies_map {Strategy} _.
Arguments strategy_ask {Strategy} _.
Arguments strategy_tell {Strategy} _.
Arguments strategy_tell_replace_retrain {Strategy} _.
Arguments strategy_experiments {Strategy} _.
Arguments series_plot {Strategy} _.
Arguments mkReactionLibrary {Strategy} _ _ _ _ _ _ _ _.

(** [for x in l: body]. *)
Fixpoint for_each {A} (l : list A) (body : A -> M unit) : M unit :=
  match l with
  | [] => ret tt
  | x :: l' => body x ;;; for_each l' body
  end.

(** The module-level assignments of a cell. *)
Definition assign_globals (g : Globals) : M unit :=
  fun st => (Ok tt, mkNotebook g (heap st) (np_random st)).

(** A call of a method of a strategy at the top level of the notebook: the
    name keeps designating the strategy, in its new state. *)
Definition method {Strategy A}
    (call : Strategy -> Notebook -> result A * Strategy * Notebook) (s : Strategy)
    : M (A * Strategy) :=
  fun nb =>
    match call s nb with
    | (Ok a, s', nb') => (Ok (a, s'), nb')
    | (Raise e, _, nb') => (Raise e, nb')
    end.

Section Reaction_notebook.

Context {Strategy : Type}.

Variable lib : ReactionLibrary Strategy.

(** Cells 4 to 40.  The cells that only import, print or display a value
    are left out. *)
Definition cells_4_to_40 : M (loc * Strategy) :=
  (* cells 4 to 8 *)
  domain <- alloc (DomainObj reaction_domain) ;;
  (* cell 9 *)
  ins <- domain_inputs domain ;; outs <- domain_outputs domain ;;
  lift (get_reps_df lib (ins ++ outs)) ;;;
  (* cell 10 *)
  ins <- domain_inputs domain ;; keys <- lift (get_keys lib ins) ;;
  for_each keys (fun feature_key =>
    ins <- domain_inputs domain ;;
    input_feature <- lift (get_by_key ins feature_key) ;;
    ret tt) ;;;
  (* cell 11 *)
  outs <- domain_outputs domain ;; keys <- lift (get_keys lib outs) ;;
  for_each keys (fun feature_key =>
    outs <- domain_outputs domain ;;
    output_feature <- lift (get_by_key outs feature_key) ;;
    ret tt) ;;;
  (* cell 12 *)
  ins <- domain_inputs domain ;; outs <- domain_outputs domain ;;
  lift (get_reps_df lib (ins ++ outs)) ;;;
  (* cell 14 *)
  assign_globals cell14 ;;;
  (* cell 15 *)
  candidates <- create_candidates domain 4 ;;
  (* cell 17 *)
  experiments <- evaluate_experiments domain (Some candidates) ;;
  (* cell 21 *)
  sobo_strategy <- strategies_map lib (SoboStrategy domain qLogEI) ;;
  (* cell 22 *)
  told <- method (strategy_tell lib experiments) sobo_strategy ;;
  let sobo_strategy := snd told in
  (* cell 26 *)
  random_strategy <- strategies_map lib (RandomStrategyModel domain) ;;
  (* cell 28 *)
  asked <- method (strategy_ask lib 5) random_strategy ;;
  let candidates := fst asked in
  (* cell 32 *)
  experiments <- evaluate_experiments domain (Some candidates) ;;
  (* cell 36 *)
  told <- method (strategy_tell_replace_retrain lib experiments) sobo_strategy ;;
  let sobo_strategy := snd told in
  (* cell 38 *)
  asked <- method (strategy_ask lib 1) sobo_strategy ;;
  let sobo_strategy := snd asked in
  ret (domain, sobo_strategy).

(** Cells 44 and 45. *)
Definition cells_44_45 (sobo_strategy : Strategy) : M unit :=
  experiments <- strategy_experiments lib sobo_strategy ;;
  experiments <- strategy_experiments lib sobo_strategy ;;
  df <- read_frame experiments ;;
  yields <- lift (df_getitem df "Yield") ;;
  lift (series_plot lib yields).

(** The notebook: cell 1, cells 4 to 40, the optimization loop of cell 42,
    cells 44 and 45.  A cell that raises ends the run. *)
Definition reaction_notebook (environ : gmap string string) (fuel : nat) (nb : Notebook)
    : option (result unit * Notebook) :=
  let SMOKE_TEST := os_environ_get environ "SMOKE_TEST" in
  match cells_4_to_40 nb with
  | (Raise e, nb) => Some (Raise e, nb)
  | (Ok (the_domain, the_strategy), nb) =>
      match cell42 (strategy_ask lib) (strategy_tell lib) SMOKE_TEST fuel
                   (mkKernel nb the_domain the_strategy 0 0 false []) with
      | None => None
      | Some (Raise e, k) => Some (Raise e, notebook k)
      | Some (Ok _, k) => Some (cells_44_45 (sobo_strategy k) (notebook k))
      end
  end.

End Reaction_notebook.

(** ** The BNH benchmark notebook: the calls of [run] and the metric *)

Inductive StrategyModel : Type :=
  | RandomStrategy
  | MoboStrategy (ref_point : list (string * R)).

(** The keyword arguments of one call of the library's [run]. *)
Record RunCall : Type := mkRunCall {
  benchmark_constraints : bool;
  strategy_factory : StrategyModel;
  n_iterations : Z;
  n_runs : Z;
  n_procs : Z
}.

(** The three calls of [run], in cells 3, 5 and 12. *)
Definition random_results (SMOKE_TEST : option string) : RunCall :=
  mkRunCall true RandomStrategy (if negb (truthy SMOKE_TEST) then 50 else 1)%Z 1 1.

Definition results (SMOKE_TEST : option string) : RunCall :=
  mkRunCall false (MoboStrategy [("f1", 140); ("f2", 50)])
            (if negb (truthy SMOKE_TEST) then 50 else 1)%Z 1 1.

Definition c_results (SMOKE_TEST : option string) : RunCall :=
  mkRunCall true (MoboStrategy [("f1", 140); ("f2", 50)])
            (if negb (truthy SMOKE_TEST) then 50 else 1)%Z 1 1.

Definition bnh_run_calls (SMOKE_TEST : option string) : list RunCall :=
  [random_results SMOKE_TEST; results SMOKE_TEST; c_results SMOKE_TEST].

(** Cell 3: the metric. *)
Section Hypervolume.

(** [compute_hypervolume(domain, experiments, ref_point)] belongs to the
    library: it is a parameter. *)
Variable compute_hypervolume : loc -> loc -> list (string * R) -> M R.

Definition hypervolume (domain : loc) (experiments : loc) : M R :=
  df <- read_frame experiments ;;
  if df_has_column df "c1" then
    c1 <- lift (df_getattr df "c1") ;;
    m1 <- lift (series_le c1 25) ;;
    c2 <- lift (df_getattr df "c2") ;;
    m2 <- lift (series_ge c2 7.7) ;;
    mask <- lift (mask_and m1 m2) ;;
    selected <- alloc (FrameObj (df_loc_mask df mask)) ;;
    compute_hypervolume domain selected [("f1", 140); ("f2", 50)]
  else
    compute_hypervolume domain experiments [("f1", 140); ("f2", 50)].

End Hypervolume.

(** Cell 3: the initial sampler. *)
Section Sampler.

(** The data model of a strategy and the strategy itself are objects of the
    library; the constructor [RandomStrategy(domain=...)], [strategies.map]
    and the method [ask] are parameters. *)
Context {DataModel Sampler : Type}.

Variable new_RandomStrategy : loc -> M DataModel.

Variable strategies_map_data_model : DataModel -> M Sampler.

Variable sampler_ask : Sampler -> Z -> M loc.

Definition sample (domain : loc) : M loc :=
  datamodel <- new_RandomStrategy domain ;;
  sampler <- strategies_map_data_model datamodel ;;
  sampled <- sampler_ask sampler 10 ;;
  ret sampled.

End Sampler.

(** The functions of the library that [hypervolume] and [sample] call. *)
Record Library (DataModel Sampler : Type) : Type := mkLibrary {
  lib_compute_hypervolume : loc -> loc -> list (string * R) -> M R;
  lib_new_RandomStrategy : loc -> M DataModel;
  lib_strategies_map : DataModel -> M Sampler;
  lib_sampler_ask : Sampler -> Z -> M loc
}.

Arguments mkLibrary {DataModel Sampler} _ _ _ _.
Arguments lib_compute_hypervolume {DataModel Sampler} _.
Arguments lib_new_RandomStrategy {DataModel Sampler} _.
Arguments lib_strategies_map {DataModel Sampler} _.
Arguments lib_sampler_ask {DataModel Sampler} _.

(** ** The BNH benchmark notebook, from the first cell to the last *)

(** Cell 7: the domain set up by hand. *)
Definition bnh_domain : Domain :=
  mkDomain
    [ContinuousInput "x1" 0 5; ContinuousInput "x2" 0 3]
    [ContinuousOutput "f1"; ContinuousOutput "f2"; ContinuousOutput "c1";
     ContinuousOutput "c2"].

Section Bnh_notebook.

Context {DataModel Sampler : Type}.

Variable lib : Library DataModel Sampler.

(** [run], which is given the metric and the initial sampler, and the two
    plots belong to the library: they are parameters. *)
Variable RunResult : Type.

Variable run : RunCall -> (loc -> loc -> M R) -> (loc -> M loc) -> M RunResult.

Variable plot_objective_plotly : Feature -> R -> R -> M unit.

Variable plot_hypervolumes : RunResult -> RunResult -> M unit.

Definition bnh_notebook (environ : gmap string string) : M unit :=
  (* cell 1 *)
  let SMOKE_TEST := os_environ_get environ "SMOKE_TEST" in
  let metric := hypervolume (lib_compute_hypervolume lib) in
  let initial_sampler :=
    sample (lib_new_RandomStrategy lib) (lib_strategies_map lib) (lib_sampler_ask lib) in
  (* cell 3 *)
  random_results <- run (random_results SMOKE_TEST) metric initial_sampler ;;
  (* cell 5 *)
  results <- run (results SMOKE_TEST) metric initial_sampler ;;
  (* cell 7 *)
  domain <- alloc (DomainObj bnh_domain) ;;
  (* cell 9 *)
  outs <- domain_outputs domain ;; feat <- lift (get_by_key outs "c1") ;;
  (if negb (truthy SMOKE_TEST) then plot_objective_plotly feat 20 30 else ret tt) ;;;
  (* cell 10 *)
  outs <- domain_outputs domain ;; feat <- lift (get_by_key outs "c2") ;;
  (if negb (truthy SMOKE_TEST) then plot_objective_plotly feat 5 10 else ret tt) ;;;
  (* cell 12 *)
  c_results <- run (c_results SMOKE_TEST) metric initial_sampler ;;
  (* cell 13 *)
  if negb (truthy SMOKE_TEST) then plot_hypervolumes results c_results else ret tt.

End Bnh_notebook.

(** * Part II: the vocabulary of the properties *)

(** ** Tables seen as lists of rows, and the formula of the yield *)

(** One row of a table of candidates. *)
Record Row : Type := mkRow {
  row_T : R;
  row_V : R;
  row_S : string
}.

(** The formula of the toy reaction as the specification words it. *)
Definition spec_density (s : string) : R :=
  if String.eqb s "MeOH" then 0.792
  else if String.eqb s "THF" then 0.886
  else if String.eqb s "Dioxane" then 1.03
  else 0.

Definition spec_Tfact (T : R) : R :=
  (exp ((100 + T) / 25) - exp (100 / 25)) / (exp (160 / 25) - exp (100 / 25)).

Definition spec_rhofact (s : string) (T : R) : R :=
  (1.5 - spec_density s) * (spec_Tfact T + 0.5) / 2.

Definition spec_Vfact (V : R) : R :=
  0.5 + ((V - 20) / 70 - 0.75) * 0.1 + ((V - 20) / 70 - 0.4) ^ 2.

Definition spec_yield (A B : R) (r : Row) : R :=
  let y := A * spec_Tfact (row_T r) + B * spec_rhofact (row_S r) (row_T r) in
  0.5 * y * (1 + spec_Vfact (row_V r)).

Definition known_solvent (s : string) : Prop :=
  s = "MeOH" \/ s = "THF" \/ s = "Dioxane".

(** A table holds the rows [rows] in its three input columns. *)
Definition holds_rows (df : DataFrame) (rows : list Row) : Prop :=
  dict_get (columns df) "Temperature" = Some (map Flt (map row_T rows)) /\
  dict_get (columns df) "Solvent Volume" = Some (map Flt (map row_V rows)) /\
  dict_get (columns df) "Solvent Type" = Some (map Str (map row_S rows)) /\
  df_len df = length rows.

(** The domain has the four features the simulator asks for. *)
Definition has_reaction_features (d : Domain) : Prop :=
  (exists f, get_by_key (inputs d) "Temperature" = Ok f) /\
  (exists f, get_by_key (inputs d) "Solvent Volume" = Ok f) /\
  (exists f, get_by_key (inputs d) "Solvent Type" = Ok f) /\
  (exists f, get_by_key (outputs d) "Yield" = Ok f).

(** The table the simulator builds from [rows]. *)
Definition experiments_of_rows (A B : R) (rows : list Row) : DataFrame :=
  mkDataFrame
    [("Temperature", map Flt (map row_T rows));
     ("Solvent Volume", map Flt (map row_V rows));
     ("Yield", map Flt (map (spec_yield A B) rows));
     ("Solvent Type", map Str (map row_S rows));
     ("valid_Yield", np_ones (length rows))]
    (RangeIndex (length rows)).

(** The table of candidates made of [rows]. *)
Definition candidates_of_rows (rows : list Row) : DataFrame :=
  mkDataFrame
    [("Temperature", map Flt (map row_T rows));
     ("Solvent Volume", map Flt (map row_V rows));
     ("Solvent Type", map Str (map row_S rows))]
    (RangeIndex (length rows)).

(** The shape of a table of experiments with [n] rows. *)
Definition experiments_shape (df : DataFrame) (n : nat) : Prop :=
  exists T V y s,
    columns df = [("Temperature", T); ("Solvent Volume", V); ("Yield", y);
                  ("Solvent Type", s); ("valid_Yield", np_ones n)] /\
    length T = n /\ length V = n /\ length y = n /\ length s = n /\
    index df = RangeIndex n.

(** The number of rows the table of [create_experiments] is to have. *)
Definition requested_rows (st : Notebook) (nsamples : Z) (candidates : option loc)
    (n : nat) : Prop :=
  match candidates with
  | None => Z.of_nat n = nsamples
  | Some c => exists cands, heap st !! c = Some (FrameObj cands) /\ n = df_len cands
  end.

(** The rows drawn by [create_experiments] in the reaction domain: [n]
    temperatures, then [n] volumes, then [n] solvents. *)
Definition random_rows (g : RandomState) (n : nat) : list Row :=
  map (fun i =>
         mkRow (0 + (60 - 0) * random_sample g (drawn g + i))
               (20 + (90 - 20) * random_sample g (drawn g + n + i))
               (nth (Z.to_nat (random_integer g 0 3 (drawn g + n + n + i)))
                    ["MeOH"; "THF"; "Dioxane"] EmptyString))
      (seq 0 n).

(** The mask of the rows with [c1 <= 25] and [c2 >= 7.7]. *)
Definition feasible (c1 c2 : R) : bool :=
  andb (if Rle_dec c1 25 then true else false) (if Rge_dec c2 7.7 then true else false).

(** ** States and what computations do to them *)

Definition with_heap (st : Notebook) (h : gmap loc obj) : Notebook :=
  mkNotebook (globals st) h (np_random st).

(** The state with another random generator. *)
Definition with_generator (st : Notebook) (g : RandomState) : Notebook :=
  mkNotebook (globals st) (heap st) g.

(** Computations that leave the notebook state as it is. *)
Definition is_reader {A} (m : M A) : Prop := forall st, snd (m st) = st.

(** Computations that may draw random numbers but leave the module-level
    names and the heap as they are. *)
Definition is_sampler {A} (m : M A) : Prop :=
  forall st, globals (snd (m st)) = globals st /\ heap (snd (m st)) = heap st.

(** What a caller sees of a run that returns a reference: the exception, or
    the object behind the reference. *)
Definition observe (out : result loc * Notebook) : result (option obj) :=
  match fst out with
  | Ok l => Ok (heap (snd out) !! l)
  | Raise e => Raise e
  end.

(** Two states agree on what a call with [domain] and [candidates] reads. *)
Definition agree (domain candidates : loc) (st sb : Notebook) : Prop :=
  globals st = globals sb /\
  heap st !! domain = heap sb !! domain /\
  heap st !! candidates = heap sb !! candidates.

Definition stable (fp : Notebook -> Notebook -> Prop) {A} (m : M A) : Prop :=
  forall st sb, fp st sb -> fst (m st) = fst (m sb).

Definition stable_obs (fp : Notebook -> Notebook -> Prop) (m : M loc) : Prop :=
  forall st sb, fp st sb -> observe (m st) = observe (m sb).

(** ** The ask/tell pattern *)

(** Complete rounds of the ask/tell pattern: a candidate is asked for (one at
    a time), it is evaluated, and the outcome is told, before the next ask. *)
Inductive rounds : list Event -> Prop :=
  | rounds_nil : rounds []
  | rounds_round candidate experiment rest :
      rounds rest ->
      rounds (Asked 1 candidate :: Evaluated candidate experiment :: Told experiment :: rest).

(** A round cut short by an exception. *)
Definition interrupted (tail : list Event) : Prop :=
  tail = [] \/
  (exists candidate, tail = [Asked 1 candidate]) \/
  (exists candidate experiment, tail = [Asked 1 candidate; Evaluated candidate experiment]).

(** The same pattern as the calls themselves. *)
Section Ask_tell_rounds.

Context {Strategy : Type}.

Variable ask : Z -> Strategy -> Notebook -> result loc * Strategy * Notebook.

Variable tell : loc -> Strategy -> Notebook -> result unit * Strategy * Notebook.

Variable domain : loc.

(** [n] complete rounds, from the state of the strategy and of the notebook
    before the first ask to their state after the last tell: in each round
    [ask(1)] is called on the state at hand and returns a candidate, the
    simulator is called on that candidate in the state [ask] left and returns
    an experiment, [tell] is called with that experiment in the state the
    simulator left, and the next round starts from the state [tell] left. *)
Inductive ask_tell_rounds :
    nat -> Strategy * Notebook -> list Event -> Strategy * Notebook -> Prop :=
  | no_round here : ask_tell_rounds 0 here [] here
  | one_more_round n s nb candidate s1 nb1 experiment nb2 u s3 nb3 evs there :
      ask 1 s nb = (Ok candidate, s1, nb1) ->
      evaluate_experiments domain (Some candidate) nb1 = (Ok experiment, nb2) ->
      tell experiment s1 nb2 = (Ok u, s3, nb3) ->
      ask_tell_rounds n (s3, nb3) evs there ->
      ask_tell_rounds (S n) (s, nb)
        (Asked 1 candidate :: Evaluated candidate experiment :: Told experiment :: evs)
        there.

(** A round cut short: the call of [ask], of the simulator or of [tell] that
    raised the exception, the calls before it having returned. *)
Inductive round_cut :
    Strategy * Notebook -> exn -> list Event -> Strategy * Notebook -> Prop :=
  | cut_by_ask s nb e s1 nb1 :
      ask 1 s nb = (Raise e, s1, nb1) ->
      round_cut (s, nb) e [] (s1, nb1)
  | cut_by_simulator s nb candidate s1 nb1 e nb2 :
      ask 1 s nb = (Ok candidate, s1, nb1) ->
      evaluate_experiments domain (Some candidate) nb1 = (Raise e, nb2) ->
      round_cut (s, nb) e [Asked 1 candidate] (s1, nb2)
  | cut_by_tell s nb candidate s1 nb1 experiment nb2 e s3 nb3 :
      ask 1 s nb = (Ok candidate, s1, nb1) ->
      evaluate_experiments domain (Some candidate) nb1 = (Ok experiment, nb2) ->
      tell experiment s1 nb2 = (Raise e, s3, nb3) ->
      round_cut (s, nb) e [Asked 1 candidate; Evaluated candidate experiment] (s3, nb3).

End Ask_tell_rounds.

(** ** What the notebooks need of the library *)

(** A call of the library leaves the names of the notebook and the objects
    it has built as they are. *)
Definition keeps (nb nb' : Notebook) : Prop :=
  globals nb' = globals nb /\
  forall l o, heap nb !! l = Some o -> heap nb' !! l = Some o.

(** The calls of the reaction notebook return: the displays and the plot for
    every argument, with the keys of the features for [get_keys]; [map],
    [tell] and [ask] for every strategy, [ask] with a reference to a table of
    candidates that has the three input columns and solvents of the domain;
    the experiments of a strategy are a table with a column Yield. *)
Definition reaction_library_returns {Strategy} (lib : ReactionLibrary Strategy) : Prop :=
  (forall fs, get_reps_df lib fs = Ok tt) /\
  (forall fs, get_keys lib fs = Ok (map key fs)) /\
  (forall dm nb, exists s nb', strategies_map lib dm nb = (Ok s, nb') /\ keeps nb nb') /\
  (forall x s nb, exists s' nb',
     strategy_tell lib x s nb = (Ok tt, s', nb') /\ keeps nb nb') /\
  (forall x s nb, exists s' nb',
     strategy_tell_replace_retrain lib x s nb = (Ok tt, s', nb') /\ keeps nb nb') /\
  (forall n s nb, exists c s' nb' df rows,
     strategy_ask lib n s nb = (Ok c, s', nb') /\ keeps nb nb' /\
     heap nb' !! c = Some (FrameObj df) /\ holds_rows df rows /\
     Forall (fun r => known_solvent (row_S r)) rows) /\
  (forall s nb, exists x nb' df y,
     strategy_experiments lib s nb = (Ok x, nb') /\ keeps nb nb' /\
     heap nb' !! x = Some (FrameObj df) /\ dict_get (columns df) "Yield" = Some y) /\
  (forall s, series_plot lib s = Ok tt).

(** The calls of [run] of the BNH notebook return. *)
Definition run_returns {RunResult}
    (run : RunCall -> (loc -> loc -> M R) -> (loc -> M loc) -> M RunResult)
    (metric : loc -> loc -> M R) (initial_sampler : loc -> M loc) : Prop :=
  forall call nb, exists r nb', run call metric initial_sampler nb = (Ok r, nb').

(** ** Code without exception handlers *)

(** Straight-line code seen as a script: a [return], or a call of the library
    followed by the rest of the code, which may depend on what the call
    returned.  A script has no construct that observes an exception: there is
    no [try], no [except], no [finally]. *)
Section Scripts.

(** The calls of the library, by the type of what they return, the state
    they act on, and what each call does. *)
Variable Op : Type -> Type.

Variable State : Type.

Variable call : forall X, Op X -> State -> result X * State.

Inductive script (A : Type) : Type :=
  | Return (a : A)
  | Call (X : Type) (op : Op X) (rest : X -> script A).

Arguments Return {A} a.
Arguments Call {A X} op rest.

(** One script after another: [x = p; k]. *)
Fixpoint script_bind {A B} (p : script A) (k : A -> script B) : script B :=
  match p with
  | Return a => k a
  | Call op rest => Call op (fun x => script_bind (rest x) k)
  end.

(** [[body for i in range(n)]]. *)
Fixpoint script_comprehension {A} (n : nat) (body : script A) : script (list A) :=
  match n with
  | O => Return []
  | S n' =>
      script_bind body (fun x =>
      script_bind (script_comprehension n' body) (fun xs => Return (x :: xs)))
  end.

(** Running a script: the calls are made in order; the first one that raises
    ends the run with its exception, in the state it left. *)
Fixpoint run {A} (p : script A) (st : State) {struct p} : result A * State :=
  match p with
  | Return a => (Ok a, st)
  | Call op rest =>
      match call _ op st with
      | (Ok x, st') => run (rest x) st'
      | (Raise e, st') => (Raise e, st')
      end
  end.

(** The runs of a script, call by call. *)
Inductive executes : forall {A}, script A -> State -> result A -> State -> Prop :=
  | executes_return A (a : A) st :
      executes (Return a) st (Ok a) st
  | executes_call_raises A X (op : Op X) (rest : X -> script A) st e st' :
      call X op st = (Raise e, st') ->
      executes (Call op rest) st (Raise e) st'
  | executes_call_returns A X (op : Op X) (rest : X -> script A) st x st1 r st' :
      call X op st = (Ok x, st1) ->
      executes (rest x) st1 r st' ->
      executes (Call op rest) st r st'.

End Scripts.

Arguments Return {Op A} a.
Arguments Call {Op A X} op rest.
Arguments script_bind {Op A B} p k.
Arguments script_comprehension {Op A} n body.
Arguments run {Op State} call {A} p st.
Arguments executes {Op State} call {A} _ _ _ _.

Notation "x <~ op ;; rest" := (Call op (fun x => rest))
  (at level 100, op at next level, right associativity).

(** The calls the code of the two notebooks makes: reads of module-level
    names and of objects, the attributes and methods of the domain and of its
    features, numpy's generator and arithmetic, the operations of pandas, and
    the functions and methods of the library. *)
Section Library_calls.

Variables DataModel Sampler : Type.

Inductive library_op : Type -> Type :=
  | GetGlobal {A} (name : Globals -> A) : library_op A
  | ReadFrame (l : loc) : library_op DataFrame
  | Alloc (o : obj) : library_op loc
  | Store (l : loc) (o : obj) : library_op unit
  | DomainInputs (domain : loc) : library_op (list Feature)
  | DomainOutputs (domain : loc) : library_op (list Feature)
  | GetByKey (features : list Feature) (k : string) : library_op Feature
  | LowerBound (f : Feature) : library_op R
  | UpperBound (f : Feature) : library_op R
  | Categories (f : Feature) : library_op (list string)
  | ListGetitem (l : list string) (i : Z) : library_op string
  | RandomUniform (low high : R) (n : Z) : library_op ndarray
  | RandomRandint (low high : Z) : library_op Z
  | Ufunc1 (f : R -> R) (a : ndarray) : library_op ndarray
  | Ufunc2 (f : R -> R -> R) (a b : ndarray) : library_op ndarray
  | NpOnes (n : Z) : library_op ndarray
  | NewDataFrame (d : list (string * ndarray)) : library_op DataFrame
  | DfGetitem (df : DataFrame) (name : string) : library_op Series
  | DfGetattr (df : DataFrame) (name : string) : library_op Series
  | SeriesGetitem (s : Series) (keys : ndarray) : library_op Series
  | SetIndex (df : DataFrame) (idx : list label) : library_op DataFrame
  | DropColumns (df : DataFrame) (names : list string) : library_op DataFrame
  | SeriesLe (s : Series) (x : R) : library_op (list bool)
  | SeriesGe (s : Series) (x : R) : library_op (list bool)
  | MaskAnd (m1 m2 : list bool) : library_op (list bool)
  | ComputeHypervolume (domain experiments : loc) (ref_point : list (string * R))
      : library_op R
  | NewRandomStrategy (domain : loc) : library_op DataModel
  | StrategiesMap (datamodel : DataModel) : library_op Sampler
  | SamplerAsk (sampler : Sampler) (n : Z) : library_op loc.

(** What each call does. *)
Definition library_call (lib : Library DataModel Sampler) (X : Type) (op : library_op X) : M X :=
  match op in library_op X return M X with
  | GetGlobal name => get_global name
  | ReadFrame l => read_frame l
  | Alloc o => alloc o
  | Store l o => store l o
  | DomainInputs domain => domain_inputs domain
  | DomainOutputs domain => domain_outputs domain
  | GetByKey features k => lift (get_by_key features k)
  | LowerBound f => lift (lower_bound f)
  | UpperBound f => lift (upper_bound f)
  | Categories f => lift (categories f)
  | ListGetitem l i => lift (list_getitem l i)
  | RandomUniform low high n => np_random_uniform low high n
  | RandomRandint low high => np_random_randint low high
  | Ufunc1 f a => lift (ufunc1 f a)
  | Ufunc2 f a b => lift (ufunc2 f a b)
  | NpOnes n => lift (np_ones_Z n)
  | NewDataFrame d => lift (DataFrame_of_dict d)
  | DfGetitem df name => lift (df_getitem df name)
  | DfGetattr df name => lift (df_getattr df name)
  | SeriesGetitem s keys => lift (series_getitem s keys)
  | SetIndex df idx => lift (df_set_index df idx)
  | DropColumns df names => lift (df_drop_columns df names)
  | SeriesLe s x => lift (series_le s x)
  | SeriesGe s x => lift (series_ge s x)
  | MaskAnd m1 m2 => lift (mask_and m1 m2)
  | ComputeHypervolume domain experiments ref_point =>
      lib_compute_hypervolume lib domain experiments ref_point
  | NewRandomStrategy domain => lib_new_RandomStrategy lib domain
  | StrategiesMap datamodel => lib_strategies_map lib datamodel
  | SamplerAsk sampler n => lib_sampler_ask lib sampler n
  end.

(** The functions of the two notebooks, statement by statement. *)
Definition calc_volume_fact_script (V : ndarray) : script library_op ndarray :=
  x <~ Ufunc1 (fun V => (V - 20) / 70) V ;;
  x <~ Ufunc1 (fun x => 0.5 + (x - 0.75) * 0.1 + (x - 0.4) ^ 2) x ;;
  Return x.

Definition calc_rhofact_script (solvent_type Tfact : ndarray) : script library_op ndarray :=
  sd <~ GetGlobal solvent_descriptors ;;
  col <~ DfGetitem sd "density" ;;
  x <~ SeriesGetitem col solvent_type ;;
  a <~ Ufunc1 (fun x => 1.5 - x) (s_values x) ;;
  b <~ Ufunc1 (fun Tfact => Tfact + 0.5) Tfact ;;
  x <~ Ufunc2 (fun a b => a * b / 2) a b ;;
  Return x.

Definition calc_Tfact_script (T : ndarray) : script library_op ndarray :=
  T1 <~ GetGlobal T1 ;;
  T0 <~ GetGlobal T0 ;;
  x <~ Ufunc1 (fun T => exp ((T1 + T) / T0)) T ;;
  e0 <~ GetGlobal e0 ;;
  de <~ GetGlobal de ;;
  x <~ Ufunc1 (fun x => (x - e0) / de) x ;;
  Return x.

Definition create_experiments_script
    (domain : loc) (nsamples : Z) (A B : R) (candidates : option loc)
    : script library_op loc :=
  ins <~ DomainInputs domain ;; Tf <~ GetByKey ins "Temperature" ;;
  ins <~ DomainInputs domain ;; Vf <~ GetByKey ins "Solvent Volume" ;;
  ins <~ DomainInputs domain ;; typef <~ GetByKey ins "Solvent Type" ;;
  outs <~ DomainOutputs domain ;; yf <~ GetByKey outs "Yield" ;;
  script_bind
    match candidates with
    | None =>
        low <~ LowerBound Tf ;; high <~ UpperBound Tf ;;
        T <~ RandomUniform low high nsamples ;;
        low <~ LowerBound Vf ;; high <~ UpperBound Vf ;;
        V <~ RandomUniform low high nsamples ;;
        script_bind
          (script_comprehension (Z.to_nat nsamples)
             (ins <~ DomainInputs domain ;;
              f <~ GetByKey ins "Solvent Type" ;;
              cs <~ Categories f ;;
              k <~ RandomRandint 0 3 ;;
              c <~ ListGetitem cs k ;;
              Return (Str c)))
          (fun solvent_types => Return (nsamples, T, V, solvent_types))
    | Some candidates =>
        df <~ ReadFrame candidates ;;
        let nsamples := Z.of_nat (df_len df) in
        T <~ DfGetitem df "Temperature" ;;
        V <~ DfGetitem df "Solvent Volume" ;;
        solvent_types <~ DfGetitem df "Solvent Type" ;;
        Return (nsamples, s_values T, s_values V, s_values solvent_types)
    end
    (fun sampled =>
       let '(nsamples, T, V, solvent_types) := sampled in
       script_bind (calc_Tfact_script T) (fun Tfact =>
       script_bind (calc_rhofact_script solvent_types Tfact) (fun rhofact =>
       script_bind (calc_volume_fact_script V) (fun Vfact =>
       a <~ Ufunc1 (fun Tfact => A * Tfact) Tfact ;;
       b <~ Ufunc1 (fun rhofact => B * rhofact) rhofact ;;
       y <~ Ufunc2 Rplus a b ;;
       a <~ Ufunc1 (fun y => 0.5 * y) y ;;
       b <~ Ufunc1 (fun y => 0.5 * y) y ;;
       b <~ Ufunc2 Rmult b Vfact ;;
       y <~ Ufunc2 Rplus a b ;;
       ones <~ NpOnes nsamples ;;
       df <~ NewDataFrame (dict_display
               [(key Tf, T); (key Vf, V); (key yf, y); (key typef, solvent_types);
                ("valid_" ++ key yf, ones)]) ;;
       samples <~ Alloc (FrameObj df) ;;
       df <~ ReadFrame samples ;;
       df <~ SetIndex df (RangeIndex (Z.to_nat nsamples)) ;;
       _ <~ Store samples (FrameObj df) ;;
       Return samples)))).

Definition create_candidates_script (domain : loc) (nsamples : Z) : script library_op loc :=
  script_bind (create_experiments_script domain nsamples 25 90 None) (fun experiments =>
  df <~ ReadFrame experiments ;;
  df <~ DropColumns df ["Yield"; "valid_Yield"] ;;
  candidates <~ Alloc (FrameObj df) ;;
  Return candidates).

Definition evaluate_experiments_script (domain : loc) (candidates : option loc)
    : script library_op loc :=
  create_experiments_script domain 100 25 90 candidates.

Definition hypervolume_script (domain experiments : loc) : script library_op R :=
  df <~ ReadFrame experiments ;;
  if df_has_column df "c1" then
    c1 <~ DfGetattr df "c1" ;;
    m1 <~ SeriesLe c1 25 ;;
    c2 <~ DfGetattr df "c2" ;;
    m2 <~ SeriesGe c2 7.7 ;;
    mask <~ MaskAnd m1 m2 ;;
    selected <~ Alloc (FrameObj (df_loc_mask df mask)) ;;
    x <~ ComputeHypervolume domain selected [("f1", 140); ("f2", 50)] ;;
    Return x
  else
    x <~ ComputeHypervolume domain experiments [("f1", 140); ("f2", 50)] ;;
    Return x.

Definition sample_script (domain : loc) : script library_op loc :=
  datamodel <~ NewRandomStrategy domain ;;
  sampler <~ StrategiesMap datamodel ;;
  sampled <~ SamplerAsk sampler 10 ;;
  Return sampled.

End Library_calls.

Arguments GetGlobal {DataModel Sampler A} name.
Arguments ReadFrame {DataModel Sampler} l.
Arguments Alloc {DataModel Sampler} o.
Arguments Store {DataModel Sampler} l o.
Arguments DomainInputs {DataModel Sampler} domain.
Arguments DomainOutputs {DataModel Sampler} domain.
Arguments GetByKey {DataModel Sampler} features k.
Arguments LowerBound {DataModel Sampler} f.
Arguments UpperBound {DataModel Sampler} f.
Arguments Categories {DataModel Sampler} f.
Arguments ListGetitem {DataModel Sampler} l i.
Arguments RandomUniform {DataModel Sampler} low high n.
Arguments RandomRandint {DataModel Sampler} low high.
Arguments Ufunc1 {DataModel Sampler} f a.
Arguments Ufunc2 {DataModel Sampler} f a b.
Arguments NpOnes {DataModel Sampler} n.
Arguments NewDataFrame {DataModel Sampler} d.
Arguments DfGetitem {DataModel Sampler} df name.
Arguments DfGetattr {DataModel Sampler} df name.
Arguments SeriesGetitem {DataModel Sampler} s keys.
Arguments SetIndex {DataModel Sampler} df idx.
Arguments DropColumns {DataModel Sampler} df names.
Arguments SeriesLe {DataModel Sampler} s x.
Arguments SeriesGe {DataModel Sampler} s x.
Arguments MaskAnd {DataModel Sampler} m1 m2.
Arguments ComputeHypervolume {DataModel Sampler} domain experiments ref_point.
Arguments NewRandomStrategy {DataModel Sampler} domain.
Arguments StrategiesMap {DataModel Sampler} datamodel.
Arguments SamplerAsk {DataModel Sampler} sampler n.
Arguments library_call {DataModel Sampler} lib X op.
Arguments calc_volume_fact_script {DataModel Sampler} V.
Arguments calc_rhofact_script {DataModel Sampler} solvent_type Tfact.
Arguments calc_Tfact_script {DataModel Sampler} T.
Arguments create_experiments_script {DataModel Sampler} domain nsamples A B candidates.
Arguments create_candidates_script {DataModel Sampler} domain nsamples.
Arguments evaluate_experiments_script {DataModel Sampler} domain candidates.
Arguments hypervolume_script {DataModel Sampler} domain experiments.
Arguments sample_script {DataModel Sampler} domain.

(** ** Floating-point numbers *)

(** The same arithmetic described by what IEEE 754 guarantees of it.  A
    float is not-a-number, an infinity or a real number (the two zeros are
    one); an operation on finite numbers is the exact operation followed by a
    rounding [rnd], which may overflow to an infinity. *)
Inductive float64 : Type :=
  | NaN
  | NegInf
  | Finite (x : R)
  | PosInf.

Definition f64_neg (a : float64) : float64 :=
  match a with
  | NaN => NaN
  | NegInf => PosInf
  | Finite x => Finite (- x)
  | PosInf => NegInf
  end.

Definition f64_add (rnd : R -> float64) (a b : float64) : float64 :=
  match a, b with
  | NaN, _ | _, NaN => NaN
  | PosInf, NegInf | NegInf, PosInf => NaN
  | PosInf, _ | _, PosInf => PosInf
  | NegInf, _ | _, NegInf => NegInf
  | Finite x, Finite y => rnd (x + y)
  end.

Definition f64_sub (rnd : R -> float64) (a b : float64) : float64 :=
  f64_add rnd a (f64_neg b).

Definition f64_div (rnd : R -> float64) (a b : float64) : float64 :=
  match a, b with
  | NaN, _ | _, NaN => NaN
  | Finite x, Finite y =>
      if Req_dec_T y 0 then
        if Req_dec_T x 0 then NaN else if Rlt_dec 0 x then PosInf else NegInf
      else rnd (x / y)
  | Finite _, _ => Finite 0
  | PosInf, Finite y => if Rlt_dec y 0 then NegInf else PosInf
  | NegInf, Finite y => if Rlt_dec y 0 then PosInf else NegInf
  | _, _ => NaN
  end.

Definition rounded (rnd : R -> float64) (np_exp : float64 -> float64) : Arithmetic float64 :=
  mkArithmetic float64 (fun z => Finite (IZR z)) (f64_add rnd) (f64_sub rnd) (f64_div rnd) np_exp.

(** The order of the floats; not-a-number is not comparable. *)
Definition f64_le (a b : float64) : Prop :=
  match a, b with
  | NaN, _ | _, NaN => False
  | NegInf, _ | _, PosInf => True
  | Finite x, Finite y => x <= y
  | _, _ => False
  end.

(** What IEEE 754 guarantees of a rounding: it yields a number, it keeps the
    order, and it is exact on 0 and 1. *)
Definition rounding_contract (rnd : R -> float64) : Prop :=
  (forall x, rnd x <> NaN) /\
  (forall x y, x <= y -> f64_le (rnd x) (rnd y)) /\
  rnd 0 = Finite 0 /\
  rnd 1 = Finite 1.

(** What is assumed of numpy's [exp]: on a number it yields a number, and it
    keeps the order. *)
Definition exp_contract (np_exp : float64 -> float64) : Prop :=
  (forall a, a <> NaN -> np_exp a <> NaN) /\
  (forall a b, f64_le a b -> f64_le (np_exp a) (np_exp b)).

(** Exact arithmetic: nothing is rounded. *)
Definition exact_exp (a : float64) : float64 :=
  match a with
  | NaN => NaN
  | NegInf => Finite 0
  | Finite x => Finite (exp x)
  | PosInf => PosInf
  end.

Definition exact_arithmetic : Arithmetic float64 := rounded Finite exact_exp.

(** ** Rows, tables and domains in general *)

(** The density that the table of descriptors holds for one requested label;
    a float is never a label of that table. *)
Definition density_of (c : cell) : option R :=
  match c with
  | Str s => dict_get density s
  | Flt _ => None
  end.

(** A row within the bounds of the reaction domain. *)
Definition in_reaction_domain (r : Row) : Prop :=
  0 <= row_T r <= 60 /\ 20 <= row_V r <= 90 /\ known_solvent (row_S r).

(** A table as pandas builds them: every column has one element per label of
    the index. *)
Definition well_formed (df : DataFrame) : Prop :=
  Forall (fun kv => length (snd kv) = length (index df)) (columns df).

(** An element of an array that is a Python [str]. *)
Definition is_str (c : cell) : Prop := exists s, c = Str s.

(** A domain in which [create_experiments] can draw samples: continuous
    features Temperature and Solvent Volume with the bounds given, a
    categorical feature Solvent Type with the categories [cs], and an output
    Yield. *)
Definition sampling_domain (d : Domain) (loT hiT loV hiV : R) (cs : list string) : Prop :=
  get_by_key (inputs d) "Temperature" = Ok (ContinuousInput "Temperature" loT hiT) /\
  get_by_key (inputs d) "Solvent Volume" = Ok (ContinuousInput "Solvent Volume" loV hiV) /\
  get_by_key (inputs d) "Solvent Type" = Ok (CategoricalInput "Solvent Type" cs) /\
  (exists f, get_by_key (outputs d) "Yield" = Ok f).

(** The rows drawn by [create_experiments] in such a domain: [n]
    temperatures, then [n] volumes, then [n] indices into the categories. *)
Definition random_rows_in (loT hiT loV hiV : R) (cs : list string)
    (g : RandomState) (n : nat) : list Row :=
  map (fun i =>
         mkRow (loT + (hiT - loT) * random_sample g (drawn g + i))
               (loV + (hiV - loV) * random_sample g (drawn g + n + i))
               (nth (Z.to_nat (random_integer g 0 3 (drawn g + n + n + i))) cs EmptyString))
      (seq 0 n).

(** ** Concrete inputs *)

Definition example_generator : RandomState :=
  mkRandomState (fun _ => 0.5) (fun low _ _ => low) 0.

Definition example_rows : list Row := [mkRow 30 50 "THF"].

Definition example_domain_loc : loc := 1%positive.

Definition example_candidates_loc : loc := 2%positive.

Definition example_notebook : Notebook :=
  mkNotebook cell14
    (<[example_candidates_loc := FrameObj (candidates_of_rows example_rows)]>
       (<[example_domain_loc := DomainObj reaction_domain]> ∅))
    example_generator.

(** What the example strategy needs of the notebook state. *)
Definition example_invariant (nb : Notebook) : Prop :=
  globals nb = cell14 /\
  heap nb !! example_domain_loc = Some (DomainObj reaction_domain) /\
  heap nb !! example_candidates_loc = Some (FrameObj (candidates_of_rows example_rows)).

(** The example notebook with a candidate whose solvent is not in the table
    of descriptors. *)
Definition unknown_solvent_notebook : Notebook :=
  mkNotebook cell14
    (<[example_candidates_loc := FrameObj (candidates_of_rows [mkRow 30 50 "Water"])]>
       (<[example_domain_loc := DomainObj reaction_domain]> ∅))
    example_generator.

(** A strategy that always proposes the candidates of [example_notebook] and
    remembers what it is told. *)
Definition example_ask (n : Z) (told : list loc) (nb : Notebook)
    : result loc * list loc * Notebook :=
  (Ok example_candidates_loc, told, nb).

Definition example_tell (experiment : loc) (told : list loc) (nb : Notebook)
    : result unit * list loc * Notebook :=
  (Ok tt, experiment :: told, nb).

Definition example_kernel : Kernel (list loc) :=
  mkKernel example_notebook example_domain_loc [] 0 0 false [].

Definition example_experiments : DataFrame :=
  mkDataFrame [("c1", [Flt 10; Flt 30]); ("c2", [Flt 8; Flt 9])] (RangeIndex 2).

Definition example_compute_hypervolume (domain experiments : loc)
    (ref_point : list (string * R)) : M R :=
  ret 0.

(** The notebook after cell 14, with the reaction domain and a table of
    candidates made of [rows]. *)
Definition notebook_with (rows : list Row) : Notebook :=
  mkNotebook cell14
    (<[example_candidates_loc := FrameObj (candidates_of_rows rows)]>
       (<[example_domain_loc := DomainObj reaction_domain]> ∅))
    example_generator.

(** Two candidates that differ in temperature only. *)
Definition example_pair : list Row := [mkRow 20 50 "THF"; mkRow 40 50 "THF"].

(** A domain with other bounds and a fourth solvent in stock. *)
Definition four_solvents_domain : Domain :=
  mkDomain
    [ContinuousInput "Temperature" 10 30;
     CategoricalInput "Solvent Type" ["THF"; "MeOH"; "Dioxane"; "Water"];
     ContinuousInput "Solvent Volume" 40 60]
    [ContinuousOutput "Yield"].

(** A domain with two solvents only. *)
Definition two_solvents_domain : Domain :=
  mkDomain
    [ContinuousInput "Temperature" 0 60;
     CategoricalInput "Solvent Type" ["MeOH"; "THF"];
     ContinuousInput "Solvent Volume" 20 90]
    [ContinuousOutput "Yield"].

(** A generator whose integers are always the largest allowed. *)
Definition top_generator : RandomState :=
  mkRandomState (fun _ => 0.5) (fun _ high _ => (high - 1)%Z) 0.

Definition notebook_of (d : Domain) (g : RandomState) : Notebook :=
  mkNotebook cell14 (<[example_domain_loc := DomainObj d]> ∅) g.

(** The float that Python reads for the literal [1e-20]. *)
Definition float_1e_20 : float := 0x1.79ca10c924223p-67%float.

(** A notebook in which no cell has run. *)
Definition new_notebook (g : RandomState) : Notebook :=
  mkNotebook (mkGlobals 0 0 0 0 0 (mkDataFrame [] [])) ∅ g.

(** A library for the reaction notebook: the strategy of [example_tell],
    which builds the table of candidates it proposes. *)
Definition example_reaction_library : ReactionLibrary (list loc) :=
  mkReactionLibrary
    (fun _ => Ok tt)
    (fun fs => Ok (map key fs))
    (fun _ => ret [])
    (fun n told nb =>
       (Ok (new_loc (heap nb)), told,
        with_heap nb (<[new_loc (heap nb) := FrameObj (candidates_of_rows example_rows)]>
                        (heap nb))))
    example_tell
    example_tell
    (fun told => alloc (FrameObj (experiments_of_rows 25 90 example_rows)))
    (fun _ => Ok tt).

(** A library for the BNH notebook, with a [run] that makes no iteration and
    plots that fail. *)
Definition example_bnh_library : Library unit unit :=
  mkLibrary example_compute_hypervolume (fun _ => ret tt) (fun _ => ret tt)
            (fun _ _ => alloc (FrameObj (mkDataFrame [] []))).

Definition example_run (call : RunCall) (metric : loc -> loc -> M R)
    (initial_sampler : loc -> M loc) : M unit :=
  ret tt.

Definition failing_plot_objective (feat : Feature) (lower upper : R) : M unit :=
  lift (Raise ValueError).

Definition failing_plot_hypervolumes (a b : unit) : M unit :=
  lift (Raise ValueError).

(** * Part III: the properties *)

(** ** Stepping through computations *)

Lemma bind_lift {A B} (r : result A) (k : A -> M B) st :
  bind (lift r) k st = match r with Ok a => k a st | Raise e => (Raise e, st) end.
Proof. unfold bind, lift. destruct r; reflexivity. Qed.

Lemma bind_ret {A B} (a : A) (k : A -> M B) st : bind (ret a) k st = k a st.
Proof. reflexivity. Qed.

Lemma bind_get_global {A B} (p : Globals -> A) (k : A -> M B) st :
  bind (get_global p) k st = k (p (globals st)) st.
Proof. reflexivity. Qed.

Lemma bind_assoc {A B C} (m : M A) (k : A -> M B) (k' : B -> M C) st :
  bind (bind m k) k' st = bind m (fun a => bind (k a) k') st.
Proof. unfold bind. destruct (m st) as [[a|e] st']; reflexivity. Qed.

Lemma new_loc_fresh (h : gmap loc obj) : h !! new_loc h = None.
Proof. apply not_elem_of_dom. unfold new_loc. apply is_fresh. Qed.

(** A reference that designates an object is not the next one allocated. *)
Lemma allocated_not_new (h : gmap loc obj) l o : h !! l = Some o -> l <> new_loc h.
Proof. intros H ->. rewrite new_loc_fresh in H. discriminate H. Qed.

Lemma lookup_after_alloc (h : gmap loc obj) l o o' :
  h !! l = Some o -> <[new_loc h := o']> h !! l = Some o.
Proof.
  intros H. rewrite lookup_insert_ne; [exact H|].
  intros E. apply (allocated_not_new h l o H). symmetry. exact E.
Qed.

Lemma bind_ext {A B} (m m' : M A) (k k' : A -> M B) st :
  m st = m' st ->
  (forall a st1, k a st1 = k' a st1) ->
  bind m k st = bind m' k' st.
Proof.
  intros Hm Hk. unfold bind. rewrite Hm.
  destruct (m' st) as [[a|e] st1]; [apply Hk|reflexivity].
Qed.

Lemma bind_ret_r {A} (m : M A) st : bind m ret st = m st.
Proof. unfold bind, ret. destruct (m st) as [[a|e] st1]; reflexivity. Qed.

Lemma get_by_key_key fs k f : get_by_key fs k = Ok f -> key f = k.
Proof.
  induction fs as [|f' fs IH]; simpl; [discriminate|].
  destruct (String.eqb (key f') k) eqn:E.
  - intros [= <-]. apply String.eqb_eq, E.
  - exact IH.
Qed.

(** ** Element-wise operations on arrays of floats *)

Lemma ufunc1_floats f xs : ufunc1 f (map Flt xs) = Ok (map Flt (map f xs)).
Proof.
  unfold ufunc1. induction xs as [|x xs IH]; simpl; [reflexivity|].
  rewrite IH. reflexivity.
Qed.

Lemma zip_cells_floats xs ys :
  zip_cells (map Flt xs) (map Flt ys) = map (fun p => (Flt (fst p), Flt (snd p))) (combine xs ys).
Proof.
  revert ys. induction xs as [|x xs IH]; intros [|y ys]; simpl; try reflexivity.
  rewrite IH. reflexivity.
Qed.

Lemma ufunc2_floats f xs ys :
  length xs = length ys ->
  ufunc2 f (map Flt xs) (map Flt ys)
  = Ok (map Flt (map (fun p => f (fst p) (snd p)) (combine xs ys))).
Proof.
  intros Hlen. unfold ufunc2.
  rewrite !length_map, Hlen, Nat.eqb_refl, zip_cells_floats.
  clear Hlen. generalize (combine xs ys) as ps.
  induction ps as [|p ps IH]; simpl; [reflexivity|].
  rewrite IH. reflexivity.
Qed.

(** ** The temperature factor *)

Lemma calc_Tfact_floats st Ts :
  calc_Tfact (map Flt Ts) st
  = (Ok (map Flt (map (fun T =>
       (exp ((T1 (globals st) + T) / T0 (globals st)) - e0 (globals st))
       / de (globals st)) Ts)), st).
Proof.
  unfold calc_Tfact.
  rewrite !bind_get_global, bind_lift, ufunc1_floats.
  rewrite !bind_get_global. unfold lift.
  rewrite ufunc1_floats, !map_map. reflexivity.
Qed.

Lemma cell14_de_pos : 0 < de cell14.
Proof.
  cbv [de cell14]. apply Rlt_0_minus, exp_increasing. lra.
Qed.

(** ** The temperature factor in floating-point arithmetic *)

Lemma f64_le_not_NaN a b : f64_le a b -> a <> NaN /\ b <> NaN.
Proof. destruct a, b; cbn; intros H; try contradiction; split; discriminate. Qed.

Lemma f64_le_refl a : a <> NaN -> f64_le a a.
Proof. destruct a; cbn; intros H; try exact I; [congruence|lra]. Qed.

Section Rounded_arithmetic.

Variable rnd : R -> float64.

Hypothesis Hrnd : rounding_contract rnd.

Lemma f64_add_mono a b c :
  f64_le a b -> f64_le (f64_add rnd a (Finite c)) (f64_add rnd b (Finite c)).
Proof.
  destruct Hrnd as (Hn & Hm & _).
  destruct a as [| |x|], b as [| |y|]; cbn; intros H; try contradiction; try exact I.
  - specialize (Hn (y + c)). destruct (rnd (y + c)); cbn; try exact I. congruence.
  - apply Hm. lra.
  - specialize (Hn (x + c)). destruct (rnd (x + c)); cbn; try exact I. congruence.
Qed.

Lemma f64_add_mono_l a b c :
  f64_le a b -> f64_le (f64_add rnd (Finite c) a) (f64_add rnd (Finite c) b).
Proof.
  destruct Hrnd as (Hn & Hm & _).
  destruct a as [| |x|], b as [| |y|]; cbn; intros H; try contradiction; try exact I.
  - specialize (Hn (c + y)). destruct (rnd (c + y)); cbn; try exact I. congruence.
  - apply Hm. lra.
  - specialize (Hn (c + x)). destruct (rnd (c + x)); cbn; try exact I. congruence.
Qed.

Lemma f64_sub_mono a b c :
  f64_le a b -> f64_le (f64_sub rnd a (Finite c)) (f64_sub rnd b (Finite c)).
Proof. unfold f64_sub. cbn [f64_neg]. apply f64_add_mono. Qed.

Lemma f64_div_mono a b c :
  0 < c -> f64_le a b -> f64_le (f64_div rnd a (Finite c)) (f64_div rnd b (Finite c)).
Proof.
  intros Hc. destruct Hrnd as (Hn & Hm & _).
  assert (Hpos : forall x : R, (if Rlt_dec c 0 then x else x) = x)
    by (intros x; destruct (Rlt_dec c 0); reflexivity).
  destruct a as [| |x|], b as [| |y|]; cbn; intros H; try contradiction;
    destruct (Req_dec_T c 0) as [E|_]; try lra;
    destruct (Rlt_dec c 0) as [E|_]; try lra; try exact I.
  - specialize (Hn (y / c)). destruct (rnd (y / c)); cbn; try exact I. congruence.
  - apply Hm. apply Rmult_le_compat_r; [|exact H].
    left. apply Rinv_0_lt_compat, Hc.
  - specialize (Hn (x / c)). destruct (rnd (x / c)); cbn; try exact I. congruence.
Qed.

End Rounded_arithmetic.

(** C9, as the code has it.  In floating-point arithmetic [calc_Tfact] is a
    non-decreasing function of the temperature with calc_Tfact(0) = 0 and
    calc_Tfact(60) = 1, exactly; hence for every temperature within the
    declared bounds [0, 60] the temperature factor is a number of the
    interval [0, 1].  This holds whatever the rounding is, provided it yields
    a number, keeps the order and is exact on 0 and 1, as the roundings of
    IEEE 754 are, and whatever numpy's [exp] is, provided it yields a number
    on a number and keeps the order; [e0] and [de] are finite numbers and
    [de] is positive, as they are on the machine. *)
Theorem calc_Tfact_nondecreasing_unit rnd np_exp a0 d :
  rounding_contract rnd ->
  exp_contract np_exp ->
  e0_in (rounded rnd np_exp) = Finite a0 ->
  de_in (rounded rnd np_exp) = Finite d ->
  0 < d ->
  (forall Ta Tb, f64_le Ta Tb ->
     f64_le (calc_Tfact_in (rounded rnd np_exp) Ta) (calc_Tfact_in (rounded rnd np_exp) Tb)) /\
  calc_Tfact_in (rounded rnd np_exp) (Finite 0) = Finite 0 /\
  calc_Tfact_in (rounded rnd np_exp) (Finite 60) = Finite 1 /\
  (forall T, 0 <= T <= 60 ->
     exists y, calc_Tfact_in (rounded rnd np_exp) (Finite T) = Finite y /\ 0 <= y <= 1).
Proof.
  intros Hrnd Hexp He0 Hde Hd.
  assert (Hmono : forall Ta Tb, f64_le Ta Tb ->
            f64_le (calc_Tfact_in (rounded rnd np_exp) Ta)
                   (calc_Tfact_in (rounded rnd np_exp) Tb)).
  { intros Ta Tb H. unfold calc_Tfact_in. rewrite He0, Hde.
    cbn [rounded f_add f_sub f_div f_exp of_int].
    apply (f64_div_mono rnd Hrnd _ _ d Hd).
    apply (f64_sub_mono rnd Hrnd).
    apply (proj2 Hexp).
    apply (f64_div_mono rnd Hrnd _ _ 25); [lra|].
    apply (f64_add_mono_l rnd Hrnd). exact H. }
  assert (H0 : calc_Tfact_in (rounded rnd np_exp) (Finite 0) = Finite 0).
  { unfold calc_Tfact_in.
    change (f_exp (rounded rnd np_exp)
              (f_div (rounded rnd np_exp)
                 (f_add (rounded rnd np_exp) (of_int (rounded rnd np_exp) 100) (Finite 0))
                 (of_int (rounded rnd np_exp) 25)))
      with (e0_in (rounded rnd np_exp)).
    rewrite He0, Hde. cbn [rounded f_sub f_div f64_sub f64_neg f64_add f64_div].
    destruct Hrnd as (_ & _ & Hz & _).
    replace (a0 + - a0) with 0 by lra. rewrite Hz. cbn [f64_div].
    destruct (Req_dec_T d 0); [lra|].
    replace (0 / d) with 0 by (unfold Rdiv; lra). exact Hz. }
  assert (H60 : calc_Tfact_in (rounded rnd np_exp) (Finite 60) = Finite 1).
  { unfold calc_Tfact_in.
    change (f_sub (rounded rnd np_exp)
              (f_exp (rounded rnd np_exp)
                 (f_div (rounded rnd np_exp)
                    (f_add (rounded rnd np_exp) (of_int (rounded rnd np_exp) 100) (Finite 60))
                    (of_int (rounded rnd np_exp) 25)))
              (e0_in (rounded rnd np_exp)))
      with (de_in (rounded rnd np_exp)).
    rewrite Hde. cbn [rounded f_div f64_div].
    destruct (Req_dec_T d 0); [lra|].
    destruct Hrnd as (_ & _ & _ & Ho).
    replace (d / d) with 1 by (field; lra). exact Ho. }
  split; [exact Hmono|]. split; [exact H0|]. split; [exact H60|].
  intros T [HT0 HT60].
  pose proof (Hmono (Finite 0) (Finite T) HT0) as Hlo.
  pose proof (Hmono (Finite T) (Finite 60) HT60) as Hhi.
  rewrite H0 in Hlo. rewrite H60 in Hhi.
  destruct (calc_Tfact_in (rounded rnd np_exp) (Finite T)) as [| |y|];
    cbn in Hlo, Hhi; try contradiction.
  exists y. split; [reflexivity|lra].
Qed.

Lemma exact_rounding : rounding_contract Finite.
Proof.
  split; [discriminate|]. split; [intros x y H; exact H|]. split; reflexivity.
Qed.

Lemma exact_exp_contract : exp_contract exact_exp.
Proof.
  split.
  - intros [| |x|] H; cbn; congruence.
  - intros [| |x|] [| |y|]; cbn; intros H; try contradiction; try exact I.
    + lra.
    + left. apply exp_pos.
    + destruct H as [H | ->]; [left; apply exp_increasing, H | right; reflexivity].
Qed.

Lemma exact_e0 : e0_in exact_arithmetic = Finite (exp ((100 + 0) / 25)).
Proof.
  unfold e0_in, exact_arithmetic. cbn [rounded f_add f_div f_exp of_int f64_add f64_div].
  destruct (Req_dec_T 25 0); [lra|]. reflexivity.
Qed.

Lemma exact_e60 : e60_in exact_arithmetic = Finite (exp ((100 + 60) / 25)).
Proof.
  unfold e60_in, exact_arithmetic. cbn [rounded f_add f_div f_exp of_int f64_add f64_div].
  destruct (Req_dec_T 25 0); [lra|]. reflexivity.
Qed.

Lemma exact_de :
  de_in exact_arithmetic = Finite (exp ((100 + 60) / 25) + - exp ((100 + 0) / 25)).
Proof. unfold de_in. rewrite exact_e0, exact_e60. reflexivity. Qed.

(** In exact arithmetic [calc_Tfact_in] is the function that [calc_Tfact]
    applies to every element. *)
Lemma calc_Tfact_in_exact st Ts :
  globals st = cell14 ->
  exists ys,
    calc_Tfact (map Flt Ts) st = (Ok (map Flt ys), st) /\
    map (calc_Tfact_in exact_arithmetic) (map Finite Ts) = map Finite ys.
Proof.
  intros Hg. eexists. split; [apply calc_Tfact_floats|].
  rewrite !map_map. apply map_ext. intros T.
  unfold calc_Tfact_in. rewrite exact_e0, exact_de, Hg.
  unfold exact_arithmetic. cbn [rounded f_add f_sub f_div f_exp of_int f64_add f64_sub f64_neg
                     f64_div exact_exp].
  destruct (Req_dec_T 25 0); [lra|].
  unfold f64_sub, f64_neg, f64_add, f64_div, exact_exp.
  destruct (Req_dec_T (exp ((100 + 60) / 25) + - exp ((100 + 0) / 25)) 0) as [E|_].
  - exfalso. pose proof cell14_de_pos as Hd. cbv [de cell14] in Hd. lra.
  - reflexivity.
Qed.

(** C9 at work: exact arithmetic, in which [calc_Tfact_in] is the function
    that [calc_Tfact] applies to every element. *)
Lemma calc_Tfact_nondecreasing_unit_witness :
  (forall Ta Tb, f64_le Ta Tb ->
     f64_le (calc_Tfact_in exact_arithmetic Ta) (calc_Tfact_in exact_arithmetic Tb)) /\
  calc_Tfact_in exact_arithmetic (Finite 0) = Finite 0 /\
  calc_Tfact_in exact_arithmetic (Finite 60) = Finite 1.
Proof.
  destruct (calc_Tfact_nondecreasing_unit Finite exact_exp _ _
              exact_rounding exact_exp_contract exact_e0 exact_de)
    as (Hmono & H0 & H60 & _).
  - pose proof cell14_de_pos as Hd. cbv [de cell14] in Hd. lra.
  - split; [exact Hmono|]. split; [exact H0|exact H60].
Defined.

(** The claim C9 as stated fails on the machine: in binary64 arithmetic
    100 + 1e-20 is 100, so that, whatever numpy's [exp] computes,
    [calc_Tfact] returns the same factor for the temperatures 0 and 1e-20,
    which both lie within the declared bounds: the factor is not strictly
    increasing in the temperature. *)
Lemma calc_Tfact_not_strictly_increasing :
  let zero := PrimFloat.of_uint63 (Uint63.of_Z 0) in
  let sixty := PrimFloat.of_uint63 (Uint63.of_Z 60) in
  PrimFloat.ltb zero float_1e_20 = true /\
  PrimFloat.leb float_1e_20 sixty = true /\
  forall np_exp : float -> float,
    of_int (binary64 np_exp) 0 = zero /\
    of_int (binary64 np_exp) 60 = sixty /\
    calc_Tfact_in (binary64 np_exp) zero = calc_Tfact_in (binary64 np_exp) float_1e_20.
Proof.
  cbv zeta. split; [reflexivity|]. split; [reflexivity|].
  intros np_exp. split; [reflexivity|]. split; [reflexivity|].
  vm_compute. reflexivity.
Qed.

(** ** The simulator on a table of candidates *)

Lemma bind_domain_inputs {B} d dom (k : list Feature -> M B) st :
  heap st !! d = Some (DomainObj dom) ->
  bind (domain_inputs d) k st = k (inputs dom) st.
Proof. intros H. unfold domain_inputs, bind, read_domain, ret. rewrite H. reflexivity. Qed.

Lemma bind_domain_outputs {B} d dom (k : list Feature -> M B) st :
  heap st !! d = Some (DomainObj dom) ->
  bind (domain_outputs d) k st = k (outputs dom) st.
Proof. intros H. unfold domain_outputs, bind, read_domain, ret. rewrite H. reflexivity. Qed.

Lemma bind_read_frame {B} l df (k : DataFrame -> M B) st :
  heap st !! l = Some (FrameObj df) ->
  bind (read_frame l) k st = k df st.
Proof. intros H. unfold bind, read_frame. rewrite H. reflexivity. Qed.

Lemma bind_run {A B} (m : M A) (k : A -> M B) st a st' :
  m st = (Ok a, st') -> bind m k st = k a st'.
Proof. intros H. unfold bind. rewrite H. reflexivity. Qed.

Lemma map_combine_rows {X Y Z} (f : Row -> X) (g : Row -> Y) (k : X * Y -> Z) rows :
  map k (combine (map f rows) (map g rows)) = map (fun r => k (f r, g r)) rows.
Proof. induction rows as [|r rows IH]; simpl; [reflexivity|]. rewrite IH. reflexivity. Qed.

Lemma ufunc1_rows f (g : Row -> R) rows :
  ufunc1 f (map Flt (map g rows)) = Ok (map Flt (map (fun r => f (g r)) rows)).
Proof. rewrite ufunc1_floats, (map_map g f). reflexivity. Qed.

Lemma ufunc2_rows f (g h : Row -> R) rows :
  ufunc2 f (map Flt (map g rows)) (map Flt (map h rows))
  = Ok (map Flt (map (fun r => f (g r) (h r)) rows)).
Proof.
  rewrite ufunc2_floats by (rewrite !length_map; reflexivity).
  rewrite map_combine_rows. reflexivity.
Qed.

Lemma series_density_known rows :
  Forall (fun r => known_solvent (row_S r)) rows ->
  result_mapM
    (series_loc1 (mkSeries (index (solvent_descriptors cell14))
                           (map (fun lv => Flt (snd lv)) density)))
    (map Str (map row_S rows))
  = Ok (map Flt (map (fun r => spec_density (row_S r)) rows)).
Proof.
  induction 1 as [|r rows Hr _ IH]; [reflexivity|].
  cbn [map result_mapM]. rewrite IH.
  destruct Hr as [-> | [-> | ->]]; reflexivity.
Qed.

Lemma calc_rhofact_rows st rows (t : Row -> R) :
  globals st = cell14 ->
  Forall (fun r => known_solvent (row_S r)) rows ->
  calc_rhofact (map Str (map row_S rows)) (map Flt (map t rows)) st
  = (Ok (map Flt (map (fun r => (1.5 - spec_density (row_S r)) * (t r + 0.5) / 2) rows)), st).
Proof.
  intros Hg Hknown. unfold calc_rhofact.
  rewrite bind_get_global, Hg, bind_lift.
  change (df_getitem (solvent_descriptors cell14) "density")
    with (Ok (mkSeries (index (solvent_descriptors cell14))
                       (map (fun lv => Flt (snd lv)) density))).
  cbv beta iota. rewrite bind_lift. unfold series_getitem.
  rewrite (series_density_known rows Hknown). cbv beta iota delta [result_bind s_values].
  rewrite bind_lift, ufunc1_rows. cbv beta iota.
  rewrite bind_lift, ufunc1_rows. cbv beta iota.
  rewrite bind_lift, ufunc2_rows. reflexivity.
Qed.

Lemma calc_volume_fact_rows st rows :
  calc_volume_fact (map Flt (map row_V rows)) st
  = (Ok (map Flt (map (fun r => spec_Vfact (row_V r)) rows)), st).
Proof.
  unfold calc_volume_fact.
  rewrite bind_lift, ufunc1_rows. cbv beta iota.
  rewrite bind_lift, ufunc1_rows. reflexivity.
Qed.

Lemma calc_Tfact_rows st rows :
  globals st = cell14 ->
  calc_Tfact (map Flt (map row_T rows)) st
  = (Ok (map Flt (map (fun r => spec_Tfact (row_T r)) rows)), st).
Proof.
  intros Hg. rewrite calc_Tfact_floats, Hg, !map_map.
  do 2 f_equal. apply map_ext. intros r. f_equal.
  cbv [T1 T0 e0 de cell14 spec_Tfact].
  replace ((100 + 0) / 25) with (100 / 25) by lra.
  replace ((100 + 60) / 25) with (160 / 25) by lra.
  reflexivity.
Qed.

Lemma np_ones_Z_of_nat n : np_ones_Z (Z.of_nat n) = Ok (np_ones n).
Proof.
  unfold np_ones_Z. destruct (Z.ltb_spec (Z.of_nat n) 0) as [H|_]; [lia|].
  rewrite Nat2Z.id. reflexivity.
Qed.

Lemma length_RangeIndex n : length (RangeIndex n) = n.
Proof. unfold RangeIndex. rewrite length_map, length_seq. reflexivity. Qed.

Lemma dict_display_experiments {V} (t v y s o : V) :
  dict_display [("Temperature", t); ("Solvent Volume", v); ("Yield", y);
                ("Solvent Type", s); ("valid_" ++ "Yield", o)]
  = [("Temperature", t); ("Solvent Volume", v); ("Yield", y);
     ("Solvent Type", s); ("valid_Yield", o)].
Proof. reflexivity. Qed.

Lemma DataFrame_of_dict_uniform k a d n :
  length a = n ->
  Forall (fun kv => length (snd kv) = n) d ->
  DataFrame_of_dict ((k, a) :: d) = Ok (mkDataFrame ((k, a) :: d) (RangeIndex n)).
Proof.
  intros Ha Hd. unfold DataFrame_of_dict.
  replace (forallb _ _) with true; [rewrite Ha; reflexivity|].
  symmetry. apply forallb_forall. intros kv [<-|Hin]; simpl.
  - apply Nat.eqb_refl.
  - rewrite Forall_forall in Hd. rewrite (Hd kv), Ha by (apply list_elem_of_In, Hin).
    apply Nat.eqb_refl.
Qed.

Lemma length_np_ones n : length (np_ones n) = n.
Proof. apply repeat_length. Qed.

(** The last statements of [create_experiments]: the new table is allocated,
    its index is replaced, and the reference is returned. *)
Lemma bind_alloc {B} o (k : loc -> M B) st :
  bind (alloc o) k st = k (new_loc (heap st)) (with_heap st (<[new_loc (heap st) := o]> (heap st))).
Proof. reflexivity. Qed.

Lemma bind_store {B} l o (k : unit -> M B) st :
  bind (store l o) k st = k tt (with_heap st (<[l := o]> (heap st))).
Proof. reflexivity. Qed.

Ltac run_pure :=
  repeat (first [rewrite bind_assoc | rewrite bind_lift | rewrite bind_ret]; cbv beta iota).

(** The statements of [create_experiments] after the sampling, run on arrays
    that hold [rows], in a state [st] with the constants of cell 14.  What is
    left to prove is that the yields computed are those of [spec_yield]. *)
Ltac run_body st rows A B Hg Hknown :=
  rewrite (bind_run _ _ _ _ _ (calc_Tfact_rows st rows Hg));
  rewrite (bind_run _ _ _ _ _ (calc_rhofact_rows st rows _ Hg Hknown));
  rewrite (bind_run _ _ _ _ _ (calc_volume_fact_rows st rows));
  repeat (rewrite bind_lift, ?ufunc1_rows, ?ufunc2_rows; cbv beta iota);
  rewrite np_ones_Z_of_nat, bind_lift, dict_display_experiments;
  rewrite (DataFrame_of_dict_uniform _ _ _ (length rows))
    by (repeat constructor; cbn [snd]; rewrite ?length_map, ?length_np_ones; reflexivity);
  rewrite bind_alloc;
  rewrite (bind_read_frame _ _ _ _ (lookup_insert_eq _ _ _));
  rewrite bind_lift; unfold df_set_index; cbn [index columns];
  rewrite length_RangeIndex, Nat.eqb_refl;
  rewrite bind_store; unfold ret, with_heap; cbn [heap globals np_random draw];
  rewrite insert_insert_eq; unfold experiments_of_rows;
  match goal with
  | |- context [map ?f rows] =>
      lazymatch f with
      | (fun r => 0.5 * _ + _) => rewrite (map_ext f (spec_yield A B))
      end
  end.

(** On a well-formed table of candidates with known solvents the simulator
    returns a reference to a new table, which holds [experiments_of_rows]. *)
Lemma create_experiments_on_rows st domain c dom cands rows nsamples A B :
  globals st = cell14 ->
  heap st !! domain = Some (DomainObj dom) ->
  has_reaction_features dom ->
  heap st !! c = Some (FrameObj cands) ->
  holds_rows cands rows ->
  Forall (fun r => known_solvent (row_S r)) rows ->
  create_experiments domain nsamples A B (Some c) st
  = (Ok (new_loc (heap st)),
     with_heap st (<[new_loc (heap st) := FrameObj (experiments_of_rows A B rows)]> (heap st))).
Proof.
  intros Hg Hdom ([Tf HTf] & [Vf HVf] & [typef Htypef] & [yf Hyf]) Hc
         (HT & HV & HS & Hlen) Hknown.
  unfold create_experiments.
  rewrite (bind_domain_inputs _ _ _ _ Hdom), bind_lift, HTf. cbv beta iota.
  rewrite (bind_domain_inputs _ _ _ _ Hdom), bind_lift, HVf. cbv beta iota.
  rewrite (bind_domain_inputs _ _ _ _ Hdom), bind_lift, Htypef. cbv beta iota.
  rewrite (bind_domain_outputs _ _ _ _ Hdom), bind_lift, Hyf. cbv beta iota.
  rewrite (get_by_key_key _ _ _ HTf), (get_by_key_key _ _ _ HVf),
          (get_by_key_key _ _ _ Htypef), (get_by_key_key _ _ _ Hyf).
  rewrite bind_assoc, (bind_read_frame _ _ _ _ Hc). cbv zeta.
  unfold df_getitem. rewrite HT, HV, HS, Hlen.
  run_pure. cbv beta iota delta [s_values].
  rewrite Nat2Z.id.
  run_body st rows A B Hg Hknown; [reflexivity|].
  intros r. unfold spec_yield, spec_rhofact. cbv zeta. lra.
Qed.

(** ** Inversion of runs *)

Lemma bind_inv {A B} (m : M A) (k : A -> M B) st r st' :
  bind m k st = (r, st') ->
  (exists e, m st = (Raise e, st') /\ r = Raise e) \/
  (exists a st1, m st = (Ok a, st1) /\ k a st1 = (r, st')).
Proof.
  unfold bind. destruct (m st) as [[a|e] st1]; intros H.
  - right. eauto.
  - left. injection H as <- <-. eauto.
Qed.

Lemma reader_run {A} (m : M A) st r st' : is_reader m -> m st = (r, st') -> st' = st.
Proof. intros Hm H. specialize (Hm st). rewrite H in Hm. exact Hm. Qed.

Lemma is_reader_ret {A} (a : A) : is_reader (ret a).
Proof. intros st. reflexivity. Qed.

Lemma is_reader_lift {A} (r : result A) : is_reader (lift r).
Proof. intros st. reflexivity. Qed.

Lemma is_reader_get_global {A} (p : Globals -> A) : is_reader (get_global p).
Proof. intros st. reflexivity. Qed.

Lemma is_reader_read_domain d : is_reader (read_domain d).
Proof. intros st. unfold read_domain. destruct (heap st !! d) as [[?|?]|]; reflexivity. Qed.

Lemma is_reader_read_frame l : is_reader (read_frame l).
Proof. intros st. unfold read_frame. destruct (heap st !! l) as [[?|?]|]; reflexivity. Qed.

Lemma is_reader_bind {A B} (m : M A) (k : A -> M B) :
  is_reader m -> (forall a, is_reader (k a)) -> is_reader (bind m k).
Proof.
  intros Hm Hk st. unfold bind. specialize (Hm st).
  destruct (m st) as [[a|e] st1]; simpl in Hm; subst st1.
  - apply Hk.
  - reflexivity.
Qed.

Ltac solve_reader :=
  repeat first
    [ apply is_reader_ret | apply is_reader_lift | apply is_reader_get_global
    | apply is_reader_read_domain | apply is_reader_read_frame
    | apply is_reader_bind; [|intros ?] ].

Lemma is_reader_domain_inputs d : is_reader (domain_inputs d).
Proof. unfold domain_inputs. solve_reader. Qed.

Lemma is_reader_domain_outputs d : is_reader (domain_outputs d).
Proof. unfold domain_outputs. solve_reader. Qed.

Lemma is_reader_calc_Tfact T : is_reader (calc_Tfact T).
Proof. unfold calc_Tfact. solve_reader. Qed.

Lemma is_reader_calc_rhofact s T : is_reader (calc_rhofact s T).
Proof. unfold calc_rhofact. solve_reader. Qed.

Lemma is_reader_calc_volume_fact V : is_reader (calc_volume_fact V).
Proof. unfold calc_volume_fact. solve_reader. Qed.

Lemma lift_inv {A} (r x : result A) st st' : lift r st = (x, st') -> r = x /\ st' = st.
Proof. unfold lift. intros [= -> ->]. split; reflexivity. Qed.

Lemma domain_inputs_inv d st fs st' :
  domain_inputs d st = (Ok fs, st') ->
  exists dom, heap st !! d = Some (DomainObj dom) /\ fs = inputs dom /\ st' = st.
Proof.
  unfold domain_inputs, bind, read_domain, ret.
  destruct (heap st !! d) as [[dom|?]|]; intros [= <- <-]. eauto.
Qed.

Lemma domain_outputs_inv d st fs st' :
  domain_outputs d st = (Ok fs, st') ->
  exists dom, heap st !! d = Some (DomainObj dom) /\ fs = outputs dom /\ st' = st.
Proof.
  unfold domain_outputs, bind, read_domain, ret.
  destruct (heap st !! d) as [[dom|?]|]; intros [= <- <-]. eauto.
Qed.

Lemma read_frame_inv l st df st' :
  read_frame l st = (Ok df, st') -> heap st !! l = Some (FrameObj df) /\ st' = st.
Proof.
  unfold read_frame. destruct (heap st !! l) as [[?|?]|]; intros [= <- <-]. eauto.
Qed.

Lemma DataFrame_of_dict_inv k a d df :
  DataFrame_of_dict ((k, a) :: d) = Ok df ->
  df = mkDataFrame ((k, a) :: d) (RangeIndex (length a)) /\
  Forall (fun kv => length (snd kv) = length a) ((k, a) :: d).
Proof.
  unfold DataFrame_of_dict.
  destruct (forallb _ _) eqn:E; [|discriminate].
  intros [= <-]. split; [reflexivity|].
  apply Forall_forall. intros kv Hin.
  rewrite forallb_forall in E. apply Nat.eqb_eq, E, list_elem_of_In, Hin.
Qed.

Lemma np_ones_Z_inv n ones :
  np_ones_Z n = Ok ones -> (0 <= n)%Z /\ ones = np_ones (Z.to_nat n).
Proof.
  unfold np_ones_Z. destruct (Z.ltb_spec n 0); [discriminate|].
  intros [= <-]. split; [assumption|reflexivity].
Qed.

Ltac solve_reader' :=
  repeat first
    [ apply is_reader_ret | apply is_reader_lift | apply is_reader_get_global
    | apply is_reader_read_domain | apply is_reader_read_frame
    | apply is_reader_domain_inputs | apply is_reader_domain_outputs
    | apply is_reader_calc_Tfact | apply is_reader_calc_rhofact
    | apply is_reader_calc_volume_fact
    | apply is_reader_bind; [|intros ?] ].

(** One step of a run whose first computation only reads the state: either it
    raises, and the run ends there with the state as it was, or it returns. *)
Lemma bind_reader_inv {A B} (m : M A) (k : A -> M B) st r st' :
  is_reader m ->
  bind m k st = (r, st') ->
  (exists e, m st = (Raise e, st) /\ r = Raise e /\ st' = st) \/
  (exists a, m st = (Ok a, st) /\ k a st = (r, st')).
Proof.
  intros Hm H. apply bind_inv in H as [(e & H1 & ->) | (a & st1 & H1 & H)].
  - left. pose proof (reader_run _ _ _ _ Hm H1) as ->. eauto.
  - right. pose proof (reader_run _ _ _ _ Hm H1) as ->. eauto.
Qed.

Lemma experiments_shape_intro T V y s n :
  Forall (fun kv : string * ndarray => length (snd kv) = length T)
    [("Temperature", T); ("Solvent Volume", V); ("Yield", y);
     ("Solvent Type", s); ("valid_Yield", np_ones n)] ->
  experiments_shape
    (mkDataFrame
       [("Temperature", T); ("Solvent Volume", V); ("Yield", y);
        ("Solvent Type", s); ("valid_Yield", np_ones n)]
       (RangeIndex n)) n.
Proof.
  intros Hcols.
  assert (Hn : length T = n).
  { rewrite !Forall_cons in Hcols. cbn [snd] in Hcols.
    rewrite length_np_ones in Hcols. intuition congruence. }
  rewrite Hn in Hcols. rewrite !Forall_cons in Hcols. cbn [snd] in Hcols.
  exists T, V, y, s. intuition.
Qed.

Ltac step_reader H a Ha :=
  let e := fresh "e" in
  apply bind_reader_inv in H; [|solve [solve_reader']];
  destruct H as [(e & Ha & -> & ->) | (a & Ha & H)].

Ltac step_lift H a Ha :=
  step_reader H a Ha; [|apply lift_inv in Ha as [Ha _]].

(** The same for a run that is known to return. *)
Ltac step_reader_ok H a Ha :=
  let e := fresh "e" in let Hbad := fresh "Hbad" in
  apply bind_reader_inv in H; [|solve [solve_reader']];
  destruct H as [(e & _ & Hbad & _) | (a & Ha & H)]; [discriminate Hbad|].

Ltac step_lift_ok H a Ha :=
  step_reader_ok H a Ha; apply lift_inv in Ha as [Ha _].

Lemma df_set_index_same_length df n :
  length (index df) = n ->
  df_set_index df (RangeIndex n) = Ok (mkDataFrame (columns df) (RangeIndex n)).
Proof.
  intros H. unfold df_set_index. rewrite length_RangeIndex, H, Nat.eqb_refl. reflexivity.
Qed.

(** The statements of [create_experiments] after the sampling: in a run [H]
    of them, every step that raises is closed by [raise_tac]; what remains is
    the run that returns, with the table it built. *)
Ltac body_steps H raise_tac :=
  let Tfact := fresh "Tfact" in let HTfact := fresh "HTfact" in
  let rhofact := fresh "rhofact" in let Hrhofact := fresh "Hrhofact" in
  let Vfact := fresh "Vfact" in let HVfact := fresh "HVfact" in
  let a := fresh "a" in let Ha := fresh "Ha" in
  let b := fresh "b" in let Hb := fresh "Hb" in
  let y := fresh "y" in let Hy := fresh "Hy" in
  let a' := fresh "a'" in let Ha' := fresh "Ha'" in
  let b' := fresh "b'" in let Hb' := fresh "Hb'" in
  let b'' := fresh "b''" in let Hb'' := fresh "Hb''" in
  let y' := fresh "y'" in let Hy' := fresh "Hy'" in
  let ones := fresh "ones" in let Hones := fresh "Hones" in
  let df := fresh "df" in let Hdf := fresh "Hdf" in
  let Hcols := fresh "Hcols" in
  let Hn := fresh "Hn" in
  cbv beta iota zeta in H;
  step_reader H Tfact HTfact; [raise_tac|];
  step_reader H rhofact Hrhofact; [raise_tac|];
  step_reader H Vfact HVfact; [raise_tac|];
  step_lift H a Ha; [raise_tac|];
  step_lift H b Hb; [raise_tac|];
  step_lift H y Hy; [raise_tac|];
  step_lift H a' Ha'; [raise_tac|];
  step_lift H b' Hb'; [raise_tac|];
  step_lift H b'' Hb''; [raise_tac|];
  step_lift H y' Hy'; [raise_tac|];
  step_lift H ones Hones; [raise_tac|];
  apply np_ones_Z_inv in Hones as [Hn ->];
  step_lift H df Hdf; [raise_tac|];
  rewrite dict_display_experiments in Hdf;
  apply DataFrame_of_dict_inv in Hdf as [-> Hcols];
  rewrite bind_alloc, (bind_read_frame _ _ _ _ (lookup_insert_eq _ _ _)), bind_lift in H;
  rewrite df_set_index_same_length in H
    by (cbn [index]; rewrite length_RangeIndex;
        rewrite !Forall_cons in Hcols; cbn [snd] in Hcols;
        rewrite length_np_ones in Hcols; intuition congruence);
  rewrite bind_store in H; unfold ret, with_heap in H;
  cbn [heap globals np_random columns] in H; rewrite insert_insert_eq in H;
  injection H as <- <-.

(** Every run of the simulator on a table of candidates either raises, with
    the state as it was, or allocates one new table of experiments that has
    one row per candidate. *)
Lemma create_experiments_candidates_inv domain nsamples A B c st r st' :
  create_experiments domain nsamples A B (Some c) st = (r, st') ->
  (exists e, r = Raise e /\ st' = st) \/
  (exists dom cands df,
     heap st !! domain = Some (DomainObj dom) /\
     heap st !! c = Some (FrameObj cands) /\
     experiments_shape df (df_len cands) /\
     r = Ok (new_loc (heap st)) /\
     st' = with_heap st (<[new_loc (heap st) := FrameObj df]> (heap st))).
Proof.
  intros H. unfold create_experiments in H.
  step_reader H ins Hins; [left; eauto|].
  apply domain_inputs_inv in Hins as (dom & Hdom & -> & _).
  step_lift H Tf HTf; [left; eauto|].
  step_reader H ins Hins; [left; eauto|].
  apply domain_inputs_inv in Hins as (dom' & Hdom' & -> & _).
  rewrite Hdom in Hdom'. injection Hdom' as <-.
  step_lift H Vf HVf; [left; eauto|].
  step_reader H ins Hins; [left; eauto|].
  apply domain_inputs_inv in Hins as (dom' & Hdom' & -> & _).
  rewrite Hdom in Hdom'. injection Hdom' as <-.
  step_lift H typef Htypef; [left; eauto|].
  step_reader H outs Houts; [left; eauto|].
  apply domain_outputs_inv in Houts as (dom' & Hdom' & -> & _).
  rewrite Hdom in Hdom'. injection Hdom' as <-.
  step_lift H yf Hyf; [left; eauto|].
  step_reader H sampled Hsampled; [left; eauto|].
  step_reader_ok Hsampled cands Hcands.
  apply read_frame_inv in Hcands as [Hc _].
  step_lift_ok Hsampled T HT.
  step_lift_ok Hsampled V HV.
  step_lift_ok Hsampled solvent_types HS.
  unfold ret in Hsampled. injection Hsampled as <-.
  rewrite (get_by_key_key _ _ _ HTf), (get_by_key_key _ _ _ HVf),
          (get_by_key_key _ _ _ Htypef), (get_by_key_key _ _ _ Hyf) in H.
  body_steps H ltac:(left; eauto).
  rewrite Nat2Z.id in *.
  right. exists dom, cands. eexists.
  split; [exact Hdom|]. split; [exact Hc|]. split; [|split; reflexivity].
  apply experiments_shape_intro. eassumption.
Qed.

(** ** The simulator on random samples *)

Lemma sampler_run {A} (m : M A) st r st' :
  is_sampler m -> m st = (r, st') -> globals st' = globals st /\ heap st' = heap st.
Proof. intros Hm H. specialize (Hm st). rewrite H in Hm. exact Hm. Qed.

Lemma is_sampler_reader {A} (m : M A) : is_reader m -> is_sampler m.
Proof. intros Hm st. rewrite Hm. split; reflexivity. Qed.

Lemma is_sampler_bind {A B} (m : M A) (k : A -> M B) :
  is_sampler m -> (forall a, is_sampler (k a)) -> is_sampler (bind m k).
Proof.
  intros Hm Hk st. unfold bind. specialize (Hm st).
  destruct (m st) as [[a|e] st1]; simpl in Hm.
  - destruct (Hk a st1) as [Hg Hh]. rewrite Hg, Hh. exact Hm.
  - exact Hm.
Qed.

Lemma is_sampler_uniform low high n : is_sampler (np_random_uniform low high n).
Proof.
  intros st. unfold np_random_uniform. destruct (Z.ltb n 0); split; reflexivity.
Qed.

Lemma is_sampler_randint low high : is_sampler (np_random_randint low high).
Proof.
  intros st. unfold np_random_randint. destruct (Z.leb high low); split; reflexivity.
Qed.

Lemma is_sampler_list_comprehension {A} n (body : M A) :
  is_sampler body -> is_sampler (list_comprehension n body).
Proof.
  intros Hbody. induction n as [|n IH]; simpl.
  - apply is_sampler_reader, is_reader_ret.
  - apply is_sampler_bind; [exact Hbody|]. intros x.
    apply is_sampler_bind; [exact IH|]. intros xs.
    apply is_sampler_reader, is_reader_ret.
Qed.

Ltac solve_sampler :=
  repeat first
    [ apply is_sampler_uniform | apply is_sampler_randint
    | apply is_sampler_list_comprehension
    | apply is_sampler_bind; [|intros ?]
    | apply is_sampler_reader; solve [solve_reader'] ].

Ltac step_any H a st1 Ha :=
  let e := fresh "e" in let Hbad := fresh "Hbad" in
  apply bind_inv in H;
  destruct H as [(e & _ & Hbad) | (a & st1 & Ha & H)]; [discriminate Hbad|].

(** Every run of the simulator without candidates that returns has drawn a
    non-negative number [nsamples] of samples and has allocated one new table
    of experiments with [nsamples] rows. *)
Lemma create_experiments_random_inv domain nsamples A B st r st' :
  create_experiments domain nsamples A B None st = (r, st') ->
  (exists e, r = Raise e) \/
  (exists df,
     (0 <= nsamples)%Z /\
     experiments_shape df (Z.to_nat nsamples) /\
     r = Ok (new_loc (heap st)) /\
     globals st' = globals st /\
     heap st' = <[new_loc (heap st) := FrameObj df]> (heap st)).
Proof.
  intros H. unfold create_experiments in H.
  step_reader H ins Hins; [left; eauto|].
  apply domain_inputs_inv in Hins as (dom & Hdom & -> & _).
  step_lift H Tf HTf; [left; eauto|].
  step_reader H ins Hins; [left; eauto|].
  apply domain_inputs_inv in Hins as (dom' & Hdom' & -> & _).
  rewrite Hdom in Hdom'. injection Hdom' as <-.
  step_lift H Vf HVf; [left; eauto|].
  step_reader H ins Hins; [left; eauto|].
  apply domain_inputs_inv in Hins as (dom' & Hdom' & -> & _).
  rewrite Hdom in Hdom'. injection Hdom' as <-.
  step_lift H typef Htypef; [left; eauto|].
  step_reader H outs Houts; [left; eauto|].
  apply domain_outputs_inv in Houts as (dom' & Hdom' & -> & _).
  rewrite Hdom in Hdom'. injection Hdom' as <-.
  step_lift H yf Hyf; [left; eauto|].
  apply bind_inv in H as [(e & _ & ->) | (sampled & st1 & Hsampled & H)]; [left; eauto|].
  assert (Hst1 : globals st1 = globals st /\ heap st1 = heap st).
  { eapply sampler_run; [|exact Hsampled]. solve_sampler. }
  destruct Hst1 as [Hg1 Hh1].
  step_any Hsampled low st2 Hlow. step_any Hsampled high st3 Hhigh.
  step_any Hsampled T st4 HT.
  step_any Hsampled low' st5 Hlow'. step_any Hsampled high' st6 Hhigh'.
  step_any Hsampled V st7 HV.
  step_any Hsampled solvent_types st8 HS.
  unfold ret in Hsampled. injection Hsampled as <- _.
  rewrite (get_by_key_key _ _ _ HTf), (get_by_key_key _ _ _ HVf),
          (get_by_key_key _ _ _ Htypef), (get_by_key_key _ _ _ Hyf) in H.
  body_steps H ltac:(left; eauto).
  right. eexists.
  split; [eassumption|]. split; [apply experiments_shape_intro; eassumption|].
  cbn [globals heap]. rewrite Hh1, Hg1. repeat split; reflexivity.
Qed.

Lemma draw_draw j k st : draw k (draw j st) = draw (j + k) st.
Proof. unfold draw, advance. cbn. rewrite Nat.add_assoc. reflexivity. Qed.

Lemma np_random_uniform_run low high n st :
  (0 <= n)%Z ->
  np_random_uniform low high n st
  = (Ok (map (fun i => Flt (low + (high - low)
                            * random_sample (np_random st) (drawn (np_random st) + i)))
             (seq 0 (Z.to_nat n))),
     draw (Z.to_nat n) st).
Proof.
  intros Hn. unfold np_random_uniform.
  destruct (Z.ltb_spec n 0); [lia|reflexivity].
Qed.

Lemma np_random_randint_run st :
  np_random_randint 0 3 st
  = (Ok (random_integer (np_random st) 0 3 (drawn (np_random st))), draw 1 st).
Proof. reflexivity. Qed.

Lemma solvent_getitem k :
  (0 <= k < 3)%Z ->
  list_getitem ["MeOH"; "THF"; "Dioxane"] k
  = Ok (nth (Z.to_nat k) ["MeOH"; "THF"; "Dioxane"] EmptyString).
Proof.
  intros Hk. unfold list_getitem. destruct (Z.ltb_spec k 0); [lia|].
  assert (Hcases : Z.to_nat k = 0%nat \/ Z.to_nat k = 1%nat \/ Z.to_nat k = 2%nat) by lia.
  destruct Hcases as [-> | [-> | ->]]; reflexivity.
Qed.

Lemma solvent_known k :
  (0 <= k < 3)%Z -> known_solvent (nth (Z.to_nat k) ["MeOH"; "THF"; "Dioxane"] EmptyString).
Proof.
  intros Hk.
  assert (Hcases : Z.to_nat k = 0%nat \/ Z.to_nat k = 1%nat \/ Z.to_nat k = 2%nat) by lia.
  unfold known_solvent. destruct Hcases as [-> | [-> | ->]]; cbn; auto.
Qed.

Lemma solvent_comprehension_run domain st n :
  heap st !! domain = Some (DomainObj reaction_domain) ->
  generator_contract (np_random st) ->
  list_comprehension n
    (ins <- domain_inputs domain ;;
     f <- lift (get_by_key ins "Solvent Type") ;;
     cs <- lift (categories f) ;;
     k <- np_random_randint 0 3 ;;
     c <- lift (list_getitem cs k) ;;
     ret (Str c)) st
  = (Ok (map (fun i => Str (nth (Z.to_nat (random_integer (np_random st) 0 3
                                              (drawn (np_random st) + i)))
                                 ["MeOH"; "THF"; "Dioxane"] EmptyString))
             (seq 0 n)),
     draw n st).
Proof.
  revert st. induction n as [|n IH]; intros st Hdom Hgen.
  - cbn [list_comprehension seq map]. unfold ret, draw, advance.
    rewrite Nat.add_0_r. destruct st as [g h [u z d]]; reflexivity.
  - cbn [list_comprehension].
    rewrite bind_assoc, (bind_domain_inputs _ _ _ _ Hdom).
    rewrite bind_assoc, bind_lift.
    change (get_by_key (inputs reaction_domain) "Solvent Type")
      with (Ok solvent_type_feature).
    cbv beta iota. rewrite bind_assoc, bind_lift.
    change (categories solvent_type_feature) with (Ok ["MeOH"; "THF"; "Dioxane"]).
    cbv beta iota.
    rewrite bind_assoc, (bind_run _ _ _ _ _ (np_random_randint_run st)).
    destruct Hgen as [Hu Hz].
    rewrite bind_assoc, bind_lift.
    rewrite solvent_getitem by (apply Hz; reflexivity).
    cbv beta iota. rewrite bind_ret.
    rewrite (bind_run _ _ _ _ _ (IH (draw 1 st) Hdom (conj Hu Hz))).
    unfold ret. rewrite draw_draw. f_equal. f_equal.
    cbn [seq map]. rewrite Nat.add_0_r. f_equal.
    rewrite <- seq_shift, map_map. apply map_ext. intros i.
    cbn. rewrite <- Nat.add_assoc. reflexivity.
Qed.

Lemma random_rows_known g n :
  generator_contract g ->
  Forall (fun r => known_solvent (row_S r)) (random_rows g n).
Proof.
  intros [_ Hz]. unfold random_rows. apply Forall_forall. intros r Hin.
  apply list_elem_of_In, in_map_iff in Hin as (i & <- & _). cbn [row_S].
  apply solvent_known, Hz. reflexivity.
Qed.

Lemma length_random_rows g n : length (random_rows g n) = n.
Proof. unfold random_rows. rewrite length_map, length_seq. reflexivity. Qed.

(** In the reaction domain, with a generator that keeps its contract, the
    simulator without candidates returns the table of [random_rows]. *)
Lemma create_experiments_random_run st domain nsamples A B :
  globals st = cell14 ->
  heap st !! domain = Some (DomainObj reaction_domain) ->
  generator_contract (np_random st) ->
  (0 <= nsamples)%Z ->
  let n := Z.to_nat nsamples in
  create_experiments domain nsamples A B None st
  = (Ok (new_loc (heap st)),
     mkNotebook (globals st)
       (<[new_loc (heap st)
          := FrameObj (experiments_of_rows A B (random_rows (np_random st) n))]> (heap st))
       (advance (np_random st) (n + n + n))).
Proof.
  intros Hg Hdom Hgen Hn n. unfold create_experiments.
  rewrite (bind_domain_inputs _ _ _ _ Hdom), bind_lift.
  change (get_by_key (inputs reaction_domain) "Temperature") with (Ok temperature_feature).
  cbv beta iota.
  rewrite (bind_domain_inputs _ _ _ _ Hdom), bind_lift.
  change (get_by_key (inputs reaction_domain) "Solvent Volume")
    with (Ok solvent_amount_feature).
  cbv beta iota.
  rewrite (bind_domain_inputs _ _ _ _ Hdom), bind_lift.
  change (get_by_key (inputs reaction_domain) "Solvent Type") with (Ok solvent_type_feature).
  cbv beta iota.
  rewrite (bind_domain_outputs _ _ _ _ Hdom), bind_lift.
  change (get_by_key (outputs reaction_domain) "Yield") with (Ok yield_feature).
  cbv beta iota.
  change (key temperature_feature) with "Temperature".
  change (key solvent_amount_feature) with "Solvent Volume".
  change (key solvent_type_feature) with "Solvent Type".
  change (key yield_feature) with "Yield".
  change (lower_bound temperature_feature) with (Ok 0).
  change (upper_bound temperature_feature) with (Ok 60).
  change (lower_bound solvent_amount_feature) with (Ok 20).
  change (upper_bound solvent_amount_feature) with (Ok 90).
  run_pure.
  rewrite (bind_run _ _ _ _ _ (np_random_uniform_run 0 60 nsamples st Hn)).
  run_pure.
  rewrite (bind_run _ _ _ _ _ (np_random_uniform_run 20 90 nsamples _ Hn)).
  fold n. rewrite draw_draw.
  rewrite bind_assoc.
  rewrite (bind_run _ _ _ _ _
             (solvent_comprehension_run domain (draw (n + n) st) n Hdom Hgen)).
  rewrite bind_ret. cbv beta iota. rewrite draw_draw.
  cbn [np_random draw advance drawn random_sample random_integer].
  set (rows := random_rows (np_random st) n).
  replace (map (fun i => Flt (0 + (60 - 0) * random_sample (np_random st)
                                  (drawn (np_random st) + i))) (seq 0 n))
    with (map Flt (map row_T rows))
    by (unfold rows, random_rows; rewrite !map_map; reflexivity).
  replace (map (fun i => Flt (20 + (90 - 20) * random_sample (np_random st)
                                  (drawn (np_random st) + n + i))) (seq 0 n))
    with (map Flt (map row_V rows))
    by (unfold rows, random_rows; rewrite !map_map; reflexivity).
  replace (map (fun i => Str (nth (Z.to_nat (random_integer (np_random st) 0 3
                                     (drawn (np_random st) + (n + n) + i)))
                                  ["MeOH"; "THF"; "Dioxane"] EmptyString)) (seq 0 n))
    with (map Str (map row_S rows))
    by (unfold rows, random_rows; rewrite !map_map; apply map_ext; intros i;
        cbn [row_S]; rewrite Nat.add_assoc; reflexivity).
  assert (Hns : nsamples = Z.of_nat (length rows)).
  { unfold rows. rewrite length_random_rows. unfold n. lia. }
  replace (Z.to_nat nsamples) with (length rows) by lia.
  rewrite Hns.
  assert (Hlen : n = length rows) by (unfold rows; rewrite length_random_rows; reflexivity).
  run_body (draw (n + n + n) st) rows A B Hg (random_rows_known _ n Hgen); [reflexivity|].
  intros r. unfold spec_yield, spec_rhofact. cbv zeta. lra.
Qed.

Lemma holds_rows_candidates rows : holds_rows (candidates_of_rows rows) rows.
Proof.
  repeat split. unfold df_len, candidates_of_rows. cbn [index].
  apply length_RangeIndex.
Qed.

Lemma create_candidates_random_run st domain nsamples :
  globals st = cell14 ->
  heap st !! domain = Some (DomainObj reaction_domain) ->
  generator_contract (np_random st) ->
  (0 <= nsamples)%Z ->
  let n := Z.to_nat nsamples in
  let rows := random_rows (np_random st) n in
  let h1 := <[new_loc (heap st) := FrameObj (experiments_of_rows 25 90 rows)]> (heap st) in
  create_candidates domain nsamples st
  = (Ok (new_loc h1),
     mkNotebook (globals st)
       (<[new_loc h1 := FrameObj (candidates_of_rows rows)]> h1)
       (advance (np_random st) (n + n + n))).
Proof.
  intros Hg Hdom Hgen Hn n rows h1. unfold create_candidates.
  rewrite (bind_run _ _ _ _ _ (create_experiments_random_run st domain nsamples 25 90
                                 Hg Hdom Hgen Hn)).
  fold n rows h1.
  rewrite (bind_read_frame _ _ _ _ (lookup_insert_eq _ _ _)).
  rewrite bind_lift.
  change (df_drop_columns (experiments_of_rows 25 90 rows) ["Yield"; "valid_Yield"])
    with (Ok (candidates_of_rows rows)).
  cbv beta iota. rewrite bind_alloc. reflexivity.
Qed.

(** Every run of [create_candidates] that returns has run [create_experiments]
    without candidates, and returns a new table that holds the table of
    experiments without its columns Yield and valid_Yield. *)
Lemma create_candidates_inv domain nsamples st l st' :
  create_candidates domain nsamples st = (Ok l, st') ->
  exists experiments st1 df T V y s,
    create_experiments domain nsamples 25 90 None st = (Ok experiments, st1) /\
    heap st1 !! experiments = Some (FrameObj df) /\
    columns df = [("Temperature", T); ("Solvent Volume", V); ("Yield", y);
                  ("Solvent Type", s); ("valid_Yield", np_ones (Z.to_nat nsamples))] /\
    l = new_loc (heap st1) /\
    heap st' = <[l := FrameObj (mkDataFrame
                   [("Temperature", T); ("Solvent Volume", V); ("Solvent Type", s)]
                   (index df))]> (heap st1).
Proof.
  intros H. unfold create_candidates in H.
  step_any H experiments st1 Hexp.
  pose proof Hexp as Hrun.
  apply create_experiments_random_inv in Hexp
    as [[e [=]] | (df & Hn & Hshape & [= ->] & Hg & Hh)].
  assert (Hl : heap st1 !! new_loc (heap st) = Some (FrameObj df))
    by (rewrite Hh; apply lookup_insert_eq).
  rewrite (bind_read_frame _ _ _ _ Hl), bind_lift in H.
  destruct Hshape as (T & V & y & s & Hcols & _).
  unfold df_drop_columns in H. rewrite Hcols in H.
  unfold df_has_column in H. rewrite Hcols in H.
  cbn [forallb dict_get String.eqb Ascii.eqb Bool.eqb andb List.filter existsb fst negb orb] in H.
  rewrite bind_alloc in H. unfold ret in H. injection H as <- <-.
  exists (new_loc (heap st)), st1, df, T, V, y, s.
  repeat split; assumption.
Qed.

(** ** The concrete notebook state *)

Lemma example_domain_lookup :
  heap example_notebook !! example_domain_loc = Some (DomainObj reaction_domain).
Proof. reflexivity. Qed.

Lemma reaction_domain_features : has_reaction_features reaction_domain.
Proof. repeat split; eexists; reflexivity. Qed.

Lemma example_rows_known : Forall (fun r => known_solvent (row_S r)) example_rows.
Proof.
  unfold example_rows. constructor; [|constructor].
  right. left. reflexivity.
Qed.

Lemma example_generator_contract : generator_contract example_generator.
Proof. split; cbn; intros; [lra | lia]. Qed.

Lemma example_invariant_holds : example_invariant example_notebook.
Proof. repeat split. Qed.

Lemma example_evaluate nb :
  example_invariant nb ->
  exists nb',
    evaluate_experiments example_domain_loc (Some example_candidates_loc) nb
    = (Ok (new_loc (heap nb)), nb') /\
    example_invariant nb'.
Proof.
  intros (Hg & Hd & Hc). unfold evaluate_experiments.
  rewrite (create_experiments_on_rows nb _ _ _ _ example_rows 100 25 90 Hg Hd
             reaction_domain_features Hc (holds_rows_candidates _) example_rows_known).
  eexists. split; [reflexivity|].
  repeat split; cbn [with_heap globals heap]; [exact Hg| |].
  - rewrite lookup_insert_ne; [exact Hd|].
    intros E. rewrite <- E, new_loc_fresh in Hd. discriminate.
  - rewrite lookup_insert_ne; [exact Hc|].
    intros E. rewrite <- E, new_loc_fresh in Hc. discriminate.
Qed.

(** ** The claims about the toy reaction *)

(** C1. For every table of candidates that holds rows (T, V, S) in its columns
    Temperature, Solvent Volume and Solvent Type, with the constants of cell 14
    and the default parameters A = 25 and B = 90, [evaluate_experiments]
    returns a table whose Yield column is, row by row, 0.5 * y * (1 + Vfact)
    with y = 25 * Tfact + 90 * rhofact, where Tfact, rhofact (with the
    densities MeOH 0.792, THF 0.886, Dioxane 1.03) and Vfact are the formulas
    [spec_Tfact], [spec_rhofact] and [spec_Vfact]. *)
Theorem evaluate_experiments_yield_formula st domain candidates dom cands rows :
  globals st = cell14 ->
  heap st !! domain = Some (DomainObj dom) ->
  has_reaction_features dom ->
  heap st !! candidates = Some (FrameObj cands) ->
  holds_rows cands rows ->
  Forall (fun r => known_solvent (row_S r)) rows ->
  exists samples st' df,
    evaluate_experiments domain (Some candidates) st = (Ok samples, st') /\
    heap st' !! samples = Some (FrameObj df) /\
    df_getitem df "Yield"
    = Ok (mkSeries (RangeIndex (length rows))
            (map Flt (map (fun r =>
               0.5 * (25 * spec_Tfact (row_T r) + 90 * spec_rhofact (row_S r) (row_T r))
                   * (1 + spec_Vfact (row_V r))) rows))).
Proof.
  intros Hg Hdom Hfeat Hc Hrows Hknown.
  unfold evaluate_experiments.
  rewrite (create_experiments_on_rows st domain candidates dom cands rows 100 25 90
             Hg Hdom Hfeat Hc Hrows Hknown).
  do 3 eexists. split; [reflexivity|]. split.
  - cbn [with_heap heap]. apply lookup_insert_eq.
  - reflexivity.
Qed.

Lemma evaluate_experiments_yield_formula_witness :
  exists samples st' df,
    evaluate_experiments example_domain_loc (Some example_candidates_loc) example_notebook
    = (Ok samples, st') /\
    heap st' !! samples = Some (FrameObj df) /\
    df_getitem df "Yield"
    = Ok (mkSeries (RangeIndex 1)
            [Flt (0.5 * (25 * spec_Tfact 30 + 90 * spec_rhofact "THF" 30)
                      * (1 + spec_Vfact 50))]).
Proof.
  apply (evaluate_experiments_yield_formula example_notebook example_domain_loc
           example_candidates_loc reaction_domain (candidates_of_rows example_rows)
           example_rows).
  - reflexivity.
  - reflexivity.
  - exact reaction_domain_features.
  - reflexivity.
  - exact (holds_rows_candidates example_rows).
  - exact example_rows_known.
Defined.

(** C6. The simulator has no state: a call of [evaluate_experiments] on a
    table of candidates leaves the module-level names of cell 14 and every
    object of the heap (the domain and the candidates among them) as they
    were; when it returns, what it returns is a reference that was not in use,
    to a new DataFrame, which is the only change of the heap. *)
Theorem evaluate_experiments_frame st domain candidates r st' :
  evaluate_experiments domain (Some candidates) st = (r, st') ->
  globals st' = globals st /\
  (forall l o, heap st !! l = Some o -> heap st' !! l = Some o) /\
  (forall samples, r = Ok samples ->
     heap st !! samples = None /\
     exists df, heap st' = <[samples := FrameObj df]> (heap st)) /\
  (forall e, r = Raise e -> heap st' = heap st).
Proof.
  unfold evaluate_experiments. intros H.
  apply create_experiments_candidates_inv in H
    as [(e & -> & ->) | (dom & cands & df & _ & _ & _ & -> & ->)].
  - repeat split; try discriminate; auto.
  - cbn [with_heap globals heap]. repeat split.
    + intros l o Hl. rewrite lookup_insert_ne; [exact Hl|].
      intros <-. rewrite new_loc_fresh in Hl. discriminate.
    + injection H as <-. apply new_loc_fresh.
    + injection H as <-. eauto.
    + discriminate.
Qed.

Lemma evaluate_experiments_frame_witness :
  let st := example_notebook in
  let samples := new_loc (heap st) in
  let st' := with_heap st (<[samples := FrameObj (experiments_of_rows 25 90 example_rows)]>
                             (heap st)) in
  globals st' = globals st /\
  (forall l o, heap st !! l = Some o -> heap st' !! l = Some o) /\
  (forall l, Ok samples = Ok l ->
     heap st !! l = None /\ exists df, heap st' = <[l := FrameObj df]> (heap st)) /\
  (forall e, Ok samples = Raise e -> heap st' = heap st).
Proof.
  intros st samples st'.
  apply (evaluate_experiments_frame st example_domain_loc example_candidates_loc
           (Ok samples) st').
  apply (create_experiments_on_rows st example_domain_loc example_candidates_loc
           reaction_domain (candidates_of_rows example_rows) example_rows 100 25 90).
  - reflexivity.
  - reflexivity.
  - exact reaction_domain_features.
  - reflexivity.
  - exact (holds_rows_candidates example_rows).
  - exact example_rows_known.
Defined.

(** C8. Every DataFrame returned by [create_experiments] has exactly [n] rows,
    where [n] is [nsamples] when no candidates are given and [len(candidates)]
    otherwise: each of its five columns has [n] elements, its index is the
    RangeIndex 0..n-1, and its valid_Yield column is 1.0 in every row.
    Every DataFrame returned by [create_candidates] is the table returned by
    its call of [create_experiments], without the columns Yield and
    valid_Yield. *)
Theorem create_experiments_table_shape :
  (forall domain nsamples A B candidates st samples st',
     create_experiments domain nsamples A B candidates st = (Ok samples, st') ->
     exists df n,
       heap st' !! samples = Some (FrameObj df) /\
       requested_rows st nsamples candidates n /\
       map fst (columns df)
         = ["Temperature"; "Solvent Volume"; "Yield"; "Solvent Type"; "valid_Yield"] /\
       Forall (fun kv => length (snd kv) = n) (columns df) /\
       index df = RangeIndex n /\
       dict_get (columns df) "valid_Yield" = Some (repeat (Flt 1) n)) /\
  (forall domain nsamples st candidates st',
     create_candidates domain nsamples st = (Ok candidates, st') ->
     exists experiments st1 df df',
       create_experiments domain nsamples 25 90 None st = (Ok experiments, st1) /\
       heap st1 !! experiments = Some (FrameObj df) /\
       heap st' !! candidates = Some (FrameObj df') /\
       index df' = index df /\
       columns df'
         = List.filter (fun kv => negb (String.eqb (fst kv) "Yield"
                                        || String.eqb (fst kv) "valid_Yield"))
                       (columns df) /\
       map fst (columns df') = ["Temperature"; "Solvent Volume"; "Solvent Type"]).
Proof.
  split.
  - intros domain nsamples A B [c|] st samples st' H.
    + apply create_experiments_candidates_inv in H
        as [(e & [=] & _) | (dom & cands & df & _ & Hc & Hshape & [= ->] & ->)].
      destruct Hshape as (T & V & y & s & Hcols & HT & HV & Hy & Hs & Hidx).
      exists df, (df_len cands). cbn [with_heap heap].
      rewrite lookup_insert_eq, Hcols.
      repeat split; try assumption.
      * exists cands. split; [assumption|reflexivity].
      * repeat constructor; cbn [snd]; try assumption. apply length_np_ones.
    + apply create_experiments_random_inv in H
        as [(e & [=]) | (df & Hn & Hshape & [= ->] & _ & Hh)].
      destruct Hshape as (T & V & y & s & Hcols & HT & HV & Hy & Hs & Hidx).
      exists df, (Z.to_nat nsamples).
      rewrite Hh, lookup_insert_eq, Hcols.
      repeat split; try assumption.
      * cbn [requested_rows]. lia.
      * repeat constructor; cbn [snd]; try assumption. apply length_np_ones.
  - intros domain nsamples st candidates st' H.
    apply create_candidates_inv in H
      as (experiments & st1 & df & T & V & y & s & Hrun & Hdf & Hcols & -> & Hh).
    exists experiments, st1, df. eexists.
    split; [exact Hrun|]. split; [exact Hdf|].
    split; [rewrite Hh; apply lookup_insert_eq|].
    rewrite Hcols. repeat split.
Qed.

(** C8 at work: four random samples in the reaction domain give a table with
    four rows, and the candidates are that table without two columns. *)
Lemma create_experiments_table_shape_witness :
  let st := example_notebook in
  let rows := random_rows (np_random st) 4 in
  (exists df n,
     heap (snd (create_experiments example_domain_loc 4 25 90 None st))
       !! new_loc (heap st) = Some (FrameObj df) /\
     requested_rows st 4 None n /\
     index df = RangeIndex n /\
     dict_get (columns df) "valid_Yield" = Some (repeat (Flt 1) n)) /\
  (exists df',
     heap (snd (create_candidates example_domain_loc 4 st))
       !! new_loc (<[new_loc (heap st) := FrameObj (experiments_of_rows 25 90 rows)]>
                     (heap st))
     = Some (FrameObj df') /\
     map fst (columns df') = ["Temperature"; "Solvent Volume"; "Solvent Type"]).
Proof.
  intros st rows.
  pose proof (create_experiments_random_run st example_domain_loc 4 25 90 eq_refl
                example_domain_lookup example_generator_contract ltac:(lia)) as Hexp.
  pose proof (create_candidates_random_run st example_domain_loc 4 eq_refl
                example_domain_lookup example_generator_contract ltac:(lia)) as Hcand.
  cbv zeta in Hexp, Hcand.
  destruct create_experiments_table_shape as [Hshape Hdrop].
  split.
  - destruct (Hshape _ _ _ _ _ _ _ _ Hexp) as (df & n & Hdf & Hn & _ & _ & Hidx & Hones).
    exists df, n. rewrite Hexp. cbn [snd]. auto.
  - destruct (Hdrop _ _ _ _ _ Hcand)
      as (experiments & st1 & df & df' & _ & _ & Hdf' & _ & _ & Hnames).
    exists df'. rewrite Hcand. cbn [snd]. auto.
Defined.

Lemma random_rows_in_domain g n :
  generator_contract g ->
  Forall (fun r => 0 <= row_T r <= 60 /\ 20 <= row_V r <= 90
                   /\ In (row_S r) ["MeOH"; "THF"; "Dioxane"])
         (random_rows g n).
Proof.
  intros [Hu Hz]. unfold random_rows. apply Forall_forall. intros r Hin.
  apply list_elem_of_In, in_map_iff in Hin as (i & <- & _).
  cbn [row_T row_V row_S].
  pose proof (Hu (drawn g + i)%nat) as HuT.
  pose proof (Hu (drawn g + n + i)%nat) as HuV.
  pose proof (Hz 0%Z 3%Z (drawn g + n + n + i)%nat eq_refl) as Hk.
  split; [lra|]. split; [lra|].
  destruct (solvent_known _ Hk) as [-> | [-> | ->]]; cbn; auto.
Qed.

(** C10. In the declared reaction domain, for every outcome of the random
    draws (every generator that keeps numpy's contract) and every number of
    samples, [create_candidates] returns a table each of whose rows lies in
    the domain: 0 <= Temperature <= 60, 20 <= Solvent Volume <= 90, and
    Solvent Type is one of MeOH, THF, Dioxane. *)
Theorem create_candidates_within_domain st domain nsamples :
  globals st = cell14 ->
  heap st !! domain = Some (DomainObj reaction_domain) ->
  generator_contract (np_random st) ->
  (0 <= nsamples)%Z ->
  exists candidates st' rows,
    create_candidates domain nsamples st = (Ok candidates, st') /\
    heap st' !! candidates = Some (FrameObj (candidates_of_rows rows)) /\
    length rows = Z.to_nat nsamples /\
    Forall (fun r => 0 <= row_T r <= 60 /\ 20 <= row_V r <= 90
                     /\ In (row_S r) ["MeOH"; "THF"; "Dioxane"]) rows.
Proof.
  intros Hg Hdom Hgen Hn.
  pose proof (create_candidates_random_run st domain nsamples Hg Hdom Hgen Hn) as Hrun.
  cbv zeta in Hrun.
  eexists _, _, (random_rows (np_random st) (Z.to_nat nsamples)).
  split; [exact Hrun|].
  split; [cbn [heap]; apply lookup_insert_eq|].
  split; [apply length_random_rows|].
  apply random_rows_in_domain, Hgen.
Qed.

Lemma create_candidates_within_domain_witness :
  exists candidates st' rows,
    create_candidates example_domain_loc 4 example_notebook = (Ok candidates, st') /\
    heap st' !! candidates = Some (FrameObj (candidates_of_rows rows)) /\
    length rows = 4%nat /\
    Forall (fun r => 0 <= row_T r <= 60 /\ 20 <= row_V r <= 90
                     /\ In (row_S r) ["MeOH"; "THF"; "Dioxane"]) rows.
Proof.
  apply (create_candidates_within_domain example_notebook example_domain_loc 4).
  - reflexivity.
  - reflexivity.
  - split; cbn; intros; [lra | lia].
  - lia.
Defined.

(** ** Determinism of the simulator on candidates *)

Lemma stable_ret fp {A} (a : A) : stable fp (ret a).
Proof. intros st sb _. reflexivity. Qed.

Lemma stable_lift fp {A} (r : result A) : stable fp (lift r).
Proof. intros st sb _. reflexivity. Qed.

Lemma stable_bind fp {A B} (m : M A) (k : A -> M B) :
  is_reader m -> stable fp m -> (forall a, stable fp (k a)) -> stable fp (bind m k).
Proof.
  intros Hr Hm Hk st sb Hfp. unfold bind.
  pose proof (Hm st sb Hfp) as Hfst.
  pose proof (Hr st) as Hst. pose proof (Hr sb) as Hsb.
  destruct (m st) as [r1 st1], (m sb) as [r2 sb1]. cbn in Hfst, Hst, Hsb. subst.
  destruct r2 as [a|e]; [apply Hk, Hfp | reflexivity].
Qed.

Lemma stable_obs_bind fp {A} (m : M A) (k : A -> M loc) :
  is_reader m -> stable fp m -> (forall a, stable_obs fp (k a)) -> stable_obs fp (bind m k).
Proof.
  intros Hr Hm Hk st sb Hfp. unfold bind.
  pose proof (Hm st sb Hfp) as Hfst.
  pose proof (Hr st) as Hst. pose proof (Hr sb) as Hsb.
  destruct (m st) as [r1 st1], (m sb) as [r2 sb1]. cbn in Hfst, Hst, Hsb. subst.
  destruct r2 as [a|e]; [apply Hk, Hfp | reflexivity].
Qed.

Lemma stable_get_global d c {A} (p : Globals -> A) : stable (agree d c) (get_global p).
Proof. intros st sb (Hg & _). unfold get_global. cbn. rewrite Hg. reflexivity. Qed.

Lemma stable_read_domain d c : stable (agree d c) (read_domain d).
Proof.
  intros st sb (_ & Hd & _). unfold read_domain. rewrite Hd.
  destruct (heap sb !! d) as [[?|?]|]; reflexivity.
Qed.

Lemma stable_read_frame d c : stable (agree d c) (read_frame c).
Proof.
  intros st sb (_ & _ & Hc). unfold read_frame. rewrite Hc.
  destruct (heap sb !! c) as [[?|?]|]; reflexivity.
Qed.

Ltac solve_stable :=
  repeat first
    [ apply stable_ret | apply stable_lift | apply stable_get_global
    | apply stable_read_domain | apply stable_read_frame
    | apply stable_bind; [solve [solve_reader'] | | intros ?] ].

Lemma stable_domain_inputs d c : stable (agree d c) (domain_inputs d).
Proof. unfold domain_inputs. solve_stable. Qed.

Lemma stable_domain_outputs d c : stable (agree d c) (domain_outputs d).
Proof. unfold domain_outputs. solve_stable. Qed.

Lemma stable_calc_Tfact d c T : stable (agree d c) (calc_Tfact T).
Proof. unfold calc_Tfact. solve_stable. Qed.

Lemma stable_calc_rhofact d c s T : stable (agree d c) (calc_rhofact s T).
Proof. unfold calc_rhofact. solve_stable. Qed.

Lemma stable_calc_volume_fact d c V : stable (agree d c) (calc_volume_fact V).
Proof. unfold calc_volume_fact. solve_stable. Qed.

(** The last statements: what is observed of the new table does not depend
    on the state it is allocated in. *)
Lemma stable_obs_new_table fp df idx :
  stable_obs fp
    (samples <- alloc (FrameObj df) ;;
     df0 <- read_frame samples ;;
     df1 <- lift (df_set_index df0 idx) ;;
     store samples (FrameObj df1) ;;;
     ret samples).
Proof.
  intros st sb _.
  rewrite !bind_alloc, !(bind_read_frame _ _ _ _ (lookup_insert_eq _ _ _)), !bind_lift.
  destruct (df_set_index df idx) as [df1|e]; [|reflexivity].
  rewrite !bind_store. unfold ret, observe. cbn [fst snd heap with_heap].
  rewrite !lookup_insert_eq. reflexivity.
Qed.

Ltac solve_stable_obs :=
  repeat first
    [ apply stable_obs_new_table
    | apply stable_obs_bind;
      [ solve [solve_reader']
      | solve [ repeat first
                  [ apply stable_domain_inputs | apply stable_domain_outputs
                  | apply stable_calc_Tfact | apply stable_calc_rhofact
                  | apply stable_calc_volume_fact | solve_stable ] ]
      | intros ? ] ].

Lemma create_experiments_agree domain nsamples A B c :
  stable_obs (agree domain c) (create_experiments domain nsamples A B (Some c)).
Proof.
  unfold create_experiments.
  do 9 (apply stable_obs_bind;
        [ solve [solve_reader']
        | solve [ repeat first
                    [ apply stable_domain_inputs | apply stable_domain_outputs
                    | solve_stable ] ]
        | intros ? ]).
  destruct a7 as [[[n T] V] solvent_types].
  solve_stable_obs.
Qed.

(** C2. The simulator is deterministic on candidates: for every domain and
    every table of candidates, a second call of [evaluate_experiments] with
    the same arguments has the same outcome as the first, and when they return
    the two tables returned are equal; no random draw is made, and the
    outcome is the same whatever the state of the random generator. *)
Theorem evaluate_experiments_deterministic :
  (forall st domain candidates r1 st1 r2 st2,
     evaluate_experiments domain (Some candidates) st = (r1, st1) ->
     evaluate_experiments domain (Some candidates) st1 = (r2, st2) ->
     np_random st1 = np_random st /\
     np_random st2 = np_random st /\
     match r1, r2 with
     | Ok samples1, Ok samples2 =>
         exists df, heap st2 !! samples1 = Some (FrameObj df) /\
                    heap st2 !! samples2 = Some (FrameObj df)
     | Raise e1, Raise e2 => e1 = e2
     | _, _ => False
     end) /\
  (forall st domain candidates g,
     observe (evaluate_experiments domain (Some candidates) (with_generator st g))
     = observe (evaluate_experiments domain (Some candidates) st)).
Proof.
  split.
  - unfold evaluate_experiments. intros st domain c r1 st1 r2 st2 H1 H2.
    pose proof H1 as Hrun1.
    apply create_experiments_candidates_inv in H1
      as [(e & -> & ->) | (dom & cands & df & Hdom & Hc & _ & -> & ->)].
    + rewrite Hrun1 in H2. injection H2 as <- <-. auto.
    + assert (Hagree : agree domain c st
                (with_heap st (<[new_loc (heap st) := FrameObj df]> (heap st)))).
      { repeat split; cbn [with_heap heap].
        - rewrite lookup_insert_ne; [reflexivity|].
          intros E. rewrite <- E, new_loc_fresh in Hdom. discriminate.
        - rewrite lookup_insert_ne; [reflexivity|].
          intros E. rewrite <- E, new_loc_fresh in Hc. discriminate. }
      pose proof (create_experiments_agree domain 100 25 90 c _ _ Hagree) as Hobs.
      rewrite Hrun1, H2 in Hobs. unfold observe in Hobs.
      cbn [fst snd with_heap heap] in Hobs. rewrite lookup_insert_eq in Hobs.
      apply create_experiments_candidates_inv in H2
        as [(e & -> & ->) | (dom' & cands' & df' & _ & _ & _ & -> & ->)];
        [discriminate Hobs|].
      cbn [with_heap heap np_random] in *. rewrite lookup_insert_eq in Hobs.
      injection Hobs as ->.
      repeat split. exists df'. split; [|apply lookup_insert_eq].
      rewrite lookup_insert_ne; [apply lookup_insert_eq|].
      intros E. pose proof (new_loc_fresh (<[new_loc (heap st) := FrameObj df']> (heap st))) as Hf.
      rewrite E, lookup_insert_eq in Hf. discriminate.
  - intros st domain c g. unfold evaluate_experiments.
    apply create_experiments_agree. repeat split.
Qed.

(** C2 at work: two calls in a row on the example candidates return two
    references to equal tables. *)
Lemma evaluate_experiments_deterministic_witness :
  exists samples1 st1 samples2 st2 df,
    evaluate_experiments example_domain_loc (Some example_candidates_loc) example_notebook
    = (Ok samples1, st1) /\
    evaluate_experiments example_domain_loc (Some example_candidates_loc) st1
    = (Ok samples2, st2) /\
    heap st2 !! samples1 = Some (FrameObj df) /\
    heap st2 !! samples2 = Some (FrameObj df).
Proof.
  destruct (example_evaluate example_notebook example_invariant_holds)
    as (st1 & H1 & Hinv1).
  destruct (example_evaluate st1 Hinv1) as (st2 & H2 & _).
  destruct evaluate_experiments_deterministic as [Hdet _].
  destruct (Hdet _ _ _ _ _ _ _ H1 H2) as (_ & _ & df & Hdf1 & Hdf2).
  eauto 10.
Defined.

(** ** The optimization loop and the smoke-test flag *)

Lemma rounds_app l1 l2 : rounds l1 -> rounds l2 -> rounds (l1 ++ l2).
Proof. induction 1; cbn; [auto|]. constructor. auto. Qed.

Section Optimization_loop_facts.

Context {Strategy : Type}.

Variable ask : Z -> Strategy -> Notebook -> result loc * Strategy * Notebook.

Variable tell : loc -> Strategy -> Notebook -> result unit * Strategy * Notebook.

(** One iteration: the counter is incremented; when the body returns, one
    complete round has been logged and [done] is set once the counter exceeds
    the budget; when it raises, the round is cut short. *)
Lemma iteration_inv (k : Kernel Strategy) r k' :
  iteration ask tell k = (r, k') ->
  i k' = (i k + 1)%Z /\
  experimental_budget k' = experimental_budget k /\
  match r with
  | Ok _ =>
      done k' = (if Z.gtb (i k + 1) (experimental_budget k) then true else done k) /\
      exists candidate experiment,
        events k' = (events k ++ [Asked 1 candidate; Evaluated candidate experiment;
                                  Told experiment])%list
  | Raise _ =>
      exists tail, events k' = (events k ++ tail)%list /\ interrupted tail
  end.
Proof.
  unfold iteration.
  destruct (ask 1 (sobo_strategy k) (notebook k)) as [[[c|e] s] nb].
  - destruct (evaluate_experiments (domain k) (Some c) nb) as [[x|e] nb1].
    + destruct (tell x s nb1) as [[[u|e] s2] nb2]; intros [= <- <-]; cbn.
      * repeat split. exists c, x. rewrite <- !app_assoc. reflexivity.
      * repeat split. exists [Asked 1 c; Evaluated c x].
        rewrite <- app_assoc. split; [reflexivity|]. right. right. eauto.
    + intros [= <- <-]; cbn. repeat split. exists [Asked 1 c].
      split; [reflexivity|]. right. left. eauto.
  - intros [= <- <-]; cbn. repeat split. exists [].
    rewrite app_nil_r. split; [reflexivity|]. left. reflexivity.
Qed.

(** The loop ends within [budget - i + 1] iterations; when it returns, it has
    made exactly that many, each of them a complete round. *)
Lemma while_not_done_run (n : nat) :
  forall (fuel : nat) (k : Kernel Strategy),
    done k = false ->
    (i k <= experimental_budget k)%Z ->
    Z.to_nat (experimental_budget k - i k) = n ->
    (n + 1 <= fuel)%nat ->
    exists r k' full tail,
      while_not_done ask tell fuel k = Some (r, k') /\
      events k' = (events k ++ full ++ tail)%list /\
      rounds full /\
      (i k < i k' <= experimental_budget k + 1)%Z /\
      length full
      = (3 * Z.to_nat (i k' - i k - match r with Ok _ => 0 | Raise _ => 1 end))%nat /\
      match r with
      | Ok _ => tail = [] /\ i k' = (experimental_budget k + 1)%Z /\ done k' = true
      | Raise _ => interrupted tail
      end.
Proof.
  induction n as [|n IH]; intros fuel k Hdone Hle Hn Hfuel.
  - destruct fuel as [|fuel]; [lia|]. cbn [while_not_done]. rewrite Hdone.
    destruct (iteration ask tell k) as [[u|e] k1] eqn:Hit;
      apply iteration_inv in Hit as (Hi & Hb & Hev).
    + destruct Hev as (Hd & c & x & Hev).
      assert (Hgt : Z.gtb (i k + 1) (experimental_budget k) = true) by lia.
      rewrite Hgt in Hd.
      exists (Ok tt), k1, [Asked 1 c; Evaluated c x; Told x], [].
      destruct fuel; cbn [while_not_done]; rewrite Hd.
      all: rewrite app_nil_r; repeat split; try assumption; try lia.
      all: try (repeat constructor).
      all: rewrite Hi; cbn [length]; lia.
    + destruct Hev as (tail & Hev & Htail).
      exists (Raise e), k1, [], tail. cbn [app length].
      repeat split; try assumption; try lia. constructor.
  - destruct fuel as [|fuel]; [lia|]. cbn [while_not_done]. rewrite Hdone.
    destruct (iteration ask tell k) as [[u|e] k1] eqn:Hit;
      apply iteration_inv in Hit as (Hi & Hb & Hev).
    + destruct Hev as (Hd & c & x & Hev).
      assert (Hgt : Z.gtb (i k + 1) (experimental_budget k) = false) by lia.
      rewrite Hgt, Hdone in Hd.
      destruct (IH fuel k1 Hd ltac:(lia) ltac:(lia) ltac:(lia))
        as (r & k' & full & tail & Hrun & Hev' & Hfull & Hi' & Hlen & Hr).
      exists r, k', ([Asked 1 c; Evaluated c x; Told x] ++ full)%list, tail.
      split; [exact Hrun|].
      split; [rewrite Hev', Hev, <- !app_assoc; reflexivity|].
      split; [apply rounds_app; [repeat constructor | exact Hfull]|].
      split; [lia|].
      split; [rewrite length_app, Hlen; cbn [length]; destruct r; lia|].
      destruct r; [|exact Hr]. rewrite <- Hb. exact Hr.
    + destruct Hev as (tail & Hev & Htail).
      exists (Raise e), k1, [], tail. cbn [app length].
      repeat split; try assumption; try lia. constructor.
Qed.

End Optimization_loop_facts.

Lemma example_iteration (k : Kernel (list loc)) :
  example_invariant (notebook k) ->
  domain k = example_domain_loc ->
  exists k',
    iteration example_ask example_tell k = (Ok tt, k') /\
    example_invariant (notebook k') /\
    domain k' = example_domain_loc.
Proof.
  intros Hinv Hd. unfold iteration, example_ask, example_tell. rewrite Hd.
  destruct (example_evaluate _ Hinv) as (nb' & -> & Hinv').
  eexists. split; [reflexivity|]. split; [exact Hinv'|reflexivity].
Qed.

(** With the example strategy no call raises, so the loop returns. *)
Lemma example_loop_returns fuel :
  forall k : Kernel (list loc),
    example_invariant (notebook k) ->
    domain k = example_domain_loc ->
    forall r k', while_not_done example_ask example_tell fuel k = Some (r, k') -> r = Ok tt.
Proof.
  induction fuel as [|fuel IH]; intros k Hinv Hd r k'; cbn [while_not_done].
  - destruct (done k); [|discriminate]. intros [= <- _]. reflexivity.
  - destruct (done k); [intros [= <- _]; reflexivity|].
    destruct (example_iteration k Hinv Hd) as (k1 & -> & Hinv1 & Hd1).
    apply IH; assumption.
Qed.

Section Optimization_loop_calls.

Context {Strategy : Type}.

Variable ask : Z -> Strategy -> Notebook -> result loc * Strategy * Notebook.

Variable tell : loc -> Strategy -> Notebook -> result unit * Strategy * Notebook.

(** One iteration is one round, complete or cut short. *)
Lemma iteration_calls (k : Kernel Strategy) r k' :
  iteration ask tell k = (r, k') ->
  i k' = (i k + 1)%Z /\
  experimental_budget k' = experimental_budget k /\
  domain k' = domain k /\
  match r with
  | Ok _ =>
      done k' = (if Z.gtb (i k + 1) (experimental_budget k) then true else done k) /\
      exists evs,
        ask_tell_rounds ask tell (domain k) 1 (sobo_strategy k, notebook k) evs
          (sobo_strategy k', notebook k') /\
        events k' = (events k ++ evs)%list
  | Raise e =>
      exists tail,
        round_cut ask tell (domain k) (sobo_strategy k, notebook k) e tail
          (sobo_strategy k', notebook k') /\
        events k' = (events k ++ tail)%list
  end.
Proof.
  unfold iteration.
  destruct (ask 1 (sobo_strategy k) (notebook k)) as [[[c|e] s] nb] eqn:Hask.
  - destruct (evaluate_experiments (domain k) (Some c) nb) as [[x|e] nb1] eqn:Heval.
    + destruct (tell x s nb1) as [[[u|e] s2] nb2] eqn:Htell; intros [= <- <-]; cbn.
      * repeat split. eexists. split.
        -- eapply one_more_round; eauto. constructor.
        -- rewrite <- !app_assoc. reflexivity.
      * repeat split. eexists. split.
        -- eapply cut_by_tell; eauto.
        -- rewrite <- app_assoc. reflexivity.
    + intros [= <- <-]; cbn. repeat split. eexists. split.
      * eapply cut_by_simulator; eauto.
      * reflexivity.
  - intros [= <- <-]; cbn. repeat split. eexists. split.
    + eapply cut_by_ask; eauto.
    + rewrite app_nil_r. reflexivity.
Qed.

(** The loop: rounds one after the other, each from the state the one before
    left, until the counter exceeds the budget or a call raises. *)
Lemma while_not_done_calls (n : nat) :
  forall (fuel : nat) (k : Kernel Strategy),
    done k = false ->
    (i k <= experimental_budget k)%Z ->
    Z.to_nat (experimental_budget k - i k) = n ->
    (n + 1 <= fuel)%nat ->
    exists r k' m evs mid,
      while_not_done ask tell fuel k = Some (r, k') /\
      ask_tell_rounds ask tell (domain k) m (sobo_strategy k, notebook k) evs mid /\
      match r with
      | Ok _ =>
          m = (n + 1)%nat /\
          mid = (sobo_strategy k', notebook k') /\
          events k' = (events k ++ evs)%list /\
          i k' = (i k + Z.of_nat m)%Z
      | Raise e =>
          (m <= n)%nat /\
          exists tail,
            round_cut ask tell (domain k) mid e tail (sobo_strategy k', notebook k') /\
            events k' = (events k ++ evs ++ tail)%list /\
            i k' = (i k + Z.of_nat m + 1)%Z
      end.
Proof.
  induction n as [|n IH]; intros fuel k Hdone Hle Hn Hfuel.
  - destruct fuel as [|fuel]; [lia|]. cbn [while_not_done]. rewrite Hdone.
    destruct (iteration ask tell k) as [[u|e] k1] eqn:Hit;
      apply iteration_calls in Hit as (Hi & Hb & Hd & Hev).
    + destruct Hev as (Hdn & evs & Hround & Hev).
      assert (Hgt : Z.gtb (i k + 1) (experimental_budget k) = true) by lia.
      rewrite Hgt in Hdn.
      exists (Ok tt), k1, 1%nat, evs, (sobo_strategy k1, notebook k1).
      split; [destruct fuel; cbn [while_not_done]; rewrite Hdn; reflexivity|].
      split; [exact Hround|].
      split; [reflexivity|]. split; [reflexivity|]. split; [exact Hev|lia].
    + destruct Hev as (tail & Hcut & Hev).
      exists (Raise e), k1, 0%nat, [], (sobo_strategy k, notebook k).
      split; [reflexivity|]. split; [constructor|].
      split; [lia|]. exists tail.
      split; [exact Hcut|]. split; [exact Hev|lia].
  - destruct fuel as [|fuel]; [lia|]. cbn [while_not_done]. rewrite Hdone.
    destruct (iteration ask tell k) as [[u|e] k1] eqn:Hit;
      apply iteration_calls in Hit as (Hi & Hb & Hd & Hev).
    + destruct Hev as (Hdn & evs1 & Hround & Hev).
      assert (Hgt : Z.gtb (i k + 1) (experimental_budget k) = false) by lia.
      rewrite Hgt, Hdone in Hdn.
      destruct (IH fuel k1 Hdn ltac:(lia) ltac:(lia) ltac:(lia))
        as (r & k' & m & evs & mid & Hrun & Hrounds & Hr).
      rewrite Hd in Hrounds.
      inversion Hround as [|? s nb c s1 nb1 x nb2 u' s3 nb3 evs0 there Hask Heval Htell Hrest];
        subst.
      inversion Hrest; subst.
      exists r, k', (S m), (Asked 1 c :: Evaluated c x :: Told x :: evs), mid.
      split; [exact Hrun|].
      split; [eapply one_more_round; eauto|].
      destruct r as [[]|e].
      * destruct Hr as (-> & -> & Hev' & Hi').
        split; [lia|]. split; [reflexivity|].
        split; [rewrite Hev', Hev, <- !app_assoc; reflexivity | lia].
      * destruct Hr as (Hm & tail & Hcut & Hev' & Hi'). rewrite Hd in Hcut.
        split; [lia|]. exists tail.
        split; [exact Hcut|].
        split; [rewrite Hev', Hev, <- !app_assoc; reflexivity | lia].
    + destruct Hev as (tail & Hcut & Hev).
      exists (Raise e), k1, 0%nat, [], (sobo_strategy k, notebook k).
      split; [reflexivity|]. split; [constructor|].
      split; [lia|]. exists tail.
      split; [exact Hcut|]. split; [exact Hev|lia].
Qed.

End Optimization_loop_calls.

(** C5. The optimization loop of the reaction notebook follows the ask/tell
    pattern, whatever the strategy does.  Given fuel for eleven iterations the
    cell ends, and what it has done is a sequence of complete rounds, each one
    starting from the state of the strategy and of the notebook that the one
    before left: [ask(1)] is called and returns one candidate, the simulator
    is called on that candidate, [tell] is called with the experiment the
    simulator returned, and only then comes the next ask.  When the cell
    returns it has made eleven rounds (none when SMOKE_TEST is set to a
    non-empty value), the strategy and the notebook are as the last [tell]
    left them, and no candidate asked for is left without its tell.  When it
    raises, fewer than eleven rounds are complete, and the exception is that
    of the call of [ask], of the simulator or of [tell] that cut the next
    round short. *)
Theorem optimization_loop_ask_tell {Strategy} ask tell SMOKE_TEST fuel (k : Kernel Strategy) :
  (11 <= fuel)%nat ->
  exists r k' n evs mid,
    cell42 ask tell SMOKE_TEST fuel k = Some (r, k') /\
    ask_tell_rounds ask tell (domain k) n (sobo_strategy k, notebook k) evs mid /\
    match r with
    | Ok _ =>
        n = (if truthy SMOKE_TEST then 0 else 11)%nat /\
        mid = (sobo_strategy k', notebook k') /\
        events k' = (events k ++ evs)%list /\
        i k' = Z.of_nat n
    | Raise e =>
        truthy SMOKE_TEST = false /\
        (n < 11)%nat /\
        exists tail,
          round_cut ask tell (domain k) mid e tail (sobo_strategy k', notebook k') /\
          events k' = (events k ++ evs ++ tail)%list /\
          i k' = (Z.of_nat n + 1)%Z
    end.
Proof.
  intros Hfuel. unfold cell42.
  destruct (truthy SMOKE_TEST) eqn:Hflag; cbn [negb].
  - exists (Ok tt). eexists. exists 0%nat, [], (sobo_strategy k, notebook k).
    split; [destruct fuel; reflexivity|].
    split; [constructor|]. cbn [events sobo_strategy notebook i].
    rewrite app_nil_r. repeat split.
  - destruct (while_not_done_calls ask tell 10 fuel
                (mkKernel (notebook k) (domain k) (sobo_strategy k) 10 0 false (events k))
                eq_refl ltac:(cbn; lia) eq_refl ltac:(lia))
      as (r & k' & m & evs & mid & Hrun & Hrounds & Hr).
    cbn [i experimental_budget events domain sobo_strategy notebook] in *.
    exists r, k', m, evs, mid. split; [exact Hrun|]. split; [exact Hrounds|].
    destruct r as [[]|e].
    + destruct Hr as (-> & -> & Hev & Hi).
      split; [reflexivity|]. split; [reflexivity|]. split; [exact Hev|lia].
    + destruct Hr as (Hm & tail & Hcut & Hev & Hi).
      split; [reflexivity|]. split; [lia|]. exists tail.
      split; [exact Hcut|]. split; [exact Hev|lia].
Qed.

(** With the example strategy every round adds one experiment to what the
    strategy has been told. *)
Lemma example_rounds_told domain n here evs there :
  ask_tell_rounds example_ask example_tell domain n here evs there ->
  length (fst there) = (length (fst here) + n)%nat.
Proof.
  induction 1 as [here | n s nb c s1 nb1 x nb2 u s3 nb3 evs there Hask Heval Htell _ IH].
  - lia.
  - unfold example_ask in Hask. unfold example_tell in Htell. simplify_eq.
    rewrite IH. cbn [fst length]. lia.
Qed.

(** C5 at work: with the example strategy and the flag unset, the cell
    returns after eleven rounds, thirty-three calls in all, and the strategy
    has been told eleven experiments. *)
Lemma optimization_loop_ask_tell_witness :
  exists k' evs,
    cell42 example_ask example_tell None 11 example_kernel = Some (Ok tt, k') /\
    ask_tell_rounds example_ask example_tell example_domain_loc 11
      ([], example_notebook) evs (sobo_strategy k', notebook k') /\
    events k' = evs /\
    length evs = 33%nat /\
    length (sobo_strategy k') = 11%nat.
Proof.
  destruct (optimization_loop_ask_tell example_ask example_tell None 11 example_kernel
              ltac:(lia))
    as (r & k' & n & evs & mid & Hrun & Hrounds & Hr).
  assert (Hrun' : while_not_done example_ask example_tell 11
                    (mkKernel example_notebook example_domain_loc [] 10 0 false [])
                  = Some (r, k')) by exact Hrun.
  pose proof (example_loop_returns 11
                (mkKernel example_notebook example_domain_loc [] 10 0 false [])
                example_invariant_holds eq_refl _ _ Hrun') as ->.
  destruct Hr as (-> & -> & Hev & _).
  change (ask_tell_rounds example_ask example_tell example_domain_loc 11
            ([], example_notebook) evs (sobo_strategy k', notebook k')) in Hrounds.
  change (events k' = evs) in Hev.
  exists k', evs. split; [exact Hrun|]. split; [exact Hrounds|].
  split; [exact Hev|]. split.
  - clear -Hrounds.
    assert (H : forall n here evs there,
              ask_tell_rounds example_ask example_tell example_domain_loc n here evs there ->
              length evs = (3 * n)%nat).
    { induction 1; cbn [length]; lia. }
    apply (H _ _ _ _ Hrounds).
  - apply example_rounds_told in Hrounds. exact Hrounds.
Defined.

(** ** The notebooks from the first cell to the last *)

Lemma keeps_refl nb : keeps nb nb.
Proof. split; [reflexivity|auto]. Qed.

Lemma keeps_trans nb1 nb2 nb3 : keeps nb1 nb2 -> keeps nb2 nb3 -> keeps nb1 nb3.
Proof. intros [Hg1 Hh1] [Hg2 Hh2]. split; [congruence|auto]. Qed.

Lemma keeps_alloc nb o :
  keeps nb (with_heap nb (<[new_loc (heap nb) := o]> (heap nb))).
Proof.
  split; [reflexivity|]. intros l o' H. cbn [with_heap heap].
  apply lookup_after_alloc, H.
Qed.

Lemma get_by_key_of_key fs f : In f fs -> exists f', get_by_key fs (key f) = Ok f'.
Proof.
  induction fs as [|g fs IH]; [intros []|]. intros Hin. cbn [get_by_key].
  destruct (String.eqb (key g) (key f)) eqn:E; [eauto|].
  destruct Hin as [->|Hin]; [|auto]. rewrite String.eqb_refl in E. discriminate E.
Qed.

(** The loops of cells 10 and 11: every key of the features is the key of a
    feature. *)
Lemma for_each_key_run (get : M (list Feature)) fs st ks :
  (forall B (k : list Feature -> M B), bind get k st = k fs st) ->
  (forall k, In k ks -> exists f, get_by_key fs k = Ok f) ->
  for_each ks (fun feature_key =>
                 features <- get ;;
                 feature <- lift (get_by_key features feature_key) ;;
                 ret tt) st
  = (Ok tt, st).
Proof.
  intros Hget. induction ks as [|k ks IH]; intros Hks; cbn [for_each]; [reflexivity|].
  destruct (Hks k (or_introl eq_refl)) as [f Hf].
  rewrite bind_assoc, Hget, bind_assoc, bind_lift, Hf. cbv beta iota.
  rewrite bind_ret. apply IH. intros k' Hk'. apply Hks. right. exact Hk'.
Qed.

Lemma method_run {Strategy A}
    (call : Strategy -> Notebook -> result A * Strategy * Notebook) s nb a s' nb' :
  call s nb = (Ok a, s', nb') -> method call s nb = (Ok (a, s'), nb').
Proof. intros H. unfold method. rewrite H. reflexivity. Qed.

Section Reaction_notebook_facts.

Context {Strategy : Type}.

Variable lib : ReactionLibrary Strategy.

Hypothesis Hlib : reaction_library_returns lib.

(** The simulator on the candidates a strategy proposes. *)
Lemma evaluate_asked domain n s nb :
  globals nb = cell14 ->
  heap nb !! domain = Some (DomainObj reaction_domain) ->
  exists c s' nb1 x nb2,
    strategy_ask lib n s nb = (Ok c, s', nb1) /\
    evaluate_experiments domain (Some c) nb1 = (Ok x, nb2) /\
    keeps nb nb2.
Proof.
  intros Hg Hd.
  destruct Hlib as (_ & _ & _ & _ & _ & Hask & _).
  destruct (Hask n s nb) as (c & s' & nb1 & df & rows & Hrun & Hk & Hc & Hrows & Hknown).
  destruct Hk as [Hg1 Hh1].
  exists c, s', nb1. do 2 eexists. split; [exact Hrun|]. split.
  - unfold evaluate_experiments.
    apply (create_experiments_on_rows nb1 domain c reaction_domain df rows);
      [congruence|auto|exact reaction_domain_features|exact Hc|exact Hrows|exact Hknown].
  - eapply keeps_trans; [split; [exact Hg1|exact Hh1]|]. apply keeps_alloc.
Qed.

(** The cells before the loop: the domain is built and read, the simulator
    runs on the four random candidates and on the five candidates of the
    random strategy. *)
Lemma cells_4_to_40_return nb :
  generator_contract (np_random nb) ->
  exists domain sobo_strategy nb',
    cells_4_to_40 lib nb = (Ok (domain, sobo_strategy), nb').
Proof.
  intros Hgen.
  pose proof Hlib as (Hreps & Hkeys & Hmap & Htell & Htell' & Hask & _).
  unfold cells_4_to_40. rewrite bind_alloc.
  set (domain := new_loc (heap nb)).
  set (st1 := with_heap nb _).
  assert (Hd : heap st1 !! domain = Some (DomainObj reaction_domain))
    by apply lookup_insert_eq.
  (* cell 9 *)
  rewrite (bind_domain_inputs _ _ _ _ Hd), (bind_domain_outputs _ _ _ _ Hd).
  rewrite bind_lift, Hreps.
  (* cell 10 *)
  rewrite (bind_domain_inputs _ _ _ _ Hd), bind_lift, Hkeys.
  rewrite (bind_run _ _ _ _ _ (for_each_key_run (domain_inputs domain)
             (inputs reaction_domain) st1 _
             (fun B k => bind_domain_inputs _ _ k _ Hd)
             ltac:(intros k Hk; apply in_map_iff in Hk as (f & <- & Hf);
                   apply get_by_key_of_key, Hf))).
  (* cell 11 *)
  rewrite (bind_domain_outputs _ _ _ _ Hd), bind_lift, Hkeys.
  rewrite (bind_run _ _ _ _ _ (for_each_key_run (domain_outputs domain)
             (outputs reaction_domain) st1 _
             (fun B k => bind_domain_outputs _ _ k _ Hd)
             ltac:(intros k Hk; apply in_map_iff in Hk as (f & <- & Hf);
                   apply get_by_key_of_key, Hf))).
  (* cell 12 *)
  rewrite (bind_domain_inputs _ _ _ _ Hd), (bind_domain_outputs _ _ _ _ Hd).
  rewrite bind_lift, Hreps.
  (* cell 14 *)
  unfold bind at 1. unfold assign_globals.
  set (st2 := mkNotebook cell14 (heap st1) (np_random st1)).
  assert (Hg2 : globals st2 = cell14) by reflexivity.
  assert (Hd2 : heap st2 !! domain = Some (DomainObj reaction_domain)) by exact Hd.
  (* cell 15 *)
  rewrite (bind_run _ _ _ _ _ (create_candidates_random_run st2 domain 4 Hg2 Hd2 Hgen
                                 ltac:(lia))).
  set (rows := random_rows (np_random st2) (Z.to_nat 4)).
  set (h1 := <[new_loc (heap st2) := FrameObj (experiments_of_rows 25 90 rows)]> (heap st2)).
  set (h2 := <[new_loc h1 := FrameObj (candidates_of_rows rows)]> h1).
  set (st3 := mkNotebook (globals st2) h2 _).
  assert (Hd3 : heap st3 !! domain = Some (DomainObj reaction_domain))
    by (apply lookup_after_alloc, lookup_after_alloc, Hd2).
  (* cell 17 *)
  unfold evaluate_experiments at 1.
  rewrite (bind_run _ _ _ _ _
             (create_experiments_on_rows st3 domain (new_loc h1) reaction_domain
                (candidates_of_rows rows) rows 100 25 90 Hg2 Hd3 reaction_domain_features
                (lookup_insert_eq _ _ _) (holds_rows_candidates rows)
                (random_rows_known _ _ Hgen))).
  set (experiments := new_loc (heap st3)).
  set (st4 := with_heap st3 _).
  assert (Hk4 : keeps st3 st4) by apply keeps_alloc.
  (* cell 21 *)
  destruct (Hmap (SoboStrategy domain qLogEI) st4) as (sobo & st5 & Hrun5 & Hk5).
  rewrite (bind_run _ _ _ _ _ Hrun5).
  (* cell 22 *)
  destruct (Htell experiments sobo st5) as (sobo1 & st6 & Hrun6 & Hk6).
  rewrite (bind_run _ _ _ _ _ (method_run _ _ _ _ _ _ Hrun6)). cbn [snd].
  (* cell 26 *)
  destruct (Hmap (RandomStrategyModel domain) st6) as (random & st7 & Hrun7 & Hk7).
  rewrite (bind_run _ _ _ _ _ Hrun7).
  (* cells 28 and 32 *)
  assert (Hk37 : keeps st3 st7)
    by (eapply keeps_trans; [exact Hk4|]; eapply keeps_trans; [exact Hk5|];
        eapply keeps_trans; [exact Hk6|exact Hk7]).
  destruct Hk37 as [Hg7 Hh7].
  destruct (evaluate_asked domain 5 random st7 ltac:(rewrite Hg7; exact Hg2) (Hh7 _ _ Hd3))
    as (c & random1 & st8 & x & st9 & Hrun8 & Hrun9 & Hk9).
  rewrite (bind_run _ _ _ _ _ (method_run _ _ _ _ _ _ Hrun8)). cbn [fst].
  rewrite (bind_run _ _ _ _ _ Hrun9).
  (* cell 36 *)
  destruct (Htell' x sobo1 st9) as (sobo2 & st10 & Hrun10 & Hk10).
  rewrite (bind_run _ _ _ _ _ (method_run _ _ _ _ _ _ Hrun10)). cbn [snd].
  (* cell 38 *)
  destruct (Hask 1%Z sobo2 st10) as (c' & sobo3 & st11 & df & rows' & Hrun11 & _).
  rewrite (bind_run _ _ _ _ _ (method_run _ _ _ _ _ _ Hrun11)). cbn [snd].
  unfold ret. eauto.
Qed.

Lemma cells_44_45_return sobo_strategy nb :
  exists nb', cells_44_45 lib sobo_strategy nb = (Ok tt, nb').
Proof.
  destruct Hlib as (_ & _ & _ & _ & _ & _ & Hexp & Hplot).
  unfold cells_44_45.
  destruct (Hexp sobo_strategy nb) as (x1 & nb1 & df1 & y1 & Hrun1 & _).
  rewrite (bind_run _ _ _ _ _ Hrun1).
  destruct (Hexp sobo_strategy nb1) as (x2 & nb2 & df2 & y2 & Hrun2 & _ & Hx2 & Hy2).
  rewrite (bind_run _ _ _ _ _ Hrun2).
  rewrite (bind_read_frame _ _ _ _ Hx2), bind_lift.
  unfold df_getitem. rewrite Hy2. unfold lift. rewrite Hplot. eauto.
Qed.

(** Under the smoke test the reaction notebook runs to its last cell. *)
Lemma reaction_notebook_completes environ fuel nb :
  truthy (os_environ_get environ "SMOKE_TEST") = true ->
  generator_contract (np_random nb) ->
  exists nb', reaction_notebook lib environ fuel nb = Some (Ok tt, nb').
Proof.
  intros Hsmoke Hgen. unfold reaction_notebook.
  destruct (cells_4_to_40_return nb Hgen) as (d & s & nb1 & ->).
  unfold cell42. rewrite Hsmoke. cbn [negb].
  replace (while_not_done _ _ fuel _) with
    (Some (Ok tt, mkKernel nb1 d s 10 0 true []))
    by (destruct fuel; reflexivity).
  cbn [sobo_strategy notebook].
  destruct (cells_44_45_return s nb1) as (nb' & ->). eauto.
Qed.

End Reaction_notebook_facts.

(** Under the smoke test the BNH notebook calls [run] three times, builds
    its domain and reads two of its outputs; the plots are not called. *)
Lemma bnh_notebook_completes {DataModel Sampler} (lib : Library DataModel Sampler)
    RunResult run plot_objective_plotly plot_hypervolumes environ nb :
  truthy (os_environ_get environ "SMOKE_TEST") = true ->
  run_returns run (hypervolume (lib_compute_hypervolume lib))
              (sample (lib_new_RandomStrategy lib) (lib_strategies_map lib)
                      (lib_sampler_ask lib)) ->
  exists nb',
    bnh_notebook lib RunResult run plot_objective_plotly plot_hypervolumes environ nb
    = (Ok tt, nb').
Proof.
  intros Hsmoke Hrun. unfold bnh_notebook. cbv zeta. rewrite Hsmoke. cbn [negb].
  destruct (Hrun (random_results (os_environ_get environ "SMOKE_TEST")) nb)
    as (r1 & nb1 & H1).
  rewrite (bind_run _ _ _ _ _ H1).
  destruct (Hrun (results (os_environ_get environ "SMOKE_TEST")) nb1) as (r2 & nb2 & H2).
  rewrite (bind_run _ _ _ _ _ H2).
  rewrite bind_alloc.
  set (domain := new_loc (heap nb2)).
  set (nb3 := with_heap nb2 _).
  assert (Hd : heap nb3 !! domain = Some (DomainObj bnh_domain)) by apply lookup_insert_eq.
  rewrite (bind_domain_outputs _ _ _ _ Hd), bind_lift.
  change (get_by_key (outputs bnh_domain) "c1") with (Ok (ContinuousOutput "c1")).
  cbv beta iota. rewrite bind_ret.
  rewrite (bind_domain_outputs _ _ _ _ Hd), bind_lift.
  change (get_by_key (outputs bnh_domain) "c2") with (Ok (ContinuousOutput "c2")).
  cbv beta iota. rewrite bind_ret.
  destruct (Hrun (c_results (os_environ_get environ "SMOKE_TEST")) nb3) as (r3 & nb4 & H3).
  rewrite (bind_run _ _ _ _ _ H3). unfold ret. eauto.
Qed.

Lemma example_reaction_library_returns : reaction_library_returns example_reaction_library.
Proof.
  unfold reaction_library_returns, example_reaction_library. cbn.
  split; [reflexivity|]. split; [reflexivity|].
  split; [intros dm nb; exists [], nb; split; [reflexivity|apply keeps_refl]|].
  split; [intros x s nb; exists (x :: s), nb; split; [reflexivity|apply keeps_refl]|].
  split; [intros x s nb; exists (x :: s), nb; split; [reflexivity|apply keeps_refl]|].
  split.
  { intros n s nb. do 3 eexists. exists (candidates_of_rows example_rows), example_rows.
    split; [reflexivity|]. split; [apply keeps_alloc|].
    split; [apply lookup_insert_eq|].
    split; [apply holds_rows_candidates|apply example_rows_known]. }
  split; [|reflexivity].
  intros s nb. do 2 eexists. exists (experiments_of_rows 25 90 example_rows). eexists.
  split; [reflexivity|]. split; [apply keeps_alloc|].
  split; [apply lookup_insert_eq|reflexivity].
Qed.




(** ** The hypervolume metric *)

Lemma feasible_spec c1 c2 : feasible c1 c2 = true <-> c1 <= 25 /\ c2 >= 7.7.
Proof.
  unfold feasible. destruct (Rle_dec c1 25), (Rge_dec c2 7.7); cbn; split;
    intros H; try discriminate; try reflexivity; tauto.
Qed.

Lemma series_le_floats idx xs x :
  series_le (mkSeries idx (map Flt xs)) x
  = Ok (map (fun v => if Rle_dec v x then true else false) xs).
Proof.
  unfold series_le. cbn [s_values].
  induction xs as [|v xs IH]; cbn [map result_mapM]; [reflexivity|].
  rewrite IH. reflexivity.
Qed.

Lemma series_ge_floats idx xs x :
  series_ge (mkSeries idx (map Flt xs)) x
  = Ok (map (fun v => if Rge_dec v x then true else false) xs).
Proof.
  unfold series_ge. cbn [s_values].
  induction xs as [|v xs IH]; cbn [map result_mapM]; [reflexivity|].
  rewrite IH. reflexivity.
Qed.

Lemma mask_select_filter {A B} (p : A -> bool) (g : A -> B) rows :
  mask_select (map p rows) (map g rows) = map g (List.filter p rows).
Proof.
  induction rows as [|r rows IH]; cbn; [reflexivity|].
  destruct (p r); cbn; rewrite IH; reflexivity.
Qed.

Lemma dict_get_loc_mask df mask name :
  dict_get (columns (df_loc_mask df mask)) name
  = option_map (mask_select mask) (dict_get (columns df) name).
Proof.
  unfold df_loc_mask. cbn [columns].
  induction (columns df) as [|[k v] cols IH]; cbn; [reflexivity|].
  destruct (String.eqb k name); [reflexivity|exact IH].
Qed.

(** C4. The hypervolume metric is the library's [compute_hypervolume] with the
    reference point f1 = 140, f2 = 50.  When the table of experiments has a
    column c1, what is passed to it is a new table that holds exactly the rows
    with c1 <= 25 and c2 >= 7.7; otherwise the table itself is passed. *)
Theorem hypervolume_selects_feasible_rows compute_hypervolume st domain experiments df :
  heap st !! experiments = Some (FrameObj df) ->
  (df_has_column df "c1" = false ->
   hypervolume compute_hypervolume domain experiments st
   = compute_hypervolume domain experiments [("f1", 140); ("f2", 50)] st) /\
  (forall rows : list (R * R),
     dict_get (columns df) "c1" = Some (map Flt (map fst rows)) ->
     dict_get (columns df) "c2" = Some (map Flt (map snd rows)) ->
     let mask := map (fun r => feasible (fst r) (snd r)) rows in
     let selected := new_loc (heap st) in
     hypervolume compute_hypervolume domain experiments st
     = compute_hypervolume domain selected [("f1", 140); ("f2", 50)]
         (with_heap st (<[selected := FrameObj (df_loc_mask df mask)]> (heap st))) /\
     (forall k, mask !! k = Some true <->
                exists c1 c2, rows !! k = Some (c1, c2) /\ c1 <= 25 /\ c2 >= 7.7) /\
     let passed := List.filter (fun r => feasible (fst r) (snd r)) rows in
     dict_get (columns (df_loc_mask df mask)) "c1" = Some (map Flt (map fst passed)) /\
     dict_get (columns (df_loc_mask df mask)) "c2" = Some (map Flt (map snd passed))).
Proof.
  intros Hexp. split.
  - intros Hno. unfold hypervolume.
    rewrite (bind_read_frame _ _ _ _ Hexp), Hno. reflexivity.
  - intros rows Hc1 Hc2 mask selected. split.
    + unfold hypervolume. rewrite (bind_read_frame _ _ _ _ Hexp).
      unfold df_has_column, df_getattr. rewrite Hc1, Hc2.
      rewrite bind_lift. cbv beta iota.
      rewrite bind_lift, series_le_floats. cbv beta iota.
      rewrite bind_lift. cbv beta iota.
      rewrite bind_lift, series_ge_floats. cbv beta iota.
      rewrite bind_lift. unfold mask_and.
      rewrite !length_map, Nat.eqb_refl. cbv beta iota.
      rewrite bind_alloc. fold selected.
      replace (map (fun p : bool * bool => fst p && snd p) _) with mask; [reflexivity|].
      unfold mask. clear. induction rows as [|[c1 c2] rows IH]; cbn; [reflexivity|].
      rewrite <- IH. reflexivity.
    + split.
      * intros k. unfold mask. rewrite list_lookup_fmap.
        destruct (rows !! k) as [[c1 c2]|] eqn:Hk; cbn.
        -- split.
           ++ intros [= H]. apply feasible_spec in H. eauto.
           ++ intros (c1' & c2' & [= <- <-] & H). f_equal. apply feasible_spec, H.
        -- split; [discriminate|]. intros (? & ? & [=] & _).
      * cbv zeta. rewrite !dict_get_loc_mask, Hc1, Hc2. unfold mask. cbn [option_map].
        rewrite !map_map.
        rewrite (mask_select_filter (fun r => feasible (fst r) (snd r))
                   (fun r => Flt (fst r))).
        rewrite (mask_select_filter (fun r => feasible (fst r) (snd r))
                   (fun r => Flt (snd r))).
        split; reflexivity.
Qed.

(** C4 at work: of the rows (10, 8) and (30, 9), the first one is passed on. *)
Lemma hypervolume_selects_feasible_rows_witness :
  let st := with_heap example_notebook
              (<[3%positive := FrameObj example_experiments]> (heap example_notebook)) in
  let passed := List.filter (fun r => feasible (fst r) (snd r)) [(10, 8); (30, 9)] in
  dict_get (columns (df_loc_mask example_experiments
                       (map (fun r => feasible (fst r) (snd r)) [(10, 8); (30, 9)]))) "c1"
  = Some (map Flt (map fst passed)) /\
  passed = [(10, 8)].
Proof.
  intros st passed.
  destruct (hypervolume_selects_feasible_rows example_compute_hypervolume st
              example_domain_loc 3%positive example_experiments) as [_ H].
  { reflexivity. }
  destruct (H [(10, 8); (30, 9)] eq_refl eq_refl) as (_ & _ & Hc1 & _).
  split; [exact Hc1|].
  unfold passed. cbn [List.filter fst snd].
  assert (H1 : feasible 10 8 = true) by (apply feasible_spec; lra).
  assert (H2 : feasible 30 9 = false).
  { destruct (feasible 30 9) eqn:E; [|reflexivity]. apply feasible_spec in E. lra. }
  rewrite H1, H2. reflexivity.
Defined.

(** ** Exceptions are propagated, never handled *)

Section Script_facts.

Context {Op : Type -> Type}.

Variable call : forall X, Op X -> M X.

Lemma run_script_bind {A B} (p : script Op A) (k : A -> script Op B) st :
  run call (script_bind p k) st = bind (run call p) (fun a => run call (k a)) st.
Proof.
  revert st. induction p as [a | X op rest IH]; intros st; cbn [script_bind run].
  - reflexivity.
  - unfold bind. destruct (call X op st) as [[x|e] st1]; [|reflexivity].
    rewrite IH. reflexivity.
Qed.

Lemma run_script_comprehension {A} n (body : script Op A) st :
  run call (script_comprehension n body) st = list_comprehension n (run call body) st.
Proof.
  revert st. induction n as [|n IH]; intros st; cbn [script_comprehension list_comprehension].
  - reflexivity.
  - rewrite run_script_bind. apply bind_ext; [reflexivity|]. intros x st1.
    rewrite run_script_bind. apply bind_ext; [apply IH|]. reflexivity.
Qed.

(** A run of a script is a run of its calls, one after the other, up to the
    first one that raises. *)
Lemma run_executes {A} (p : script Op A) st :
  executes call p st (fst (run call p st)) (snd (run call p st)).
Proof.
  revert st. induction p as [a | X op rest IH]; intros st; cbn [run].
  - constructor.
  - destruct (call X op st) as [[x|e] st1] eqn:E.
    + eapply executes_call_returns; [exact E|apply IH].
    + apply executes_call_raises. exact E.
Qed.

(** An exception that comes out of a script is the exception of one of its
    calls, in the state that call left. *)
Lemma run_raises {A} (p : script Op A) st e st' :
  run call p st = (Raise e, st') ->
  exists X (op : Op X) st0, call X op st0 = (Raise e, st').
Proof.
  revert st. induction p as [a | X op rest IH]; intros st; cbn [run].
  - discriminate.
  - destruct (call X op st) as [[x|e1] st1] eqn:E.
    + apply IH.
    + intros [= <- <-]. eauto.
Qed.

End Script_facts.

(** Each function of the notebooks is the run of its script. *)
Section Script_of_functions.

Context {DataModel Sampler : Type}.

Variable lib : Library DataModel Sampler.

Lemma calc_volume_fact_script_run V st :
  calc_volume_fact V st = run (library_call lib) (calc_volume_fact_script V) st.
Proof. reflexivity. Qed.

Lemma calc_rhofact_script_run solvent_type Tfact st :
  calc_rhofact solvent_type Tfact st
  = run (library_call lib) (calc_rhofact_script solvent_type Tfact) st.
Proof. reflexivity. Qed.

Lemma calc_Tfact_script_run T st :
  calc_Tfact T st = run (library_call lib) (calc_Tfact_script T) st.
Proof.
  unfold calc_Tfact, calc_Tfact_script. cbn [run library_call].
  unfold bind, get_global, lift.
  destruct (ufunc1 _ T) as [x|e]; [|reflexivity].
  destruct (ufunc1 _ x) as [y|e]; reflexivity.
Qed.

Lemma create_experiments_script_run domain nsamples A B candidates st :
  create_experiments domain nsamples A B candidates st
  = run (library_call lib) (create_experiments_script domain nsamples A B candidates) st.
Proof.
  unfold create_experiments, create_experiments_script.
  cbn [run library_call].
  do 8 (apply bind_ext; [reflexivity|]; intros ? ?).
  rewrite run_script_bind. apply bind_ext.
  - destruct candidates as [c|]; [reflexivity|].
    cbn [run library_call].
    do 6 (apply bind_ext; [reflexivity|]; intros ? ?).
    rewrite run_script_bind. apply bind_ext; [|reflexivity].
    rewrite run_script_comprehension. reflexivity.
  - intros [[[n T] V] solvent_types] sa.
    rewrite run_script_bind. apply bind_ext; [apply calc_Tfact_script_run|]. intros Tfact sb.
    rewrite run_script_bind. apply bind_ext; [apply calc_rhofact_script_run|]. intros rhofact sc.
    rewrite run_script_bind. apply bind_ext; [apply calc_volume_fact_script_run|]. intros Vfact sd.
    reflexivity.
Qed.

Lemma create_candidates_script_run domain nsamples st :
  create_candidates domain nsamples st
  = run (library_call lib) (create_candidates_script domain nsamples) st.
Proof.
  unfold create_candidates, create_candidates_script.
  rewrite run_script_bind. apply bind_ext; [apply create_experiments_script_run|]. reflexivity.
Qed.

Lemma hypervolume_script_run domain experiments st :
  hypervolume (lib_compute_hypervolume lib) domain experiments st
  = run (library_call lib) (hypervolume_script domain experiments) st.
Proof.
  unfold hypervolume, hypervolume_script. cbn [run library_call].
  apply bind_ext; [reflexivity|]. intros df st1.
  destruct (df_has_column df "c1").
  - cbn [run library_call].
    do 5 (apply bind_ext; [reflexivity|]; intros ? ?).
    unfold bind, alloc.
    destruct (lib_compute_hypervolume lib _ _ _ _) as [[x|e] st']; reflexivity.
  - cbn [run library_call].
    destruct (lib_compute_hypervolume lib _ _ _ _) as [[x|e] st']; reflexivity.
Qed.

Lemma sample_script_run domain st :
  sample (lib_new_RandomStrategy lib) (lib_strategies_map lib)
         (lib_sampler_ask lib) domain st
  = run (library_call lib) (sample_script domain) st.
Proof. reflexivity. Qed.

End Script_of_functions.

(** The exceptions of the arithmetic on an array: [TypeError], on a [str]. *)
Lemma ufunc1_raise f a e :
  ufunc1 f a = Raise e <-> e = TypeError /\ exists s, In (Str s) a.
Proof.
  unfold ufunc1. revert e. induction a as [|c a IH]; intros e; cbn [result_mapM].
  - split; [discriminate|]. intros (_ & s & []).
  - destruct c as [x|s]; cbn [as_float result_bind].
    + destruct (result_mapM _ a) as [bs|e'] eqn:E; cbn [result_bind].
      * split; [discriminate|]. intros (He & s & [[=]|Hin]).
        assert (H : Ok bs = Raise e) by (apply IH; eauto). discriminate H.
      * split.
        -- intros [= ->]. destruct (proj1 (IH e) eq_refl) as (-> & s & Hin).
           split; [reflexivity|]. exists s. right. exact Hin.
        -- intros (-> & s & [[=]|Hin]).
           destruct (proj1 (IH e') eq_refl) as (-> & _). reflexivity.
    + split.
      * intros [= <-]. split; [reflexivity|]. exists s. left. reflexivity.
      * intros (-> & _). reflexivity.
Qed.

Lemma ufunc1_ok f a b : ufunc1 f a = Ok b -> exists ys, b = map Flt ys.
Proof.
  unfold ufunc1. revert b. induction a as [|c a IH]; cbn [result_mapM]; intros b.
  - intros [= <-]. exists []. reflexivity.
  - destruct c as [x|s]; cbn [as_float result_bind]; [|discriminate].
    destruct (result_mapM _ a) as [bs|e'] eqn:E; cbn [result_bind]; [|discriminate].
    intros [= <-]. destruct (IH bs eq_refl) as (ys & ->).
    exists (f x :: ys). reflexivity.
Qed.

(** [calc_volume_fact] and [calc_Tfact] raise what their arithmetic raises. *)
Lemma calc_volume_fact_raise V st e st' :
  calc_volume_fact V st = (Raise e, st') <->
  e = TypeError /\ (exists s, In (Str s) V) /\ st' = st.
Proof.
  unfold calc_volume_fact. rewrite bind_lift.
  destruct (ufunc1 (fun V => (V - 20) / 70) V) as [x|e1] eqn:E1.
  - destruct (ufunc1_ok _ _ _ E1) as (ys & ->).
    rewrite bind_lift, ufunc1_floats. unfold ret.
    split; [discriminate|]. intros (He & Hs & _).
    assert (H : ufunc1 (fun V => (V - 20) / 70) V = Raise e)
      by (apply ufunc1_raise; auto).
    rewrite E1 in H. discriminate.
  - apply ufunc1_raise in E1 as (-> & Hs). split.
    + intros [= <- <-]. auto.
    + intros (-> & _ & ->). reflexivity.
Qed.

Lemma calc_Tfact_raise T st e st' :
  calc_Tfact T st = (Raise e, st') <->
  e = TypeError /\ (exists s, In (Str s) T) /\ st' = st.
Proof.
  unfold calc_Tfact. rewrite !bind_get_global, bind_lift.
  destruct (ufunc1 _ T) as [x|e1] eqn:E1.
  - destruct (ufunc1_ok _ _ _ E1) as (ys & ->).
    rewrite !bind_get_global. unfold lift. rewrite ufunc1_floats.
    split; [discriminate|]. intros (He & Hs & _).
    assert (H : ufunc1 (fun T2 => exp ((T1 (globals st) + T2) / T0 (globals st))) T
                = Raise e)
      by (apply ufunc1_raise; auto).
    rewrite E1 in H. discriminate.
  - apply ufunc1_raise in E1 as (-> & Hs). split.
    + intros [= <- <-]. auto.
    + intros (-> & _ & ->). reflexivity.
Qed.

(** [create_candidates] raises what its call of [create_experiments] raises:
    the statements after the call cannot raise. *)
Lemma create_candidates_raise domain nsamples st e st' :
  create_candidates domain nsamples st = (Raise e, st') <->
  create_experiments domain nsamples 25 90 None st = (Raise e, st').
Proof.
  unfold create_candidates. split.
  - intros H. apply bind_inv in H as [(e' & H & [= <-]) | (l & st1 & Hexp & H)];
      [exact H|].
    exfalso.
    apply create_experiments_random_inv in Hexp
      as [[e' [=]] | (df & _ & Hshape & [= ->] & _ & Hh)].
    assert (Hl : heap st1 !! new_loc (heap st) = Some (FrameObj df))
      by (rewrite Hh; apply lookup_insert_eq).
    rewrite (bind_read_frame _ _ _ _ Hl), bind_lift in H.
    destruct Hshape as (T & V & y & s & Hcols & _).
    unfold df_drop_columns, df_has_column in H. rewrite Hcols in H.
    cbn [forallb dict_get String.eqb Ascii.eqb Bool.eqb andb] in H.
    rewrite bind_alloc in H. discriminate H.
  - intros H. unfold bind. rewrite H. reflexivity.
Qed.


(** An exception at work: a solvent that is not in the table of descriptors
    makes the label lookup of pandas raise KeyError in [calc_rhofact]; it
    comes out of [evaluate_experiments] as it is, and nothing is allocated. *)
Lemma calc_rhofact_unknown_solvent Tfact :
  calc_rhofact [Str "Water"] Tfact unknown_solvent_notebook
  = (Raise KeyError, unknown_solvent_notebook).
Proof. reflexivity. Qed.

Lemma evaluate_experiments_unknown_solvent :
  evaluate_experiments example_domain_loc (Some example_candidates_loc)
    unknown_solvent_notebook
  = (Raise KeyError, unknown_solvent_notebook).
Proof.
  unfold evaluate_experiments, create_experiments.
  rewrite (bind_domain_inputs _ reaction_domain) by reflexivity.
  rewrite bind_lift.
  change (get_by_key (inputs reaction_domain) "Temperature") with (Ok temperature_feature).
  cbv beta iota.
  rewrite (bind_domain_inputs _ reaction_domain) by reflexivity.
  rewrite bind_lift.
  change (get_by_key (inputs reaction_domain) "Solvent Volume")
    with (Ok solvent_amount_feature).
  cbv beta iota.
  rewrite (bind_domain_inputs _ reaction_domain) by reflexivity.
  rewrite bind_lift.
  change (get_by_key (inputs reaction_domain) "Solvent Type") with (Ok solvent_type_feature).
  cbv beta iota.
  rewrite (bind_domain_outputs _ reaction_domain) by reflexivity.
  rewrite bind_lift.
  change (get_by_key (outputs reaction_domain) "Yield") with (Ok yield_feature).
  cbv beta iota.
  rewrite bind_assoc.
  rewrite (bind_read_frame _ (candidates_of_rows [mkRow 30 50 "Water"])) by reflexivity.
  cbv zeta.
  change (df_getitem (candidates_of_rows [mkRow 30 50 "Water"]) "Temperature")
    with (Ok (mkSeries (RangeIndex 1) [Flt 30])).
  change (df_getitem (candidates_of_rows [mkRow 30 50 "Water"]) "Solvent Volume")
    with (Ok (mkSeries (RangeIndex 1) [Flt 50])).
  change (df_getitem (candidates_of_rows [mkRow 30 50 "Water"]) "Solvent Type")
    with (Ok (mkSeries (RangeIndex 1) [Str "Water"])).
  run_pure. cbv beta iota delta [s_values].
  rewrite (bind_run _ _ _ _ _ (calc_Tfact_floats unknown_solvent_notebook [30])).
  unfold bind at 1. rewrite calc_rhofact_unknown_solvent. reflexivity.
Qed.

(** * Part IV: further properties of the code *)

(** Properties read off the code of the two notebooks: the ranges and the
    monotonicity of the factors and of the yield of the toy reaction, the
    round trips between candidates and experiments, the failures of the
    simulator and of the metric, random candidates in domains other than the
    one the notebook declares, and the number of iterations of the loop.
    Each of them is numbered X1, X2, ... *)

(** ** The volume factor *)

Lemma calc_volume_fact_floats st Vs :
  calc_volume_fact (map Flt Vs) st
  = (Ok (map Flt (map (fun V => 0.5 + ((V - 20) / 70 - 0.75) * 0.1
                                + ((V - 20) / 70 - 0.4) ^ 2) Vs)), st).
Proof.
  unfold calc_volume_fact.
  rewrite bind_lift, ufunc1_floats. cbv beta iota.
  rewrite bind_lift, ufunc1_floats. cbv beta iota.
  unfold ret. rewrite !map_map. reflexivity.
Qed.

(** The polynomial of [calc_volume_fact] is a parabola with vertex at 44.5. *)
Lemma volume_fact_vertex V :
  0.5 + ((V - 20) / 70 - 0.75) * 0.1 + ((V - 20) / 70 - 0.4) ^ 2
  = ((V - 44.5) / 70) ^ 2 + 0.4625.
Proof. nra. Qed.

(** X1. [calc_volume_fact] computes, element by element, a convex function of
    the solvent volume: it decreases up to V = 44.5, where it takes its least
    value 0.4625, and increases from there on; over the declared range
    [20, 90] of the volume it stays within [0.4625, 0.885], and it reaches
    0.885 only at V = 90. *)
Theorem calc_volume_fact_range st :
  exists Vfact : R -> R,
    (forall Vs, calc_volume_fact (map Flt Vs) st = (Ok (map Flt (map Vfact Vs)), st)) /\
    (forall V, 20 <= V <= 90 -> 0.4625 <= Vfact V <= 0.885) /\
    (forall V, Vfact V = 0.4625 <-> V = 44.5) /\
    (forall V, 20 <= V <= 90 -> (Vfact V = 0.885 <-> V = 90)) /\
    (forall a b, a < b <= 44.5 -> Vfact b < Vfact a) /\
    (forall a b, 44.5 <= a < b -> Vfact a < Vfact b).
Proof.
  exists (fun V => 0.5 + ((V - 20) / 70 - 0.75) * 0.1 + ((V - 20) / 70 - 0.4) ^ 2).
  split; [intros Vs; apply calc_volume_fact_floats|].
  split; [|split; [|split; [|split]]].
  - intros V HV. rewrite volume_fact_vertex.
    set (w := (V - 44.5) / 70). assert (-0.35 <= w <= 0.65) by (unfold w; lra). nra.
  - intros V. rewrite volume_fact_vertex.
    set (w := (V - 44.5) / 70). split; intros H.
    + assert (w = 0) by nra. unfold w in *. lra.
    + assert (w = 0) by (unfold w; lra). nra.
  - intros V HV. rewrite volume_fact_vertex.
    set (w := (V - 44.5) / 70). assert (-0.35 <= w <= 0.65) by (unfold w; lra).
    split; intros H'.
    + assert (w = 0.65) by nra. unfold w in *. lra.
    + assert (w = 0.65) by (unfold w; lra). nra.
  - intros a b H. rewrite !volume_fact_vertex.
    set (wa := (a - 44.5) / 70). set (wb := (b - 44.5) / 70).
    assert (wa < wb <= 0) by (unfold wa, wb; lra). nra.
  - intros a b H. rewrite !volume_fact_vertex.
    set (wa := (a - 44.5) / 70). set (wb := (b - 44.5) / 70).
    assert (0 <= wa < wb) by (unfold wa, wb; lra). nra.
Qed.

(** ** The density factor *)

(** Looking one label up in the density column of the table of descriptors
    gives what the dict [density] holds for it. *)
Lemma density_series_loc1 c :
  series_loc1 (mkSeries (index (solvent_descriptors cell14))
                        (map (fun lv => Flt (snd lv)) density)) c
  = match density_of c with
    | Some d => Ok (Flt d)
    | None => Raise KeyError
    end.
Proof.
  destruct c as [x|s]; [reflexivity|].
  unfold series_loc1, density_of.
  change (s_index _) with [StrLabel "MeOH"; StrLabel "THF"; StrLabel "Dioxane"].
  cbn [index_get_loc dict_get density s_values map snd].
  destruct (String.eqb "MeOH" s); [reflexivity|].
  destruct (String.eqb "THF" s); [reflexivity|].
  destruct (String.eqb "Dioxane" s); reflexivity.
Qed.

Lemma density_series_known solvents ds :
  map density_of solvents = map Some ds ->
  result_mapM
    (series_loc1 (mkSeries (index (solvent_descriptors cell14))
                           (map (fun lv => Flt (snd lv)) density)))
    solvents
  = Ok (map Flt ds).
Proof.
  revert ds. induction solvents as [|c solvents IH]; intros [|d ds] H;
    try discriminate H; [reflexivity|].
  injection H as Hc Hrest.
  cbn [result_mapM map]. rewrite density_series_loc1, Hc, (IH ds Hrest). reflexivity.
Qed.

Lemma density_series_unknown solvents :
  Exists (fun c => density_of c = None) solvents ->
  result_mapM
    (series_loc1 (mkSeries (index (solvent_descriptors cell14))
                           (map (fun lv => Flt (snd lv)) density)))
    solvents
  = Raise KeyError.
Proof.
  induction 1 as [c solvents Hc | c solvents _ IH]; cbn [result_mapM].
  - rewrite density_series_loc1, Hc. reflexivity.
  - rewrite density_series_loc1, IH. destruct (density_of c); reflexivity.
Qed.

(** Either every label has a density, or one of them has none. *)
Lemma density_of_all_or_none solvents :
  (exists ds, map density_of solvents = map Some ds) \/
  Exists (fun c => density_of c = None) solvents.
Proof.
  induction solvents as [|c solvents [[ds IH]|IH]].
  - left. exists []. reflexivity.
  - destruct (density_of c) as [d|] eqn:Hc.
    + left. exists (d :: ds). cbn [map]. rewrite Hc, IH. reflexivity.
    + right. left. exact Hc.
  - right. right. exact IH.
Qed.

(** The exceptions of the arithmetic on two arrays: never a [KeyError]. *)
Lemma ufunc2_raise f a b e :
  ufunc2 f a b = Raise e -> e = ValueError \/ e = TypeError.
Proof.
  unfold ufunc2. destruct (Nat.eqb (length a) (length b)); [|intros [= <-]; auto].
  generalize (zip_cells a b) as ps. intros ps. revert e.
  induction ps as [|[x y] ps IH]; intros e; cbn [result_mapM]; [discriminate|].
  destruct x as [x|s]; cbn [fst snd as_float result_bind]; [|intros [= <-]; auto].
  destruct y as [y|s]; cbn [as_float result_bind]; [|intros [= <-]; auto].
  destruct (result_mapM _ ps) as [bs|e'] eqn:E; cbn [result_bind]; [discriminate|].
  intros [= <-]. apply IH. reflexivity.
Qed.

(** The statements of [calc_rhofact], once the density column is read. *)
Lemma calc_rhofact_unfold st solvents Tfact :
  globals st = cell14 ->
  calc_rhofact solvents Tfact st
  = match result_mapM
            (series_loc1 (mkSeries (index (solvent_descriptors cell14))
                                   (map (fun lv => Flt (snd lv)) density)))
            solvents with
    | Ok vs =>
        (result_bind (ufunc1 (fun x => 1.5 - x) vs) (fun a =>
         result_bind (ufunc1 (fun Tfact => Tfact + 0.5) Tfact) (fun b =>
         ufunc2 (fun a b => a * b / 2) a b)), st)
    | Raise e => (Raise e, st)
    end.
Proof.
  intros Hg. unfold calc_rhofact.
  rewrite bind_get_global, Hg, bind_lift.
  change (df_getitem (solvent_descriptors cell14) "density")
    with (Ok (mkSeries (index (solvent_descriptors cell14))
                       (map (fun lv => Flt (snd lv)) density))).
  cbv beta iota. rewrite bind_lift. unfold series_getitem.
  destruct (result_mapM _ solvents) as [vs|e]; cbn [result_bind s_values]; [|reflexivity].
  rewrite bind_lift. destruct (ufunc1 _ vs) as [a|e]; cbn [result_bind]; [|reflexivity].
  rewrite bind_lift. destruct (ufunc1 _ Tfact) as [b|e]; cbn [result_bind]; [|reflexivity].
  rewrite bind_lift. destruct (ufunc2 _ a b) as [x|e]; reflexivity.
Qed.

(** When every requested label is a key of [density] and there is one
    temperature factor per label, [calc_rhofact] returns. *)
Lemma calc_rhofact_floats st solvents ds ts :
  globals st = cell14 ->
  map density_of solvents = map Some ds ->
  length ts = length ds ->
  calc_rhofact solvents (map Flt ts) st
  = (Ok (map Flt (map (fun p => (1.5 - fst p) * (snd p + 0.5) / 2) (combine ds ts))), st).
Proof.
  intros Hg Hds Hlen. rewrite (calc_rhofact_unfold st solvents _ Hg).
  rewrite (density_series_known _ _ Hds), !ufunc1_floats. cbn [result_bind].
  rewrite ufunc2_floats by (rewrite !length_map; auto).
  do 3 f_equal. clear. revert ts.
  induction ds as [|d ds IH]; intros [|t ts]; cbn; try reflexivity.
  rewrite IH. reflexivity.
Qed.

(** X2. [calc_rhofact] looks every requested solvent up in the density column
    before it computes anything.  It raises [KeyError], with the state as it
    was, exactly when one of the requested labels is not a key of [density],
    whatever the temperature factors are; and when every label is a key and
    there is one temperature factor per label, it returns
    (1.5 - density[s]) * (Tfact + 0.5) / 2 element by element. *)
Theorem calc_rhofact_lookup st solvents :
  globals st = cell14 ->
  (forall Tfact,
     calc_rhofact solvents Tfact st = (Raise KeyError, st)
     <-> Exists (fun c => density_of c = None) solvents) /\
  (forall ds ts,
     map density_of solvents = map Some ds ->
     length ts = length ds ->
     calc_rhofact solvents (map Flt ts) st
     = (Ok (map Flt (map (fun p => (1.5 - fst p) * (snd p + 0.5) / 2) (combine ds ts))),
        st)).
Proof.
  intros Hg. split.
  - intros Tfact. rewrite (calc_rhofact_unfold st solvents Tfact Hg). split.
    + intros H. destruct (density_of_all_or_none solvents) as [[ds Hds]|Hex]; [|exact Hex].
      exfalso. rewrite (density_series_known _ _ Hds), ufunc1_floats in H.
      cbn [result_bind] in H.
      destruct (ufunc1 _ Tfact) as [b|e] eqn:Eb; cbn [result_bind] in H.
      * injection H as H. apply ufunc2_raise in H as [H|H]; discriminate H.
      * apply ufunc1_raise in Eb as [-> _]. discriminate H.
    + intros Hex. rewrite (density_series_unknown _ Hex). reflexivity.
  - intros ds ts Hds Hlen. apply calc_rhofact_floats; assumption.
Qed.

(** X2 at work: tetrahydrofuran has a density, water has none. *)
Lemma calc_rhofact_lookup_witness :
  calc_rhofact [Str "THF"] [Flt 1] example_notebook
  = (Ok [Flt ((1.5 - 0.886) * (1 + 0.5) / 2)], example_notebook) /\
  calc_rhofact [Str "Water"] [Flt 1] example_notebook = (Raise KeyError, example_notebook).
Proof.
  destruct (calc_rhofact_lookup example_notebook [Str "THF"] eq_refl) as [_ H1].
  destruct (calc_rhofact_lookup example_notebook [Str "Water"] eq_refl) as [H2 _].
  split.
  - apply (H1 [0.886] [1]); reflexivity.
  - apply H2. constructor. reflexivity.
Defined.

(** The densities of the three solvents. *)
Lemma density_of_known s :
  known_solvent s ->
  exists d, density_of (Str s) = Some d /\ 0.792 <= d <= 1.03.
Proof.
  intros [-> | [-> | ->]]; eexists; (split; [reflexivity|lra]).
Qed.

Lemma density_of_known_all solvents :
  Forall (fun c => exists s, c = Str s /\ known_solvent s) solvents ->
  exists ds, map density_of solvents = map Some ds /\
             Forall (fun d => 0.792 <= d <= 1.03) ds.
Proof.
  induction 1 as [|c solvents (s & -> & Hs) _ (ds & Hds & Hb)].
  - exists []. split; [reflexivity|constructor].
  - destruct (density_of_known s Hs) as (d & Hd & Hd').
    exists (d :: ds). cbn [map]. rewrite Hd, Hds. split; [reflexivity|].
    constructor; assumption.
Qed.

(** X3. For solvents of the table of descriptors and temperature factors
    within [0, 1] (those of temperatures within the declared bounds), every
    density factor that [calc_rhofact] returns lies within [0.1175, 0.531]:
    0.1175 is the factor of Dioxane at Tfact = 0 and 0.531 that of MeOH at
    Tfact = 1. *)
Theorem calc_rhofact_range st solvents ts :
  globals st = cell14 ->
  Forall (fun c => exists s, c = Str s /\ known_solvent s) solvents ->
  length ts = length solvents ->
  Forall (fun t => 0 <= t <= 1) ts ->
  exists xs,
    calc_rhofact solvents (map Flt ts) st = (Ok (map Flt xs), st) /\
    length xs = length ts /\
    Forall (fun x => 0.1175 <= x <= 0.531) xs /\
    calc_rhofact [Str "Dioxane"] [Flt 0] st = (Ok [Flt 0.1175], st) /\
    calc_rhofact [Str "MeOH"] [Flt 1] st = (Ok [Flt 0.531], st).
Proof.
  intros Hg Hknown Hlen Hts.
  destruct (density_of_known_all solvents Hknown) as (ds & Hds & Hb).
  assert (Hlen' : length ts = length ds).
  { rewrite Hlen, <- (length_map density_of solvents), Hds. apply length_map. }
  eexists. split; [apply (calc_rhofact_floats st solvents ds ts Hg Hds Hlen')|].
  split; [rewrite length_map, length_combine; lia|].
  split.
  - clear Hds Hlen Hlen' Hknown. revert ts Hts.
    induction Hb as [|d ds Hd _ IH]; intros ts Hts; [constructor|].
    destruct Hts as [|t ts Ht Hts]; [constructor|].
    cbn [combine map fst snd]. constructor; [nra|apply IH, Hts].
  - split.
    + change [Flt 0] with (map Flt [0]).
      rewrite (calc_rhofact_floats st [Str "Dioxane"] [1.03] [0] Hg eq_refl eq_refl).
      cbn [combine map fst snd].
      replace ((1.5 - 1.03) * (0 + 0.5) / 2) with 0.1175 by lra. reflexivity.
    + change [Flt 1] with (map Flt [1]).
      rewrite (calc_rhofact_floats st [Str "MeOH"] [0.792] [1] Hg eq_refl eq_refl).
      cbn [combine map fst snd].
      replace ((1.5 - 0.792) * (1 + 0.5) / 2) with 0.531 by lra. reflexivity.
Qed.

(** X3 at work: tetrahydrofuran at Tfact = 0.5. *)
Lemma calc_rhofact_range_witness :
  exists xs,
    calc_rhofact [Str "THF"] (map Flt [0.5]) example_notebook
    = (Ok (map Flt xs), example_notebook) /\
    Forall (fun x => 0.1175 <= x <= 0.531) xs.
Proof.
  destruct (calc_rhofact_range example_notebook [Str "THF"] [0.5] eq_refl) as (xs & H & _ & Hb & _).
  - constructor; [|constructor]. exists "THF". split; [reflexivity|]. right. left. reflexivity.
  - reflexivity.
  - constructor; [lra|constructor].
  - exists xs. split; assumption.
Defined.

(** ** The yields of the toy reaction *)

Lemma spec_Tfact_den_pos : 0 < exp (160 / 25) - exp (100 / 25).
Proof. apply Rlt_0_minus, exp_increasing. lra. Qed.

Lemma spec_Tfact_increasing t1 t2 : t1 < t2 -> spec_Tfact t1 < spec_Tfact t2.
Proof.
  intros Ht. unfold spec_Tfact.
  apply Rmult_lt_compat_r; [apply Rinv_0_lt_compat, spec_Tfact_den_pos|].
  apply Rplus_lt_compat_r, exp_increasing. lra.
Qed.

Lemma spec_Tfact_0 : spec_Tfact 0 = 0.
Proof.
  unfold spec_Tfact. replace ((100 + 0) / 25) with (100 / 25) by lra.
  unfold Rdiv at 1. rewrite Rminus_diag. lra.
Qed.

Lemma spec_Tfact_60 : spec_Tfact 60 = 1.
Proof.
  unfold spec_Tfact. replace ((100 + 60) / 25) with (160 / 25) by lra.
  apply Rdiv_diag. pose proof spec_Tfact_den_pos. lra.
Qed.

Lemma spec_Tfact_injective t1 t2 : spec_Tfact t1 = spec_Tfact t2 -> t1 = t2.
Proof.
  intros H. destruct (Rtotal_order t1 t2) as [Hlt | [Heq | Hgt]]; [|exact Heq|].
  - apply spec_Tfact_increasing in Hlt. lra.
  - apply spec_Tfact_increasing in Hgt. lra.
Qed.

Lemma spec_Tfact_unit t : 0 <= t <= 60 -> 0 <= spec_Tfact t <= 1.
Proof.
  intros [H0 H60]. split.
  - destruct H0 as [H0 | <-]; [|rewrite spec_Tfact_0; lra].
    apply spec_Tfact_increasing in H0. rewrite spec_Tfact_0 in H0. lra.
  - destruct H60 as [H60 | ->]; [|rewrite spec_Tfact_60; lra].
    apply spec_Tfact_increasing in H60. rewrite spec_Tfact_60 in H60. lra.
Qed.

(** The temperature factor stays above -1/2 at every temperature, so the
    factor [Tfact + 0.5] of [calc_rhofact] is positive. *)
Lemma spec_Tfact_lower t : -0.5 < spec_Tfact t.
Proof.
  unfold spec_Tfact.
  assert (Ha : 0 < exp (100 / 25)) by apply exp_pos.
  assert (Hx : 0 < exp ((100 + t) / 25)) by apply exp_pos.
  assert (Hb : 1 + 60 / 25 < exp (60 / 25)) by (apply exp_ineq1; lra).
  assert (Hab : exp (160 / 25) = exp (100 / 25) * exp (60 / 25)).
  { rewrite <- exp_plus. f_equal. lra. }
  pose proof spec_Tfact_den_pos as Hd.
  apply (Rmult_lt_reg_r (exp (160 / 25) - exp (100 / 25))); [exact Hd|].
  unfold Rdiv. rewrite Rmult_assoc, Rinv_l, Rmult_1_r by lra.
  rewrite Hab in *. nra.
Qed.

Lemma spec_Vfact_vertex V : spec_Vfact V = ((V - 44.5) / 70) ^ 2 + 0.4625.
Proof. unfold spec_Vfact. apply volume_fact_vertex. Qed.

Lemma spec_density_dict s d : dict_get density s = Some d -> spec_density s = d.
Proof.
  unfold spec_density. cbn [dict_get density].
  rewrite (String.eqb_sym "MeOH" s), (String.eqb_sym "THF" s), (String.eqb_sym "Dioxane" s).
  destruct (String.eqb s "MeOH"); [congruence|].
  destruct (String.eqb s "THF"); [congruence|].
  destruct (String.eqb s "Dioxane"); [congruence|discriminate].
Qed.

Lemma spec_density_known s :
  known_solvent s -> 0.792 <= spec_density s <= 1.03.
Proof. intros [-> | [-> | ->]]; cbn; lra. Qed.

(** The simulator on a well-formed table: the run, and the yields. *)
Lemma evaluate_experiments_yields st domain candidates dom cands rows :
  globals st = cell14 ->
  heap st !! domain = Some (DomainObj dom) ->
  has_reaction_features dom ->
  heap st !! candidates = Some (FrameObj cands) ->
  holds_rows cands rows ->
  Forall (fun r => known_solvent (row_S r)) rows ->
  exists experiments st' df,
    evaluate_experiments domain (Some candidates) st = (Ok experiments, st') /\
    heap st' !! experiments = Some (FrameObj df) /\
    dict_get (columns df) "Yield" = Some (map Flt (map (spec_yield 25 90) rows)).
Proof.
  intros Hg Hdom Hfeat Hc Hrows Hknown. unfold evaluate_experiments.
  rewrite (create_experiments_on_rows st domain candidates dom cands rows 100 25 90
             Hg Hdom Hfeat Hc Hrows Hknown).
  do 3 eexists. split; [reflexivity|]. split.
  - cbn [with_heap heap]. apply lookup_insert_eq.
  - reflexivity.
Qed.

(** X4. The yields that [evaluate_experiments] computes do not decrease with
    the temperature and decrease with the density of the solvent.  Of two
    candidates with the same volume and solvent the hotter one never has the
    lower yield, at every temperature; within the bounds of the domain, a
    candidate that is at least one degree hotter has the strictly higher
    yield, and of two candidates with the same temperature and volume the one
    in the lighter solvent has the strictly higher yield. *)
Theorem yield_monotone st domain candidates dom cands rows :
  globals st = cell14 ->
  heap st !! domain = Some (DomainObj dom) ->
  has_reaction_features dom ->
  heap st !! candidates = Some (FrameObj cands) ->
  holds_rows cands rows ->
  Forall (fun r => known_solvent (row_S r)) rows ->
  exists experiments st' df ys,
    evaluate_experiments domain (Some candidates) st = (Ok experiments, st') /\
    heap st' !! experiments = Some (FrameObj df) /\
    dict_get (columns df) "Yield" = Some (map Flt ys) /\
    length ys = length rows /\
    (forall j k rj rk yj yk,
       rows !! j = Some rj -> rows !! k = Some rk ->
       ys !! j = Some yj -> ys !! k = Some yk ->
       row_V rj = row_V rk -> row_S rj = row_S rk ->
       row_T rj <= row_T rk -> yj <= yk) /\
    (forall j k rj rk yj yk,
       rows !! j = Some rj -> rows !! k = Some rk ->
       ys !! j = Some yj -> ys !! k = Some yk ->
       row_V rj = row_V rk -> row_S rj = row_S rk ->
       0 <= row_T rj -> row_T rj + 1 <= row_T rk -> row_T rk <= 60 ->
       20 <= row_V rj <= 90 ->
       yj < yk) /\
    (forall j k rj rk yj yk dj dk,
       rows !! j = Some rj -> rows !! k = Some rk ->
       ys !! j = Some yj -> ys !! k = Some yk ->
       row_T rj = row_T rk -> row_V rj = row_V rk ->
       0 <= row_T rj <= 60 -> 20 <= row_V rj <= 90 ->
       dict_get density (row_S rj) = Some dj ->
       dict_get density (row_S rk) = Some dk ->
       dj < dk -> yk < yj).
Proof.
  intros Hg Hdom Hfeat Hc Hrows Hknown.
  destruct (evaluate_experiments_yields st domain candidates dom cands rows
              Hg Hdom Hfeat Hc Hrows Hknown) as (experiments & st' & df & Hrun & Hdf & Hy).
  exists experiments, st', df, (map (spec_yield 25 90) rows).
  split; [exact Hrun|]. split; [exact Hdf|]. split; [exact Hy|].
  split; [apply length_map|].
  assert (Hlook : forall j r y, rows !! j = Some r ->
            map (spec_yield 25 90) rows !! j = Some y ->
            y = spec_yield 25 90 r /\ known_solvent (row_S r)).
  { intros j r y Hr Hyj. rewrite list_lookup_fmap, Hr in Hyj. injection Hyj as <-.
    split; [reflexivity|].
    rewrite Forall_forall in Hknown. apply Hknown.
    apply list_elem_of_lookup. eauto. }
  assert (Hstrict : forall rj rk,
            known_solvent (row_S rj) ->
            row_V rj = row_V rk -> row_S rj = row_S rk -> row_T rj < row_T rk ->
            spec_yield 25 90 rj < spec_yield 25 90 rk).
  { intros rj rk Hsj HV HS HT.
    unfold spec_yield, spec_rhofact. cbv zeta. rewrite <- HV, <- HS.
    pose proof (spec_Tfact_increasing _ _ HT) as Hlt.
    pose proof (spec_density_known _ Hsj) as Hd.
    pose proof (spec_Vfact_vertex (row_V rj)) as Hv.
    set (w := (row_V rj - 44.5) / 70) in Hv.
    assert (Hq : 1.4625 <= 1 + spec_Vfact (row_V rj)) by nra.
    set (q := 1 + spec_Vfact (row_V rj)) in *.
    set (d := spec_density (row_S rj)) in *.
    set (a := spec_Tfact (row_T rj)) in *. set (b := spec_Tfact (row_T rk)) in *.
    assert (Hp : 25 * a + 90 * ((1.5 - d) * (a + 0.5) / 2)
                 < 25 * b + 90 * ((1.5 - d) * (b + 0.5) / 2)) by nra.
    nra. }
  split; [|split].
  - intros j k rj rk yj yk Hj Hk Hyj Hyk HV HS HT.
    destruct (Hlook j rj yj Hj Hyj) as [-> Hsj].
    destruct (Hlook k rk yk Hk Hyk) as [-> _].
    destruct HT as [HT | HT].
    + left. apply Hstrict; assumption.
    + right. destruct rj, rk. cbn [row_T row_V row_S] in *. subst. reflexivity.
  - intros j k rj rk yj yk Hj Hk Hyj Hyk HV HS _ HT _ _.
    destruct (Hlook j rj yj Hj Hyj) as [-> Hsj].
    destruct (Hlook k rk yk Hk Hyk) as [-> _].
    apply Hstrict; try assumption. lra.
  - intros j k rj rk yj yk dj dk Hj Hk Hyj Hyk HT HV _ _ Hdj Hdk Hd.
    destruct (Hlook j rj yj Hj Hyj) as [-> _].
    destruct (Hlook k rk yk Hk Hyk) as [-> _].
    unfold spec_yield, spec_rhofact. cbv zeta.
    rewrite <- HT, <- HV, (spec_density_dict _ _ Hdj), (spec_density_dict _ _ Hdk).
    pose proof (spec_Tfact_lower (row_T rj)) as Ht.
    pose proof (spec_Vfact_vertex (row_V rj)) as Hv.
    set (w := (row_V rj - 44.5) / 70) in Hv.
    assert (Hq : 1.4625 <= 1 + spec_Vfact (row_V rj)) by nra.
    set (q := 1 + spec_Vfact (row_V rj)) in *.
    set (a := spec_Tfact (row_T rj)) in *.
    assert (Hp : 25 * a + 90 * ((1.5 - dk) * (a + 0.5) / 2)
                 < 25 * a + 90 * ((1.5 - dj) * (a + 0.5) / 2)) by nra.
    nra.
Qed.

(** X4 at work: of two candidates in 50 ml of THF, the one at 40 degrees has
    the higher yield than the one at 20 degrees. *)
Lemma yield_monotone_witness :
  exists experiments st' df y1 y2,
    evaluate_experiments example_domain_loc (Some example_candidates_loc)
      (notebook_with example_pair) = (Ok experiments, st') /\
    heap st' !! experiments = Some (FrameObj df) /\
    dict_get (columns df) "Yield" = Some [Flt y1; Flt y2] /\
    y1 < y2.
Proof.
  destruct (yield_monotone (notebook_with example_pair) example_domain_loc
              example_candidates_loc reaction_domain (candidates_of_rows example_pair)
              example_pair eq_refl eq_refl reaction_domain_features eq_refl
              (holds_rows_candidates example_pair))
    as (experiments & st' & df & ys & Hrun & Hdf & Hy & Hlen & _ & Hmono & _).
  { repeat constructor; right; left; reflexivity. }
  destruct ys as [|y1 [|y2 [|y3 ys]]]; try discriminate Hlen.
  exists experiments, st', df, y1, y2.
  split; [exact Hrun|]. split; [exact Hdf|]. split; [exact Hy|].
  apply (Hmono 0%nat 1%nat (mkRow 20 50 "THF") (mkRow 40 50 "THF") y1 y2);
    try reflexivity; cbn [row_T row_V]; lra.
Defined.

(** The yield of one row, as a product of a factor of the temperature and
    the solvent, and a factor of the volume. *)
Lemma spec_yield_product r :
  spec_yield 25 90 r
  = 0.5
    * (25 * spec_Tfact (row_T r)
       + 45 * (1.5 - spec_density (row_S r)) * (spec_Tfact (row_T r) + 0.5))
    * (1.4625 + ((row_V r - 44.5) / 70) ^ 2).
Proof.
  unfold spec_yield, spec_rhofact. cbv zeta. rewrite spec_Vfact_vertex.
  set (a := spec_Tfact (row_T r)). set (d := spec_density (row_S r)).
  set (w := (row_V r - 44.5) / 70). nra.
Qed.

Lemma spec_yield_range r :
  in_reaction_domain r ->
  7.73296875 <= spec_yield 25 90 r <= 68.604575 /\
  (spec_yield 25 90 r = 68.604575 <-> r = mkRow 60 90 "MeOH") /\
  (spec_yield 25 90 r = 7.73296875 <-> r = mkRow 0 44.5 "Dioxane").
Proof.
  destruct r as [T V S]. intros (HT & HV & HS). cbn [row_T row_V row_S] in *.
  rewrite spec_yield_product. cbn [row_T row_V row_S].
  pose proof (spec_Tfact_unit T HT) as Ha.
  assert (Hw : -0.35 <= (V - 44.5) / 70 <= 0.65) by lra.
  assert (HT0 : spec_Tfact T = 0 -> T = 0)
    by (intros E; apply spec_Tfact_injective; rewrite E, spec_Tfact_0; reflexivity).
  assert (HT60 : spec_Tfact T = 1 -> T = 60)
    by (intros E; apply spec_Tfact_injective; rewrite E, spec_Tfact_60; reflexivity).
  assert (HV90 : (V - 44.5) / 70 = 0.65 -> V = 90) by lra.
  assert (HV44 : (V - 44.5) / 70 = 0 -> V = 44.5) by lra.
  set (a := spec_Tfact T) in *. set (w := (V - 44.5) / 70) in *.
  assert (Hq : 1.4625 <= 1.4625 + w ^ 2 <= 1.885) by nra.
  assert (Hq90 : 1.4625 + w ^ 2 = 1.885 -> w = 0.65) by (intros E; nra).
  assert (Hq44 : 1.4625 + w ^ 2 = 1.4625 -> w = 0) by (intros E; nra).
  set (q := 1.4625 + w ^ 2) in *.
  destruct HS as [-> | [-> | ->]]; cbn [spec_density String.eqb Ascii.eqb Bool.eqb].
  - (* MeOH *)
    set (p := 25 * a + 45 * (1.5 - 0.792) * (a + 0.5)).
    assert (Hp : 15.93 <= p <= 72.79) by (unfold p; lra).
    assert (Hp1 : p = 72.79 -> a = 1) by (unfold p; lra).
    split; [nra|]. split; split.
    + intros E. assert (p = 72.79 /\ q = 1.885) as [E1 E2] by nra.
      rewrite (HT60 (Hp1 E1)), (HV90 (Hq90 E2)). reflexivity.
    + intros [= E1 E2]. assert (a = 1) by (unfold a; rewrite E1; apply spec_Tfact_60).
      assert (w = 0.65) by (unfold w; lra). unfold p, q. nra.
    + intros E. exfalso. nra.
    + intros [= _ _].
  - (* THF *)
    set (p := 25 * a + 45 * (1.5 - 0.886) * (a + 0.5)).
    assert (Hp : 13.815 <= p <= 66.445) by (unfold p; lra).
    split; [nra|]. split; split.
    + intros E. exfalso. nra.
    + intros [= _ _].
    + intros E. exfalso. nra.
    + intros [= _ _].
  - (* Dioxane *)
    set (p := 25 * a + 45 * (1.5 - 1.03) * (a + 0.5)).
    assert (Hp : 10.575 <= p <= 56.725) by (unfold p; lra).
    assert (Hp0 : p = 10.575 -> a = 0) by (unfold p; lra).
    split; [nra|]. split; split.
    + intros E. exfalso. nra.
    + intros [= _ _].
    + intros E. assert (p = 10.575 /\ q = 1.4625) as [E1 E2] by nra.
      rewrite (HT0 (Hp0 E1)), (HV44 (Hq44 E2)). reflexivity.
    + intros [= E1 E2]. assert (a = 0) by (unfold a; rewrite E1; apply spec_Tfact_0).
      assert (w = 0) by (unfold w; lra). unfold p, q. nra.
Qed.

(** X5. For candidates within the bounds of the reaction domain - a
    temperature in [0, 60], a volume in [20, 90], one of the three solvents -
    every yield that [evaluate_experiments] computes lies within
    [7.73296875, 68.604575].  The upper bound is the yield of exactly one
    candidate, 60 degrees in 90 ml of MeOH: the optimum that the optimization
    of the notebook looks for; the lower bound is the yield of 0 degrees in
    44.5 ml of Dioxane only. *)
Theorem yield_range_on_domain st domain candidates dom cands rows :
  globals st = cell14 ->
  heap st !! domain = Some (DomainObj dom) ->
  has_reaction_features dom ->
  heap st !! candidates = Some (FrameObj cands) ->
  holds_rows cands rows ->
  Forall in_reaction_domain rows ->
  exists experiments st' df ys,
    evaluate_experiments domain (Some candidates) st = (Ok experiments, st') /\
    heap st' !! experiments = Some (FrameObj df) /\
    dict_get (columns df) "Yield" = Some (map Flt ys) /\
    Forall2 (fun r y =>
               7.73296875 <= y <= 68.604575 /\
               (y = 68.604575 <-> r = mkRow 60 90 "MeOH") /\
               (y = 7.73296875 <-> r = mkRow 0 44.5 "Dioxane"))
            rows ys.
Proof.
  intros Hg Hdom Hfeat Hc Hrows Hin.
  assert (Hknown : Forall (fun r => known_solvent (row_S r)) rows).
  { eapply Forall_impl; [exact Hin|]. intros r (_ & _ & Hs). exact Hs. }
  destruct (evaluate_experiments_yields st domain candidates dom cands rows
              Hg Hdom Hfeat Hc Hrows Hknown) as (experiments & st' & df & Hrun & Hdf & Hy).
  exists experiments, st', df, (map (spec_yield 25 90) rows).
  split; [exact Hrun|]. split; [exact Hdf|]. split; [exact Hy|].
  clear -Hin. induction Hin as [|r rows Hr _ IH]; cbn [map]; constructor.
  - apply spec_yield_range, Hr.
  - exact IH.
Qed.

(** X5 at work: the best candidate of the domain, and its yield. *)
Lemma yield_range_on_domain_witness :
  exists experiments st' df,
    evaluate_experiments example_domain_loc (Some example_candidates_loc)
      (notebook_with [mkRow 60 90 "MeOH"]) = (Ok experiments, st') /\
    heap st' !! experiments = Some (FrameObj df) /\
    dict_get (columns df) "Yield" = Some [Flt 68.604575].
Proof.
  destruct (yield_range_on_domain (notebook_with [mkRow 60 90 "MeOH"]) example_domain_loc
              example_candidates_loc reaction_domain
              (candidates_of_rows [mkRow 60 90 "MeOH"]) [mkRow 60 90 "MeOH"]
              eq_refl eq_refl reaction_domain_features eq_refl
              (holds_rows_candidates [mkRow 60 90 "MeOH"]))
    as (experiments & st' & df & ys & Hrun & Hdf & Hy & Hall).
  { constructor; [|constructor]. unfold in_reaction_domain, known_solvent.
    cbn [row_T row_V row_S]. split; [lra|]. split; [lra|]. left. reflexivity. }
  exists experiments, st', df.
  split; [exact Hrun|]. split; [exact Hdf|].
  inversion Hall as [|r y rows' ys' (_ & Hmax & _) Hrest]; subst.
  inversion Hrest; subst.
  rewrite Hy. rewrite (proj2 Hmax eq_refl). reflexivity.
Defined.

(** ** Candidates and experiments: round trips and failures *)

Lemma holds_rows_experiments A B rows : holds_rows (experiments_of_rows A B rows) rows.
Proof.
  repeat split. unfold df_len, experiments_of_rows. cbn [index].
  apply length_RangeIndex.
Qed.

Lemma drop_yields_of_experiments A B rows :
  df_drop_columns (experiments_of_rows A B rows) ["Yield"; "valid_Yield"]
  = Ok (candidates_of_rows rows).
Proof. reflexivity. Qed.

(** X6. Round trip from candidates to experiments and back: when a table of
    candidates with the columns Temperature, Solvent Volume and Solvent Type
    is evaluated, the table of experiments, without its columns Yield and
    valid_Yield (what [create_candidates] drops), is the table of candidates
    again; the candidates themselves are left as they were. *)
Theorem evaluate_then_drop_round_trip st domain candidates dom rows :
  globals st = cell14 ->
  heap st !! domain = Some (DomainObj dom) ->
  has_reaction_features dom ->
  heap st !! candidates = Some (FrameObj (candidates_of_rows rows)) ->
  Forall (fun r => known_solvent (row_S r)) rows ->
  exists experiments st' df,
    evaluate_experiments domain (Some candidates) st = (Ok experiments, st') /\
    heap st' !! experiments = Some (FrameObj df) /\
    df_drop_columns df ["Yield"; "valid_Yield"] = Ok (candidates_of_rows rows) /\
    heap st' !! candidates = Some (FrameObj (candidates_of_rows rows)).
Proof.
  intros Hg Hdom Hfeat Hc Hknown. unfold evaluate_experiments.
  rewrite (create_experiments_on_rows st domain candidates dom _ rows 100 25 90
             Hg Hdom Hfeat Hc (holds_rows_candidates rows) Hknown).
  do 3 eexists. split; [reflexivity|]. cbn [with_heap heap].
  split; [apply lookup_insert_eq|].
  split; [apply drop_yields_of_experiments|].
  apply lookup_after_alloc, Hc.
Qed.

(** X6 at work, on the candidate of the example notebook. *)
Lemma evaluate_then_drop_round_trip_witness :
  exists experiments st' df,
    evaluate_experiments example_domain_loc (Some example_candidates_loc) example_notebook
    = (Ok experiments, st') /\
    heap st' !! experiments = Some (FrameObj df) /\
    df_drop_columns df ["Yield"; "valid_Yield"] = Ok (candidates_of_rows example_rows).
Proof.
  destruct (evaluate_then_drop_round_trip example_notebook example_domain_loc
              example_candidates_loc reaction_domain example_rows
              eq_refl eq_refl reaction_domain_features eq_refl example_rows_known)
    as (experiments & st' & df & Hrun & Hdf & Hdrop & _).
  exists experiments, st', df. auto.
Defined.

(** X7. [evaluate_experiments] after [create_candidates]: in the reaction
    domain, evaluating the candidates that [create_candidates] returns gives a
    new table that is equal to the table of experiments which
    [create_candidates] had built and stripped of its yields; the evaluation
    draws no random number. *)
Theorem create_candidates_then_evaluate st domain nsamples :
  globals st = cell14 ->
  heap st !! domain = Some (DomainObj reaction_domain) ->
  generator_contract (np_random st) ->
  (0 <= nsamples)%Z ->
  exists internal st0 candidates st1 experiments st2 df,
    create_experiments domain nsamples 25 90 None st = (Ok internal, st0) /\
    heap st0 !! internal = Some (FrameObj df) /\
    create_candidates domain nsamples st = (Ok candidates, st1) /\
    evaluate_experiments domain (Some candidates) st1 = (Ok experiments, st2) /\
    heap st2 !! experiments = Some (FrameObj df) /\
    heap st2 !! internal = Some (FrameObj df) /\
    experiments <> internal /\
    experiments <> candidates /\
    np_random st2 = np_random st1.
Proof.
  intros Hg Hdom Hgen Hn.
  pose proof (create_experiments_random_run st domain nsamples 25 90 Hg Hdom Hgen Hn) as Hexp.
  pose proof (create_candidates_random_run st domain nsamples Hg Hdom Hgen Hn) as Hcand.
  cbv zeta in Hexp, Hcand.
  set (rows := random_rows (np_random st) (Z.to_nat nsamples)) in *.
  set (h1 := <[new_loc (heap st) := FrameObj (experiments_of_rows 25 90 rows)]> (heap st)) in *.
  set (h2 := <[new_loc h1 := FrameObj (candidates_of_rows rows)]> h1) in *.
  assert (Hint1 : h1 !! new_loc (heap st) = Some (FrameObj (experiments_of_rows 25 90 rows)))
    by apply lookup_insert_eq.
  assert (Hint2 : h2 !! new_loc (heap st) = Some (FrameObj (experiments_of_rows 25 90 rows)))
    by (apply lookup_after_alloc, Hint1).
  assert (Hc2 : h2 !! new_loc h1 = Some (FrameObj (candidates_of_rows rows)))
    by apply lookup_insert_eq.
  assert (Hdom2 : h2 !! domain = Some (DomainObj reaction_domain))
    by (apply lookup_after_alloc, lookup_after_alloc, Hdom).
  set (st1 := mkNotebook (globals st) h2
                (advance (np_random st) (Z.to_nat nsamples + Z.to_nat nsamples
                                         + Z.to_nat nsamples))) in *.
  pose proof (create_experiments_on_rows st1 domain (new_loc h1) reaction_domain
                (candidates_of_rows rows) rows 100 25 90 Hg Hdom2
                reaction_domain_features Hc2 (holds_rows_candidates rows)
                (random_rows_known _ _ Hgen)) as Heval.
  do 7 eexists.
  split; [exact Hexp|]. split; [exact Hint1|]. split; [exact Hcand|].
  split; [exact Heval|]. cbn [with_heap heap np_random st1].
  split; [apply lookup_insert_eq|].
  split; [apply lookup_after_alloc, Hint2|].
  split; [intros E; apply (allocated_not_new _ _ _ Hint2); symmetry; exact E|].
  split; [intros E; apply (allocated_not_new _ _ _ Hc2); symmetry; exact E|].
  reflexivity.
Qed.

(** X7 at work: four candidates in the example notebook, as in cells 16 and
    18 of the notebook. *)
Lemma create_candidates_then_evaluate_witness :
  exists candidates st1 experiments st2 df,
    create_candidates example_domain_loc 4 example_notebook = (Ok candidates, st1) /\
    evaluate_experiments example_domain_loc (Some candidates) st1 = (Ok experiments, st2) /\
    heap st2 !! experiments = Some (FrameObj df) /\
    experiments_shape df 4.
Proof.
  destruct (create_candidates_then_evaluate example_notebook example_domain_loc 4
              eq_refl eq_refl example_generator_contract ltac:(lia))
    as (internal & st0 & candidates & st1 & experiments & st2 & df
        & Hexp & Hint & Hcand & Heval & Hdf & _).
  exists candidates, st1, experiments, st2, df.
  split; [exact Hcand|]. split; [exact Heval|]. split; [exact Hdf|].
  apply create_experiments_random_inv in Hexp
    as [(e & [=]) | (df' & _ & Hshape & [= ->] & _ & Hh)].
  rewrite Hh, lookup_insert_eq in Hint. injection Hint as <-. exact Hshape.
Defined.

(** X8. Evaluating a table of experiments again changes nothing: the
    simulator reads the three input columns only, so the yields that the
    table already has are not used, and the second evaluation returns a new
    table equal to the first one. *)
Theorem evaluate_experiments_idempotent st domain candidates dom cands rows :
  globals st = cell14 ->
  heap st !! domain = Some (DomainObj dom) ->
  has_reaction_features dom ->
  heap st !! candidates = Some (FrameObj cands) ->
  holds_rows cands rows ->
  Forall (fun r => known_solvent (row_S r)) rows ->
  exists first st1 second st2 df,
    evaluate_experiments domain (Some candidates) st = (Ok first, st1) /\
    evaluate_experiments domain (Some first) st1 = (Ok second, st2) /\
    heap st2 !! first = Some (FrameObj df) /\
    heap st2 !! second = Some (FrameObj df) /\
    first <> second.
Proof.
  intros Hg Hdom Hfeat Hc Hrows Hknown. unfold evaluate_experiments.
  pose proof (create_experiments_on_rows st domain candidates dom cands rows 100 25 90
                Hg Hdom Hfeat Hc Hrows Hknown) as H1.
  set (st1 := with_heap st (<[new_loc (heap st)
                              := FrameObj (experiments_of_rows 25 90 rows)]> (heap st))) in *.
  assert (Hfirst : heap st1 !! new_loc (heap st)
                   = Some (FrameObj (experiments_of_rows 25 90 rows)))
    by apply lookup_insert_eq.
  assert (Hdom1 : heap st1 !! domain = Some (DomainObj dom))
    by (apply lookup_after_alloc, Hdom).
  pose proof (create_experiments_on_rows st1 domain (new_loc (heap st)) dom _ rows 100 25 90
                Hg Hdom1 Hfeat Hfirst (holds_rows_experiments 25 90 rows) Hknown) as H2.
  do 5 eexists. split; [exact H1|]. split; [exact H2|].
  cbn [with_heap heap].
  split; [apply lookup_after_alloc, Hfirst|].
  split; [apply lookup_insert_eq|].
  apply (allocated_not_new _ _ _ Hfirst).
Qed.

Lemma evaluate_experiments_idempotent_witness :
  exists first st1 second st2 df,
    evaluate_experiments example_domain_loc (Some example_candidates_loc) example_notebook
    = (Ok first, st1) /\
    evaluate_experiments example_domain_loc (Some first) st1 = (Ok second, st2) /\
    heap st2 !! first = Some (FrameObj df) /\
    heap st2 !! second = Some (FrameObj df) /\
    first <> second.
Proof.
  apply (evaluate_experiments_idempotent example_notebook example_domain_loc
           example_candidates_loc reaction_domain (candidates_of_rows example_rows)
           example_rows eq_refl eq_refl reaction_domain_features eq_refl
           (holds_rows_candidates example_rows) example_rows_known).
Defined.

Lemma bind_raise {A B} (m : M A) (k : A -> M B) st e st' :
  m st = (Raise e, st') -> bind m k st = (Raise e, st').
Proof. intros H. unfold bind. rewrite H. reflexivity. Qed.

(** The statements of [create_experiments] that read the domain. *)
Ltac read_features Hdom HTf HVf Htypef Hyf :=
  rewrite (bind_domain_inputs _ _ _ _ Hdom), bind_lift, HTf; cbv beta iota;
  rewrite (bind_domain_inputs _ _ _ _ Hdom), bind_lift, HVf; cbv beta iota;
  rewrite (bind_domain_inputs _ _ _ _ Hdom), bind_lift, Htypef; cbv beta iota;
  rewrite (bind_domain_outputs _ _ _ _ Hdom), bind_lift, Hyf; cbv beta iota.

(** X9. A table of candidates that lacks one of the columns Temperature,
    Solvent Volume or Solvent Type makes [evaluate_experiments] raise
    [KeyError]; nothing is allocated and the state is as it was. *)
Theorem evaluate_experiments_missing_column st domain candidates dom cands name :
  heap st !! domain = Some (DomainObj dom) ->
  has_reaction_features dom ->
  heap st !! candidates = Some (FrameObj cands) ->
  In name ["Temperature"; "Solvent Volume"; "Solvent Type"] ->
  df_has_column cands name = false ->
  evaluate_experiments domain (Some candidates) st = (Raise KeyError, st).
Proof.
  intros Hdom ([Tf HTf] & [Vf HVf] & [typef Htypef] & [yf Hyf]) Hc Hname Hmiss.
  unfold evaluate_experiments, create_experiments.
  read_features Hdom HTf HVf Htypef Hyf.
  rewrite bind_assoc, (bind_read_frame _ _ _ _ Hc). cbv zeta.
  unfold df_has_column in Hmiss. unfold df_getitem.
  destruct (dict_get (columns cands) "Temperature") as [T|] eqn:HT.
  2:{ run_pure. reflexivity. }
  destruct (dict_get (columns cands) "Solvent Volume") as [V|] eqn:HV.
  2:{ run_pure. reflexivity. }
  destruct (dict_get (columns cands) "Solvent Type") as [S|] eqn:HS.
  2:{ run_pure. reflexivity. }
  exfalso. destruct Hname as [<- | [<- | [<- | []]]].
  - rewrite HT in Hmiss. discriminate Hmiss.
  - rewrite HV in Hmiss. discriminate Hmiss.
  - rewrite HS in Hmiss. discriminate Hmiss.
Qed.

(** X9 at work: a table with no column at all. *)
Lemma evaluate_experiments_missing_column_witness :
  let st := with_heap example_notebook
              (<[3%positive := FrameObj (mkDataFrame [] [])]> (heap example_notebook)) in
  evaluate_experiments example_domain_loc (Some 3%positive) st = (Raise KeyError, st).
Proof.
  intros st.
  apply (evaluate_experiments_missing_column st example_domain_loc 3%positive
           reaction_domain (mkDataFrame [] []) "Solvent Volume").
  - reflexivity.
  - exact reaction_domain_features.
  - reflexivity.
  - right. left. reflexivity.
  - reflexivity.
Defined.

Lemma density_of_unknown s : density_of (Str s) = None <-> ~ known_solvent s.
Proof.
  unfold density_of, known_solvent. cbn [dict_get density].
  destruct (String.eqb_spec "MeOH" s) as [<-|H1]; [split; [discriminate|tauto]|].
  destruct (String.eqb_spec "THF" s) as [<-|H2]; [split; [discriminate|tauto]|].
  destruct (String.eqb_spec "Dioxane" s) as [<-|H3]; [split; [discriminate|tauto]|].
  split; [|reflexivity]. intros _ [E | [E | E]]; congruence.
Qed.

Lemma known_solvent_dec s : known_solvent s \/ ~ known_solvent s.
Proof.
  unfold known_solvent.
  destruct (String.eqb_spec s "MeOH"); [tauto|].
  destruct (String.eqb_spec s "THF"); [tauto|].
  destruct (String.eqb_spec s "Dioxane"); tauto.
Qed.

(** X10. On a table of candidates that holds numbers in its columns
    Temperature and Solvent Volume and strings in its column Solvent Type,
    [evaluate_experiments] fails in one way only: it returns when every
    solvent is one of MeOH, THF and Dioxane, and it raises [KeyError], with
    the state as it was, when some solvent is not. *)
Theorem evaluate_experiments_KeyError_iff st domain candidates dom cands rows :
  globals st = cell14 ->
  heap st !! domain = Some (DomainObj dom) ->
  has_reaction_features dom ->
  heap st !! candidates = Some (FrameObj cands) ->
  holds_rows cands rows ->
  ((exists experiments st',
      evaluate_experiments domain (Some candidates) st = (Ok experiments, st'))
   <-> Forall (fun r => known_solvent (row_S r)) rows) /\
  (evaluate_experiments domain (Some candidates) st = (Raise KeyError, st)
   <-> Exists (fun r => ~ known_solvent (row_S r)) rows).
Proof.
  intros Hg Hdom Hfeat Hc Hrows.
  assert (Hok : Forall (fun r => known_solvent (row_S r)) rows ->
                exists experiments st',
                  evaluate_experiments domain (Some candidates) st = (Ok experiments, st')).
  { intros Hknown. unfold evaluate_experiments.
    rewrite (create_experiments_on_rows st domain candidates dom cands rows 100 25 90
               Hg Hdom Hfeat Hc Hrows Hknown). eauto. }
  assert (Hbad : Exists (fun r => ~ known_solvent (row_S r)) rows ->
                 evaluate_experiments domain (Some candidates) st = (Raise KeyError, st)).
  { intros Hex.
    destruct Hfeat as ([Tf HTf] & [Vf HVf] & [typef Htypef] & [yf Hyf]).
    destruct Hrows as (HT & HV & HS & Hlen).
    unfold evaluate_experiments, create_experiments.
    read_features Hdom HTf HVf Htypef Hyf.
    rewrite bind_assoc, (bind_read_frame _ _ _ _ Hc). cbv zeta.
    unfold df_getitem. rewrite HT, HV, HS.
    run_pure. cbv beta iota delta [s_values].
    rewrite (bind_run _ _ _ _ _ (calc_Tfact_rows st rows Hg)).
    apply bind_raise. rewrite (calc_rhofact_unfold st _ _ Hg).
    rewrite density_series_unknown; [reflexivity|].
    clear -Hex. induction Hex as [r rows Hr | r rows _ IH]; cbn [map].
    - left. apply density_of_unknown, Hr.
    - right. exact IH. }
  assert (Hdec : Forall (fun r => known_solvent (row_S r)) rows \/
                 Exists (fun r => ~ known_solvent (row_S r)) rows).
  { clear. induction rows as [|r rows [IH|IH]].
    - left. constructor.
    - destruct (known_solvent_dec (row_S r)) as [Hr|Hr].
      + left. constructor; assumption.
      + right. left. exact Hr.
    - right. right. exact IH. }
  split; split.
  - intros (experiments & st' & Hrun). destruct Hdec as [Hall|Hex]; [exact Hall|].
    rewrite (Hbad Hex) in Hrun. discriminate Hrun.
  - exact Hok.
  - intros Hrun. destruct Hdec as [Hall|Hex]; [|exact Hex].
    destruct (Hok Hall) as (experiments & st' & Hrun'). rewrite Hrun in Hrun'.
    discriminate Hrun'.
  - exact Hbad.
Qed.

(** X10 at work: a candidate in water. *)
Lemma evaluate_experiments_KeyError_iff_witness :
  evaluate_experiments example_domain_loc (Some example_candidates_loc)
    unknown_solvent_notebook
  = (Raise KeyError, unknown_solvent_notebook).
Proof.
  destruct (evaluate_experiments_KeyError_iff unknown_solvent_notebook example_domain_loc
              example_candidates_loc reaction_domain
              (candidates_of_rows [mkRow 30 50 "Water"]) [mkRow 30 50 "Water"]
              eq_refl eq_refl reaction_domain_features eq_refl
              (holds_rows_candidates [mkRow 30 50 "Water"])) as [_ [_ H]].
  apply H. left. cbn [row_S]. apply density_of_unknown. reflexivity.
Defined.

(** ** The hypervolume metric on whole tables *)

(** The run of [hypervolume] on a table with numbers in c1 and c2. *)
Lemma hypervolume_constrained_run compute_hypervolume st domain experiments df rows :
  heap st !! experiments = Some (FrameObj df) ->
  dict_get (columns df) "c1" = Some (map Flt (map fst rows)) ->
  dict_get (columns df) "c2" = Some (map Flt (map snd rows)) ->
  hypervolume compute_hypervolume domain experiments st
  = compute_hypervolume domain (new_loc (heap st)) [("f1", 140); ("f2", 50)]
      (with_heap st
         (<[new_loc (heap st)
            := FrameObj (df_loc_mask df (map (fun r => feasible (fst r) (snd r)) rows))]>
            (heap st))).
Proof.
  intros Hexp Hc1 Hc2. unfold hypervolume.
  rewrite (bind_read_frame _ _ _ _ Hexp).
  unfold df_has_column, df_getattr. rewrite Hc1, Hc2.
  rewrite bind_lift. cbv beta iota.
  rewrite bind_lift, series_le_floats. cbv beta iota.
  rewrite bind_lift. cbv beta iota.
  rewrite bind_lift, series_ge_floats. cbv beta iota.
  rewrite bind_lift. unfold mask_and.
  rewrite !length_map, Nat.eqb_refl. cbv beta iota.
  rewrite bind_alloc.
  replace (map (fun p : bool * bool => fst p && snd p) _)
    with (map (fun r : R * R => feasible (fst r) (snd r)) rows); [reflexivity|].
  clear. induction rows as [|[c1 c2] rows IH]; cbn; [reflexivity|].
  rewrite <- IH. reflexivity.
Qed.

(** Selecting by the mask of the feasible rows keeps the elements that stand
    beside a feasible pair. *)
Lemma mask_select_beside {A B} (p : A -> bool) (rows : list A) (vs : list B) :
  mask_select (map p rows) vs
  = map snd (List.filter (fun rv => p (fst rv)) (combine rows vs)).
Proof.
  revert vs. induction rows as [|r rows IH]; intros [|v vs]; cbn; try reflexivity.
  destruct (p r); cbn; rewrite IH; reflexivity.
Qed.

Lemma columns_loc_mask_names df mask :
  map fst (columns (df_loc_mask df mask)) = map fst (columns df).
Proof. unfold df_loc_mask. cbn [columns]. rewrite map_map. reflexivity. Qed.

(** X11. The table that [hypervolume] passes on is made of whole rows of the
    table of experiments: it has the same columns, in the same order, and
    every column (the objectives f1 and f2 among them) and the index keep
    exactly the elements that stand in a row with c1 <= 25 and c2 >= 7.7, in
    their order; the rows keep their labels, and the table of experiments
    itself is not modified. *)
Theorem hypervolume_keeps_rows_whole compute_hypervolume st domain experiments df rows :
  heap st !! experiments = Some (FrameObj df) ->
  dict_get (columns df) "c1" = Some (map Flt (map fst rows)) ->
  dict_get (columns df) "c2" = Some (map Flt (map snd rows)) ->
  exists passed st',
    hypervolume compute_hypervolume domain experiments st
    = compute_hypervolume domain (new_loc (heap st)) [("f1", 140); ("f2", 50)] st' /\
    heap st' !! new_loc (heap st) = Some (FrameObj passed) /\
    heap st' !! experiments = Some (FrameObj df) /\
    map fst (columns passed) = map fst (columns df) /\
    (forall name vs,
       dict_get (columns df) name = Some vs ->
       dict_get (columns passed) name
       = Some (map snd (List.filter (fun rv => feasible (fst (fst rv)) (snd (fst rv)))
                                    (combine rows vs)))) /\
    index passed
    = map snd (List.filter (fun rv => feasible (fst (fst rv)) (snd (fst rv)))
                           (combine rows (index df))).
Proof.
  intros Hexp Hc1 Hc2. do 2 eexists.
  split; [apply (hypervolume_constrained_run _ _ _ _ _ rows Hexp Hc1 Hc2)|].
  cbn [with_heap heap].
  split; [apply lookup_insert_eq|].
  split; [apply lookup_after_alloc, Hexp|].
  split; [apply columns_loc_mask_names|].
  split.
  - intros name vs Hvs. rewrite dict_get_loc_mask, Hvs. cbn [option_map].
    rewrite (mask_select_beside (fun r => feasible (fst r) (snd r))). reflexivity.
  - cbn [df_loc_mask index].
    rewrite (mask_select_beside (fun r => feasible (fst r) (snd r))). reflexivity.
Qed.

(** X11 at work: of the rows (f1, c1, c2) = (100, 10, 8) and (120, 30, 9),
    labelled 0 and 1, the first one is passed on, whole and with its label. *)
Lemma hypervolume_keeps_rows_whole_witness :
  let df := mkDataFrame [("f1", [Flt 100; Flt 120]); ("c1", [Flt 10; Flt 30]);
                         ("c2", [Flt 8; Flt 9])] (RangeIndex 2) in
  let st := with_heap example_notebook (<[3%positive := FrameObj df]> (heap example_notebook)) in
  exists passed st',
    hypervolume example_compute_hypervolume example_domain_loc 3%positive st
    = example_compute_hypervolume example_domain_loc (new_loc (heap st))
        [("f1", 140); ("f2", 50)] st' /\
    heap st' !! new_loc (heap st) = Some (FrameObj passed) /\
    dict_get (columns passed) "f1" = Some [Flt 100] /\
    index passed = [IntLabel 0].
Proof.
  intros df st.
  destruct (hypervolume_keeps_rows_whole example_compute_hypervolume st example_domain_loc
              3%positive df [(10, 8); (30, 9)] eq_refl eq_refl eq_refl)
    as (passed & st' & Hrun & Hpassed & _ & _ & Hcols & Hidx).
  exists passed, st'. split; [exact Hrun|]. split; [exact Hpassed|].
  assert (H1 : feasible 10 8 = true) by (apply feasible_spec; lra).
  assert (H2 : feasible 30 9 = false).
  { destruct (feasible 30 9) eqn:E; [|reflexivity]. apply feasible_spec in E. lra. }
  split.
  - rewrite (Hcols "f1" [Flt 100; Flt 120] eq_refl).
    cbn [combine List.filter fst snd]. rewrite H1, H2. reflexivity.
  - rewrite Hidx. cbn [df index RangeIndex seq map combine List.filter fst snd].
    rewrite H1, H2. reflexivity.
Defined.

Lemma dict_get_In {V} (d : list (string * V)) k v : dict_get d k = Some v -> In (k, v) d.
Proof.
  induction d as [|[k' v'] d IH]; cbn [dict_get]; [discriminate|].
  destruct (String.eqb_spec k' k) as [->|_].
  - intros [= ->]. left. reflexivity.
  - intros H. right. apply IH, H.
Qed.

Lemma mask_select_all {A B} (p : A -> bool) (rows : list A) (vs : list B) :
  Forall (fun r => p r = true) rows ->
  length vs = length rows ->
  mask_select (map p rows) vs = vs.
Proof.
  intros Hall. revert vs. induction Hall as [|r rows Hr _ IH]; intros [|v vs] Hlen;
    try discriminate Hlen; [reflexivity|].
  cbn [map mask_select]. rewrite Hr, IH; [reflexivity|]. injection Hlen as Hlen. exact Hlen.
Qed.

Lemma mask_select_none {A B} (p : A -> bool) (rows : list A) (vs : list B) :
  Forall (fun r => p r = false) rows ->
  mask_select (map p rows) vs = [].
Proof.
  intros Hnone. revert vs. induction Hnone as [|r rows Hr _ IH]; intros [|v vs];
    try reflexivity.
  cbn [map mask_select]. rewrite Hr. apply IH.
Qed.

(** X12. The two extremes of the selection of [hypervolume], on a table as
    pandas builds them.  When every row has c1 <= 25 and c2 >= 7.7, the table
    that is passed on is a copy equal to the table of experiments.  When no
    row has, the library is still called, on a table with the same columns
    and no row. *)
Theorem hypervolume_all_or_none_feasible compute_hypervolume st domain experiments df rows :
  heap st !! experiments = Some (FrameObj df) ->
  dict_get (columns df) "c1" = Some (map Flt (map fst rows)) ->
  dict_get (columns df) "c2" = Some (map Flt (map snd rows)) ->
  well_formed df ->
  exists passed st',
    hypervolume compute_hypervolume domain experiments st
    = compute_hypervolume domain (new_loc (heap st)) [("f1", 140); ("f2", 50)] st' /\
    heap st' !! new_loc (heap st) = Some (FrameObj passed) /\
    new_loc (heap st) <> experiments /\
    (Forall (fun r => fst r <= 25 /\ snd r >= 7.7) rows -> passed = df) /\
    (Forall (fun r => ~ (fst r <= 25 /\ snd r >= 7.7)) rows ->
       columns passed = map (fun kv => (fst kv, [])) (columns df) /\
       index passed = []).
Proof.
  intros Hexp Hc1 Hc2 Hwf. do 2 eexists.
  split; [apply (hypervolume_constrained_run _ _ _ _ _ rows Hexp Hc1 Hc2)|].
  cbn [with_heap heap].
  split; [apply lookup_insert_eq|].
  split; [intros E; apply (allocated_not_new _ _ _ Hexp); symmetry; exact E|].
  assert (Hn : length (index df) = length rows).
  { unfold well_formed in Hwf. rewrite Forall_forall in Hwf.
    apply dict_get_In, list_elem_of_In, Hwf in Hc1. cbn [snd] in Hc1.
    rewrite !length_map in Hc1. symmetry. exact Hc1. }
  split.
  - intros Hall.
    assert (Hall' : Forall (fun r : R * R => feasible (fst r) (snd r) = true) rows).
    { eapply Forall_impl; [exact Hall|]. intros r Hr. apply feasible_spec, Hr. }
    unfold df_loc_mask, well_formed in *. destruct df as [cols idx].
    cbn [columns index] in *. f_equal.
    + clear Hc1 Hc2 Hexp. induction Hwf as [|[k vs] rest Hk _ IH]; [reflexivity|].
      cbn [map fst snd] in *. rewrite IH.
      rewrite (mask_select_all _ _ _ Hall') by (rewrite Hk; exact Hn). reflexivity.
    + apply (mask_select_all _ _ _ Hall'), Hn.
  - intros Hnone.
    assert (Hnone' : Forall (fun r : R * R => feasible (fst r) (snd r) = false) rows).
    { eapply Forall_impl; [exact Hnone|]. intros r Hr.
      destruct (feasible (fst r) (snd r)) eqn:E; [|reflexivity].
      apply feasible_spec in E. contradiction. }
    unfold df_loc_mask. cbn [columns index]. split.
    + apply map_ext. intros kv. rewrite (mask_select_none _ _ _ Hnone'). reflexivity.
    + apply (mask_select_none _ _ _ Hnone').
Qed.

(** X12 at work: in the example table the row (30, 9) is not feasible, and
    in the table that holds this row only, nothing is. *)
Lemma hypervolume_all_or_none_feasible_witness :
  let df := mkDataFrame [("c1", [Flt 30]); ("c2", [Flt 9])] (RangeIndex 1) in
  let st := with_heap example_notebook (<[3%positive := FrameObj df]> (heap example_notebook)) in
  exists passed st',
    hypervolume example_compute_hypervolume example_domain_loc 3%positive st
    = example_compute_hypervolume example_domain_loc (new_loc (heap st))
        [("f1", 140); ("f2", 50)] st' /\
    heap st' !! new_loc (heap st) = Some (FrameObj passed) /\
    passed = mkDataFrame [("c1", []); ("c2", [])] [].
Proof.
  intros df st.
  destruct (hypervolume_all_or_none_feasible example_compute_hypervolume st
              example_domain_loc 3%positive df [(30, 9)] eq_refl eq_refl eq_refl)
    as (passed & st' & Hrun & Hpassed & _ & _ & Hnone).
  { repeat constructor. }
  exists passed, st'. split; [exact Hrun|]. split; [exact Hpassed|].
  destruct Hnone as [Hcols Hidx].
  { constructor; [|constructor]. cbn [fst snd]. lra. }
  destruct passed as [cols idx]. cbn [columns index] in *. subst. reflexivity.
Defined.

(** ** The failures of the hypervolume metric *)

(** A comparison or an arithmetic operation on an array that holds a [str]
    raises [TypeError]. *)
Lemma mapM_as_float_str {B} (g : R -> B) vs :
  Exists is_str vs ->
  result_mapM (fun c => result_bind (as_float c) (fun v => Ok (g v))) vs = Raise TypeError.
Proof.
  induction 1 as [c vs [s ->] | c vs _ IH]; cbn [result_mapM].
  - reflexivity.
  - rewrite IH. destruct c; reflexivity.
Qed.

(** X13. The failures of [hypervolume] on a table that has a column c1.  A
    [str] in the column c1 raises [TypeError]; with numbers in c1, a missing
    column c2 raises [AttributeError] and a [str] in the column c2 raises
    [TypeError].  In each case no table is allocated, the state is as it was,
    and the library's [compute_hypervolume] is not called. *)
Theorem hypervolume_failures compute_hypervolume st domain experiments df c1 :
  heap st !! experiments = Some (FrameObj df) ->
  dict_get (columns df) "c1" = Some c1 ->
  (Exists is_str c1 ->
   hypervolume compute_hypervolume domain experiments st = (Raise TypeError, st)) /\
  (forall xs, c1 = map Flt xs ->
     dict_get (columns df) "c2" = None ->
     hypervolume compute_hypervolume domain experiments st = (Raise AttributeError, st)) /\
  (forall xs c2, c1 = map Flt xs ->
     dict_get (columns df) "c2" = Some c2 ->
     Exists is_str c2 ->
     hypervolume compute_hypervolume domain experiments st = (Raise TypeError, st)).
Proof.
  intros Hexp Hc1. unfold hypervolume.
  rewrite (bind_read_frame _ _ _ _ Hexp).
  unfold df_has_column, df_getattr. rewrite Hc1.
  rewrite bind_lift. cbv beta iota. rewrite bind_lift.
  split; [|split].
  - intros Hstr. unfold series_le. cbn [s_values].
    rewrite (mapM_as_float_str _ _ Hstr). reflexivity.
  - intros xs -> Hc2. rewrite series_le_floats. cbv beta iota.
    rewrite bind_lift, Hc2. reflexivity.
  - intros xs c2 -> Hc2 Hstr. rewrite series_le_floats. cbv beta iota.
    rewrite bind_lift, Hc2. cbv beta iota. rewrite bind_lift.
    unfold series_ge. cbn [s_values].
    rewrite (mapM_as_float_str _ _ Hstr). reflexivity.
Qed.

(** X13 at work: a table of experiments with a column c1 and no column c2. *)
Lemma hypervolume_failures_witness :
  let df := mkDataFrame [("c1", [Flt 10])] (RangeIndex 1) in
  let st := with_heap example_notebook (<[3%positive := FrameObj df]> (heap example_notebook)) in
  hypervolume example_compute_hypervolume example_domain_loc 3%positive st
  = (Raise AttributeError, st).
Proof.
  intros df st.
  destruct (hypervolume_failures example_compute_hypervolume st example_domain_loc
              3%positive df [Flt 10] eq_refl eq_refl) as (_ & H & _).
  apply (H [10]); reflexivity.
Defined.

(** ** Random candidates: sizes at the edge *)

(** X14. The number of samples at its edges, in the reaction domain.  A
    negative number makes [create_candidates] raise [ValueError] (numpy
    refuses the size) before anything is drawn or allocated: the state is as
    it was.  Zero samples give a table with the three columns of candidates
    and no row, and draw no random number. *)
Theorem create_candidates_edge_sizes st domain :
  globals st = cell14 ->
  heap st !! domain = Some (DomainObj reaction_domain) ->
  generator_contract (np_random st) ->
  (forall nsamples, (nsamples < 0)%Z ->
     create_candidates domain nsamples st = (Raise ValueError, st)) /\
  (exists candidates st',
     create_candidates domain 0 st = (Ok candidates, st') /\
     heap st' !! candidates
     = Some (FrameObj (mkDataFrame [("Temperature", []); ("Solvent Volume", []);
                                    ("Solvent Type", [])] [])) /\
     np_random st' = np_random st).
Proof.
  intros Hg Hdom Hgen. split.
  - intros nsamples Hneg. unfold create_candidates. apply bind_raise.
    unfold create_experiments.
    read_features Hdom
      (eq_refl : get_by_key (inputs reaction_domain) "Temperature" = Ok temperature_feature)
      (eq_refl : get_by_key (inputs reaction_domain) "Solvent Volume"
                 = Ok solvent_amount_feature)
      (eq_refl : get_by_key (inputs reaction_domain) "Solvent Type" = Ok solvent_type_feature)
      (eq_refl : get_by_key (outputs reaction_domain) "Yield" = Ok yield_feature).
    change (lower_bound temperature_feature) with (Ok 0).
    change (upper_bound temperature_feature) with (Ok 60).
    run_pure. apply bind_raise. unfold np_random_uniform.
    destruct (Z.ltb_spec nsamples 0) as [_|H]; [reflexivity|lia].
  - pose proof (create_candidates_random_run st domain 0 Hg Hdom Hgen ltac:(lia)) as Hrun.
    cbv zeta in Hrun. do 2 eexists. split; [exact Hrun|].
    cbn [heap np_random]. split; [apply lookup_insert_eq|].
    unfold advance. cbn [Z.to_nat Nat.add]. rewrite Nat.add_0_r.
    destruct (np_random st); reflexivity.
Qed.

(** X14 at work, in the example notebook. *)
Lemma create_candidates_edge_sizes_witness :
  create_candidates example_domain_loc (-1) example_notebook
  = (Raise ValueError, example_notebook).
Proof.
  destruct (create_candidates_edge_sizes example_notebook example_domain_loc
              eq_refl eq_refl example_generator_contract) as [H _].
  apply H. lia.
Defined.

(** ** Random candidates in any domain *)

(** A draw of [randint(0, 3)] indexes the first three categories. *)
Lemma first_three_getitem cs k :
  (3 <= length cs)%nat ->
  (0 <= k < 3)%Z ->
  list_getitem cs k = Ok (nth (Z.to_nat k) cs EmptyString)
  /\ In (nth (Z.to_nat k) cs EmptyString) (firstn 3 cs).
Proof.
  intros Hlen Hk. unfold list_getitem. destruct (Z.ltb_spec k 0); [lia|].
  destruct cs as [|c0 [|c1 [|c2 cs]]]; cbn [length] in Hlen; try lia.
  assert (Hcases : Z.to_nat k = 0%nat \/ Z.to_nat k = 1%nat \/ Z.to_nat k = 2%nat) by lia.
  destruct Hcases as [-> | [-> | ->]]; cbn; auto.
Qed.

Lemma categories_comprehension_run domain dom cs st n :
  heap st !! domain = Some (DomainObj dom) ->
  get_by_key (inputs dom) "Solvent Type" = Ok (CategoricalInput "Solvent Type" cs) ->
  (3 <= length cs)%nat ->
  generator_contract (np_random st) ->
  list_comprehension n
    (ins <- domain_inputs domain ;;
     f <- lift (get_by_key ins "Solvent Type") ;;
     cs <- lift (categories f) ;;
     k <- np_random_randint 0 3 ;;
     c <- lift (list_getitem cs k) ;;
     ret (Str c)) st
  = (Ok (map (fun i => Str (nth (Z.to_nat (random_integer (np_random st) 0 3
                                              (drawn (np_random st) + i)))
                                 cs EmptyString))
             (seq 0 n)),
     draw n st).
Proof.
  intros Hdom Htype Hlen. revert st Hdom. induction n as [|n IH]; intros st Hdom Hgen.
  - cbn [list_comprehension seq map]. unfold ret, draw, advance.
    rewrite Nat.add_0_r. destruct st as [g h [u z d]]; reflexivity.
  - cbn [list_comprehension].
    rewrite bind_assoc, (bind_domain_inputs _ _ _ _ Hdom).
    rewrite bind_assoc, bind_lift, Htype. cbv beta iota.
    rewrite bind_assoc, bind_lift. cbn [categories]. cbv beta iota.
    rewrite bind_assoc, (bind_run _ _ _ _ _ (np_random_randint_run st)).
    destruct Hgen as [Hu Hz].
    rewrite bind_assoc, bind_lift.
    rewrite (proj1 (first_three_getitem cs _ Hlen (Hz 0%Z 3%Z _ eq_refl))).
    cbv beta iota. rewrite bind_ret.
    rewrite (bind_run _ _ _ _ _ (IH (draw 1 st) Hdom (conj Hu Hz))).
    unfold ret. rewrite draw_draw. f_equal. f_equal.
    cbn [seq map]. rewrite Nat.add_0_r. f_equal.
    rewrite <- seq_shift, map_map. apply map_ext. intros i.
    cbn. rewrite <- Nat.add_assoc. reflexivity.
Qed.

Lemma random_rows_in_known loT hiT loV hiV cs g n :
  generator_contract g ->
  (3 <= length cs)%nat ->
  Forall known_solvent (firstn 3 cs) ->
  Forall (fun r => known_solvent (row_S r)) (random_rows_in loT hiT loV hiV cs g n).
Proof.
  intros [_ Hz] Hlen Hknown. unfold random_rows_in. apply Forall_forall. intros r Hin.
  apply list_elem_of_In, in_map_iff in Hin as (i & <- & _). cbn [row_S].
  rewrite Forall_forall in Hknown. apply Hknown, list_elem_of_In.
  apply first_three_getitem; [exact Hlen|]. apply Hz. reflexivity.
Qed.

Lemma length_random_rows_in loT hiT loV hiV cs g n :
  length (random_rows_in loT hiT loV hiV cs g n) = n.
Proof. unfold random_rows_in. rewrite length_map, length_seq. reflexivity. Qed.

(** In a domain with at least three categories, the first three of them
    solvents of the table of descriptors, the simulator without candidates
    returns the table of [random_rows_in]. *)
Lemma create_experiments_sampling_run st domain dom loT hiT loV hiV cs nsamples A B :
  globals st = cell14 ->
  heap st !! domain = Some (DomainObj dom) ->
  sampling_domain dom loT hiT loV hiV cs ->
  (3 <= length cs)%nat ->
  Forall known_solvent (firstn 3 cs) ->
  generator_contract (np_random st) ->
  (0 <= nsamples)%Z ->
  let n := Z.to_nat nsamples in
  create_experiments domain nsamples A B None st
  = (Ok (new_loc (heap st)),
     mkNotebook (globals st)
       (<[new_loc (heap st)
          := FrameObj (experiments_of_rows A B
                         (random_rows_in loT hiT loV hiV cs (np_random st) n))]> (heap st))
       (advance (np_random st) (n + n + n))).
Proof.
  intros Hg Hdom (HTf & HVf & Htypef & [yf Hyf]) Hlen Hknown Hgen Hn n.
  unfold create_experiments.
  read_features Hdom HTf HVf Htypef Hyf.
  rewrite (get_by_key_key _ _ _ Hyf).
  cbn [key lower_bound upper_bound].
  run_pure.
  rewrite (bind_run _ _ _ _ _ (np_random_uniform_run loT hiT nsamples st Hn)).
  run_pure.
  rewrite (bind_run _ _ _ _ _ (np_random_uniform_run loV hiV nsamples _ Hn)).
  fold n. rewrite draw_draw.
  rewrite bind_assoc.
  rewrite (bind_run _ _ _ _ _
             (categories_comprehension_run domain dom cs (draw (n + n) st) n
                Hdom Htypef Hlen Hgen)).
  rewrite bind_ret. cbv beta iota. rewrite draw_draw.
  cbn [np_random draw advance drawn random_sample random_integer].
  set (rows := random_rows_in loT hiT loV hiV cs (np_random st) n).
  replace (map (fun i => Flt (loT + (hiT - loT) * random_sample (np_random st)
                                  (drawn (np_random st) + i))) (seq 0 n))
    with (map Flt (map row_T rows))
    by (unfold rows, random_rows_in; rewrite !map_map; reflexivity).
  replace (map (fun i => Flt (loV + (hiV - loV) * random_sample (np_random st)
                                  (drawn (np_random st) + n + i))) (seq 0 n))
    with (map Flt (map row_V rows))
    by (unfold rows, random_rows_in; rewrite !map_map; reflexivity).
  replace (map (fun i => Str (nth (Z.to_nat (random_integer (np_random st) 0 3
                                     (drawn (np_random st) + (n + n) + i)))
                                  cs EmptyString)) (seq 0 n))
    with (map Str (map row_S rows))
    by (unfold rows, random_rows_in; rewrite !map_map; apply map_ext; intros i;
        cbn [row_S]; rewrite Nat.add_assoc; reflexivity).
  assert (Hns : nsamples = Z.of_nat (length rows)).
  { unfold rows. rewrite length_random_rows_in. unfold n. lia. }
  replace (Z.to_nat nsamples) with (length rows) by lia.
  rewrite Hns.
  assert (Hlen' : n = length rows)
    by (unfold rows; rewrite length_random_rows_in; reflexivity).
  run_body (draw (n + n + n) st) rows A B Hg
           (random_rows_in_known loT hiT loV hiV cs _ n Hgen Hlen Hknown); [reflexivity|].
  intros r. unfold spec_yield, spec_rhofact. cbv zeta. lra.
Qed.

Lemma random_rows_in_bounds loT hiT loV hiV cs g n :
  generator_contract g ->
  loT <= hiT -> loV <= hiV ->
  (3 <= length cs)%nat ->
  Forall (fun r => loT <= row_T r <= hiT /\ loV <= row_V r <= hiV
                   /\ In (row_S r) (firstn 3 cs))
         (random_rows_in loT hiT loV hiV cs g n).
Proof.
  intros [Hu Hz] HT HV Hlen. unfold random_rows_in. apply Forall_forall. intros r Hin.
  apply list_elem_of_In, in_map_iff in Hin as (i & <- & _).
  cbn [row_T row_V row_S].
  pose proof (Hu (drawn g + i)%nat) as HuT.
  pose proof (Hu (drawn g + n + i)%nat) as HuV.
  split; [nra|]. split; [nra|].
  apply first_three_getitem; [exact Hlen|]. apply Hz. reflexivity.
Qed.

(** X15. [create_candidates] in any domain whose first three solvents are in
    the table of descriptors: whatever bounds the domain declares for the
    temperature and the volume, every candidate lies within them; and the
    solvent of every candidate is one of the first three categories - the
    code draws the index with [randint(0, 3)], so a fourth or later category
    is never proposed. *)
Theorem create_candidates_first_three_categories
    st domain dom loT hiT loV hiV cs nsamples :
  globals st = cell14 ->
  heap st !! domain = Some (DomainObj dom) ->
  sampling_domain dom loT hiT loV hiV cs ->
  loT <= hiT -> loV <= hiV ->
  (3 <= length cs)%nat ->
  Forall known_solvent (firstn 3 cs) ->
  generator_contract (np_random st) ->
  (0 <= nsamples)%Z ->
  exists candidates st' rows,
    create_candidates domain nsamples st = (Ok candidates, st') /\
    heap st' !! candidates = Some (FrameObj (candidates_of_rows rows)) /\
    length rows = Z.to_nat nsamples /\
    Forall (fun r => loT <= row_T r <= hiT /\ loV <= row_V r <= hiV
                     /\ In (row_S r) (firstn 3 cs)) rows.
Proof.
  intros Hg Hdom Hsd HT HV Hlen Hknown Hgen Hn.
  pose proof (create_experiments_sampling_run st domain dom loT hiT loV hiV cs nsamples
                25 90 Hg Hdom Hsd Hlen Hknown Hgen Hn) as Hrun.
  cbv zeta in Hrun.
  set (rows := random_rows_in loT hiT loV hiV cs (np_random st) (Z.to_nat nsamples)) in *.
  unfold create_candidates.
  rewrite (bind_run _ _ _ _ _ Hrun).
  rewrite (bind_read_frame _ _ _ _ (lookup_insert_eq _ _ _)).
  rewrite bind_lift, drop_yields_of_experiments. cbv beta iota.
  rewrite bind_alloc. unfold ret.
  do 2 eexists. exists rows.
  split; [reflexivity|]. cbn [with_heap heap].
  split; [apply lookup_insert_eq|].
  split; [apply length_random_rows_in|].
  apply random_rows_in_bounds; assumption.
Qed.

(** X15 at work: with Water as fourth solvent in stock and a generator whose
    integers are the largest possible, three candidates are proposed, none of
    them in water. *)
Lemma create_candidates_first_three_categories_witness :
  exists candidates st' rows,
    create_candidates example_domain_loc 3 (notebook_of four_solvents_domain top_generator)
    = (Ok candidates, st') /\
    heap st' !! candidates = Some (FrameObj (candidates_of_rows rows)) /\
    Forall (fun r => 10 <= row_T r <= 30 /\ 40 <= row_V r <= 60
                     /\ In (row_S r) ["THF"; "MeOH"; "Dioxane"]) rows.
Proof.
  destruct (create_candidates_first_three_categories
              (notebook_of four_solvents_domain top_generator) example_domain_loc
              four_solvents_domain 10 30 40 60 ["THF"; "MeOH"; "Dioxane"; "Water"] 3)
    as (candidates & st' & rows & Hrun & Hc & _ & Hrows).
  - reflexivity.
  - reflexivity.
  - repeat split. exists (ContinuousOutput "Yield"). reflexivity.
  - lra.
  - lra.
  - cbn. lia.
  - cbn [firstn]. unfold known_solvent.
    constructor; [right; left; reflexivity|].
    constructor; [left; reflexivity|].
    constructor; [right; right; reflexivity|]. constructor.
  - split; [intros k; cbn; lra | intros low high k H; cbn; lia].
  - lia.
  - exists candidates, st', rows. auto.
Defined.

(** X16. The index of the solvent is drawn among 0, 1 and 2 whatever the
    number of categories.  In a domain that has fewer than three categories,
    [create_candidates] raises [IndexError] as soon as the first index drawn
    is not below their number; by then the temperatures, the volumes and that
    index have been drawn, and the generator stays advanced by them. *)
Theorem create_candidates_few_categories st domain dom loT hiT loV hiV cs nsamples :
  heap st !! domain = Some (DomainObj dom) ->
  sampling_domain dom loT hiT loV hiV cs ->
  (0 < nsamples)%Z ->
  let n := Z.to_nat nsamples in
  (Z.of_nat (length cs)
   <= random_integer (np_random st) 0 3 (drawn (np_random st) + n + n))%Z ->
  create_candidates domain nsamples st = (Raise IndexError, draw (n + n + 1) st).
Proof.
  intros Hdom (HTf & HVf & Htypef & [yf Hyf]) Hn n Hk.
  unfold create_candidates. apply bind_raise. unfold create_experiments.
  read_features Hdom HTf HVf Htypef Hyf.
  cbn [key lower_bound upper_bound].
  run_pure.
  rewrite (bind_run _ _ _ _ _ (np_random_uniform_run loT hiT nsamples st ltac:(lia))).
  run_pure.
  rewrite (bind_run _ _ _ _ _ (np_random_uniform_run loV hiV nsamples _ ltac:(lia))).
  fold n. rewrite draw_draw.
  apply bind_raise. apply bind_raise.
  destruct n as [|n'] eqn:En; [lia|]. cbn [list_comprehension].
  apply bind_raise.
  assert (Hdom' : heap (draw (S n' + S n') st) !! domain = Some (DomainObj dom)) by exact Hdom.
  rewrite (bind_domain_inputs _ _ _ _ Hdom'), bind_lift, Htypef. cbv beta iota.
  rewrite bind_lift. cbn [categories]. cbv beta iota.
  rewrite (bind_run _ _ _ _ _ (np_random_randint_run _)).
  rewrite draw_draw, bind_lift.
  cbn [np_random draw advance drawn random_integer].
  unfold list_getitem.
  destruct (Z.ltb_spec (random_integer (np_random st) 0 3
                          (drawn (np_random st) + (S n' + S n'))) 0) as [_|Hpos];
    [reflexivity|].
  rewrite Nat.add_assoc in *.
  destruct (nth_error cs _) as [c|] eqn:E; [|reflexivity].
  exfalso.
  assert (Hlt : (Z.to_nat (random_integer (np_random st) 0 3
                             (drawn (np_random st) + S n' + S n')) < length cs)%nat)
    by (apply nth_error_Some; rewrite E; discriminate).
  lia.
Qed.

(** X16 at work: two solvents, and a generator that draws the index 2. *)
Lemma create_candidates_few_categories_witness :
  create_candidates example_domain_loc 1 (notebook_of two_solvents_domain top_generator)
  = (Raise IndexError, draw 3 (notebook_of two_solvents_domain top_generator)).
Proof.
  apply (create_candidates_few_categories
           (notebook_of two_solvents_domain top_generator) example_domain_loc
           two_solvents_domain 0 60 20 90 ["MeOH"; "THF"] 1).
  - reflexivity.
  - repeat split. exists (ContinuousOutput "Yield"). reflexivity.
  - lia.
  - cbn. lia.
Defined.

(** ** What [create_candidates] does to the notebook state *)

(** Every run of the simulator without candidates leaves the module-level
    names as they are; it allocates one table when it returns and nothing
    when it raises. *)
Lemma create_experiments_random_frame domain nsamples A B st r st' :
  create_experiments domain nsamples A B None st = (r, st') ->
  globals st' = globals st /\
  match r with
  | Ok l => l = new_loc (heap st) /\
            exists df, heap st' = <[new_loc (heap st) := FrameObj df]> (heap st)
  | Raise _ => heap st' = heap st
  end.
Proof.
  intros H. unfold create_experiments in H.
  step_reader H ins Hins; [split; reflexivity|].
  apply domain_inputs_inv in Hins as (dom & Hdom & -> & _).
  step_lift H Tf HTf; [split; reflexivity|].
  step_reader H ins Hins; [split; reflexivity|].
  apply domain_inputs_inv in Hins as (dom' & Hdom' & -> & _).
  rewrite Hdom in Hdom'. injection Hdom' as <-.
  step_lift H Vf HVf; [split; reflexivity|].
  step_reader H ins Hins; [split; reflexivity|].
  apply domain_inputs_inv in Hins as (dom' & Hdom' & -> & _).
  rewrite Hdom in Hdom'. injection Hdom' as <-.
  step_lift H typef Htypef; [split; reflexivity|].
  step_reader H outs Houts; [split; reflexivity|].
  apply domain_outputs_inv in Houts as (dom' & Hdom' & -> & _).
  rewrite Hdom in Hdom'. injection Hdom' as <-.
  step_lift H yf Hyf; [split; reflexivity|].
  apply bind_inv in H as [(e & Hsampled & ->) | (sampled & st1 & Hsampled & H)].
  { eapply sampler_run; [|exact Hsampled]. solve_sampler. }
  assert (Hst1 : globals st1 = globals st /\ heap st1 = heap st).
  { eapply sampler_run; [|exact Hsampled]. solve_sampler. }
  destruct Hst1 as [Hg1 Hh1].
  destruct sampled as [[[n T] V] solvent_types].
  rewrite (get_by_key_key _ _ _ HTf), (get_by_key_key _ _ _ HVf),
          (get_by_key_key _ _ _ Htypef), (get_by_key_key _ _ _ Hyf) in H.
  body_steps H ltac:(split; assumption).
  cbn [globals heap]. rewrite Hh1, Hg1.
  split; [reflexivity|]. split; [reflexivity|]. eexists. reflexivity.
Qed.

(** X17. Every run of [create_candidates], in every state and for every
    domain and number of samples, leaves the module-level names and every
    object that existed (the domain among them) as they were.  When it
    returns, it has allocated two tables and nothing else: the table of
    experiments it built and the table of candidates it returns, both at
    references that were not in use.  When it raises, it has allocated
    nothing. *)
Theorem create_candidates_frame domain nsamples st r st' :
  create_candidates domain nsamples st = (r, st') ->
  globals st' = globals st /\
  (forall l o, heap st !! l = Some o -> heap st' !! l = Some o) /\
  match r with
  | Ok candidates =>
      exists experiments e c,
        heap st !! experiments = None /\
        heap st !! candidates = None /\
        experiments <> candidates /\
        heap st' = <[candidates := FrameObj c]> (<[experiments := FrameObj e]> (heap st))
  | Raise _ => heap st' = heap st
  end.
Proof.
  intros H. unfold create_candidates in H.
  apply bind_inv in H as [(e & Hexp & ->) | (l & st1 & Hexp & H)].
  - apply create_experiments_random_frame in Hexp as [Hg Hh].
    split; [exact Hg|]. split; [|exact Hh]. intros l o Hl. rewrite Hh. exact Hl.
  - pose proof Hexp as Hshape.
    apply create_experiments_random_frame in Hexp as (Hg & -> & df & Hh).
    apply create_experiments_random_inv in Hshape
      as [(e & [=]) | (df' & _ & (T & V & y & s & Hcols & _) & _ & _ & Hh')].
    assert (Hl : heap st1 !! new_loc (heap st) = Some (FrameObj df))
      by (rewrite Hh; apply lookup_insert_eq).
    assert (Hdf : df' = df).
    { rewrite Hh', lookup_insert_eq in Hl. injection Hl as Hl. exact Hl. }
    subst df'.
    rewrite (bind_read_frame _ _ _ _ Hl), bind_lift in H.
    unfold df_drop_columns, df_has_column in H. rewrite Hcols in H.
    cbn [forallb dict_get String.eqb Ascii.eqb Bool.eqb andb] in H.
    rewrite bind_alloc in H. unfold ret in H. injection H as <- <-.
    cbn [with_heap globals heap]. split; [exact Hg|]. split.
    + intros l o Hlo. apply lookup_after_alloc. rewrite Hh.
      apply lookup_after_alloc, Hlo.
    + exists (new_loc (heap st)), df. eexists.
      split; [apply new_loc_fresh|]. split; [|split].
      * destruct (heap st !! new_loc (heap st1)) as [o|] eqn:E; [|reflexivity].
        exfalso.
        assert (E1 : heap st1 !! new_loc (heap st1) = Some o).
        { revert E. generalize (new_loc (heap st1)). intros x Ex.
          rewrite Hh. apply lookup_after_alloc, Ex. }
        rewrite new_loc_fresh in E1. discriminate E1.
      * apply (allocated_not_new _ _ _ Hl).
      * rewrite Hh at 2. reflexivity.
Qed.

(** X17 at work: four candidates in the example notebook. *)
Lemma create_candidates_frame_witness :
  exists candidates st',
    create_candidates example_domain_loc 4 example_notebook = (Ok candidates, st') /\
    globals st' = cell14 /\
    heap st' !! example_domain_loc = Some (DomainObj reaction_domain) /\
    heap example_notebook !! candidates = None.
Proof.
  destruct (create_candidates example_domain_loc 4 example_notebook) as [r st'] eqn:Hrun.
  pose proof (create_candidates_frame example_domain_loc 4 example_notebook r st' Hrun)
    as (Hg & Hkeep & Hr).
  rewrite (create_candidates_random_run example_notebook example_domain_loc 4
             eq_refl eq_refl example_generator_contract ltac:(lia)) in Hrun.
  injection Hrun as <- <-.
  destruct Hr as (experiments & e & c & _ & Hfresh & _).
  do 2 eexists. split; [reflexivity|].
  split; [exact Hg|]. split; [apply Hkeep; reflexivity|exact Hfresh].
Defined.

(** ** The number of iterations of the optimization loop *)


